(** * EdUTEND backend: QR attendance sessions and attendance marking

    A shallow embedding of the Express/Mongoose backend:
    - the authentication middleware ([authenticateToken], [requireRole],
      [canAccessResource], [rateLimitAction]; the part of
      [backend/README.md] that starts with
      [const jwt = require('jsonwebtoken')]),
    - [backend/models/QR.js] (schema, hooks, virtuals, instance and
      static methods),
    - the attendance model (schema, unique index, hooks, [updateStatus];
      the first part of [unnamed/part_004]) and the user model that
      follows it,
    - the course model (the second part of [backend/routes/attendance.js]),
    - [backend/routes/qr.js] (generate, validate, sessions, active,
      expire),
    - [backend/routes/attendance.js] (mark),
    - [backend/routes/users.js] (delete, activate).

    Collections are explicit values threaded through every handler; a
    handler returns its HTTP response together with the database it
    leaves behind.  Each evaluation of [new Date()] in the source is an
    explicit clock argument.  A thrown error is [None]; the [catch] of
    the route turns it into the 500 response.  A text is held as its
    UTF-8 bytes; an [ObjectId] as the 24 digits it prints as, and an id
    that comes with a request is cast before it is matched. *)

From Stdlib Require Import ZArith String Ascii Bool Lia.
From stdpp Require Import base option list strings gmap.

Local Open Scope Z_scope.

(** ** JavaScript values and built-ins used by the handlers *)
Module Js.

(** A query-string parameter: absent ([undefined]) or a string. *)
Definition Param : Type := option string.

(** [!p] is false exactly for a non-empty string. *)
Definition truthy (p : Param) : bool :=
  match p with
  | Some (String _ _) => true
  | _ => false
  end.

(** [a || b] on strings. *)
Definition or_else (p : Param) (d : string) : string :=
  match p with
  | Some (String c r) => String c r
  | _ => d
  end.

(** A JavaScript string is held as its UTF-8 encoding, one [ascii] per
    byte; two well-formed texts are equal as JavaScript strings exactly
    when their bytes are.  (A lone surrogate has no encoding and is not
    represented.) *)
Definition byte (c : ascii) : N := N_of_ascii c.

(** White space as [String.prototype.trim] and [parseInt] see it
    (WhiteSpace and LineTerminator of the language): U+0009 to U+000D
    and U+0020, one byte each; *)
Definition is_ws (c : ascii) : bool :=
  let n := byte c in
  ((9 <=? n) && (n <=? 13) || (n =? 32))%N.

(** U+00A0, two bytes; *)
Definition is_ws2 (c1 c2 : ascii) : bool :=
  ((byte c1 =? 194) && (byte c2 =? 160))%N.

(** U+1680, U+2000 to U+200A, U+2028, U+2029, U+202F, U+205F, U+3000
    and U+FEFF, three bytes each. *)
Definition is_ws3 (c1 c2 c3 : ascii) : bool :=
  let '(a, b, c) := (byte c1, byte c2, byte c3) in
  ((a =? 225) && (b =? 154) && (c =? 128)
   || (a =? 226) && (b =? 128)
      && ((128 <=? c) && (c <=? 138) || (c =? 168) || (c =? 169) || (c =? 175))
   || (a =? 226) && (b =? 129) && (c =? 159)
   || (a =? 227) && (b =? 128) && (c =? 128)
   || (a =? 239) && (b =? 187) && (c =? 191))%N.

(** Drop the white space a text starts with; with [back], the text is
    read back to front, each character's bytes in reverse. *)
Fixpoint drop_ws (back : bool) (s : string) : string :=
  match s with
  | String c1 r1 =>
      if is_ws c1 then drop_ws back r1
      else
        match r1 with
        | String c2 r2 =>
            if (if back then is_ws2 c2 c1 else is_ws2 c1 c2) then drop_ws back r2
            else
              match r2 with
              | String c3 r3 =>
                  if (if back then is_ws3 c3 c2 c1 else is_ws3 c1 c2 c3)
                  then drop_ws back r3
                  else s
              | EmptyString => s
              end
        | EmptyString => s
        end
  | EmptyString => EmptyString
  end.

Fixpoint rev_onto (s acc : string) : string :=
  match s with
  | String c r => rev_onto r (String c acc)
  | EmptyString => acc
  end.

Definition reverse (s : string) : string := rev_onto s EmptyString.

Definition trim_start (s : string) : string := drop_ws false s.

Definition trim_end (s : string) : string := reverse (drop_ws true (reverse s)).

Definition trim (s : string) : string := trim_end (trim_start s).

(** [s.length]: the number of UTF-16 code units.  A byte that continues
    a character counts for nothing, a byte that starts a character of
    four bytes (a surrogate pair) for two, any other for one. *)
Fixpoint length (s : string) : Z :=
  match s with
  | String c r =>
      let n := byte c in
      (if (n <? 128)%N then 1
       else if (n <? 192)%N then 0
       else if (n <? 240)%N then 1
       else 2) + length r
  | EmptyString => 0
  end.

(** [n + 1] on a number that holds an integer: exact up to 2^53; from
    there on the sum is rounded to the nearest number there is, to the
    even one on a tie. *)
Definition num_succ (n : Z) : Z :=
  if (- 2 ^ 53 <=? n) && (n <? 2 ^ 53) then n + 1
  else if (- 2 ^ 54 <? n) && (n <? 2 ^ 54)
       then (if Z.even (n / 2) then n else n + 2)
       else n.

(** Value of a digit in a radix up to 36. *)
Definition digit_val (c : ascii) : option Z :=
  let n := Z.of_N (N_of_ascii c) in
  if (48 <=? n) && (n <=? 57) then Some (n - 48)
  else if (97 <=? n) && (n <=? 122) then Some (n - 87)
  else if (65 <=? n) && (n <=? 90) then Some (n - 55)
  else None.

(** Longest prefix of digits of the radix; [None] when there is none. *)
Fixpoint digits (radix : Z) (s : string) (acc : option Z) : option Z :=
  match s with
  | String c r =>
      match digit_val c with
      | Some d =>
          if d <? radix
          then digits radix r (Some (match acc with
                                     | Some a => a * radix + d
                                     | None => d
                                     end))
          else acc
      | None => acc
      end
  | EmptyString => acc
  end.

Definition strip_sign (s : string) : bool * string :=
  match s with
  | String "-"%char r => (true, r)
  | String "+"%char r => (false, r)
  | _ => (false, s)
  end.

Definition strip_hex (s : string) : Z * string :=
  match s with
  | String "0"%char (String "x"%char r) => (16, r)
  | String "0"%char (String "X"%char r) => (16, r)
  | _ => (10, s)
  end.

(** [parseInt(s)] without a radix; [None] is [NaN]. *)
Definition parseInt (s : string) : option Z :=
  let '(neg, s1) := strip_sign (trim_start s) in
  let '(radix, s2) := strip_hex s1 in
  match digits radix s2 None with
  | Some n => Some (if neg then - n else n)
  | None => None
  end.

(** The two kinds of value that meet in the handlers' [===] tests: a
    primitive string and an [ObjectId] object. *)
Inductive Val : Type :=
| Str (s : string)
| Oid (hex : string).

Definition toString (v : Val) : string :=
  match v with
  | Str s => s
  | Oid h => h
  end.

(** [a === b]: values of different types are never strictly equal, and
    an object is strictly equal only to itself, never to the string
    another object prints as. *)
Definition strict_eq (a b : Val) : bool :=
  match a, b with
  | Str x, Str y => String.eqb x y
  | _, _ => false
  end.

End Js.

(** ** Documents *)

(** The text of an [ObjectId]. *)
Abbreviation ObjectId := string (only parsing).

(** Milliseconds since the epoch. *)
Abbreviation Time := Z (only parsing).

Inductive Role : Type := admin | lecturer | student.

Definition Role_eqb (a b : Role) : bool :=
  match a, b with
  | admin, admin | lecturer, lecturer | student, student => true
  | _, _ => false
  end.

Module User.
Record t : Type := mk
  { _id : ObjectId;
    name : string;
    email : string;
    role : Role;
    isActive : bool }.
End User.

Module Course.
(** [lecturer] is optional in the route's eyes ([course.lecturer?.]);
    [students] lists the [student] reference of each enrolment. *)
Record t : Type := mk
  { _id : ObjectId;
    name : string;
    code : string;
    lecturer : option ObjectId;
    students : list ObjectId }.
End Course.

Inductive AttStatus : Type := present | absent | late | excused.

Module Attendance.
(** [updatedAt] is the only timestamp the route assigns itself
    (attendance.js line 111); [createdAt] is left to the library and
    is not modelled. *)
Record t : Type := mk
  { _id : ObjectId;
    studentId : ObjectId;
    courseId : ObjectId;
    date : Time;
    status : AttStatus;
    notes : option string;
    markedBy : ObjectId;
    qrSessionId : option ObjectId;
    updatedAt : Time }.

Definition set_date (v : Time) (d : t) : t :=
  mk (_id d) (studentId d) (courseId d) v (status d) (notes d)
     (markedBy d) (qrSessionId d) (updatedAt d).
Definition set_status (v : AttStatus) (d : t) : t :=
  mk (_id d) (studentId d) (courseId d) (date d) v (notes d)
     (markedBy d) (qrSessionId d) (updatedAt d).
Definition set_notes (v : option string) (d : t) : t :=
  mk (_id d) (studentId d) (courseId d) (date d) (status d) v
     (markedBy d) (qrSessionId d) (updatedAt d).
Definition set_updatedAt (v : Time) (d : t) : t :=
  mk (_id d) (studentId d) (courseId d) (date d) (status d) (notes d)
     (markedBy d) (qrSessionId d) v.
End Attendance.

Inductive QRStatus : Type := active | expired | cancelled.

Definition QRStatus_eqb (a b : QRStatus) : bool :=
  match a, b with
  | active, active | expired, expired | cancelled, cancelled => true
  | _, _ => false
  end.

Module QR.
(** An in-memory QR document.  [expiresAt] and [qrCodeData] are
    optional here because a document can be constructed without them;
    the schema's [required] is checked when it is saved.  [scannedCount]
    is a number that holds an integer.  The library's
    [createdAt]/[updatedAt] are not modelled. *)
Record t : Type := mk
  { _id : ObjectId;
    sessionId : string;
    courseId : ObjectId;
    createdBy : ObjectId;
    title : string;
    notes : option string;
    status : QRStatus;
    expiresAt : option Time;
    qrCodeData : option string;
    scannedCount : Z;
    lastScannedAt : option Time }.

Definition set_status (v : QRStatus) (d : t) : t :=
  mk (_id d) (sessionId d) (courseId d) (createdBy d) (title d) (notes d)
     v (expiresAt d) (qrCodeData d) (scannedCount d) (lastScannedAt d).
Definition set_expiresAt (v : option Time) (d : t) : t :=
  mk (_id d) (sessionId d) (courseId d) (createdBy d) (title d) (notes d)
     (status d) v (qrCodeData d) (scannedCount d) (lastScannedAt d).
Definition set_scannedCount (v : Z) (d : t) : t :=
  mk (_id d) (sessionId d) (courseId d) (createdBy d) (title d) (notes d)
     (status d) (expiresAt d) (qrCodeData d) v (lastScannedAt d).
Definition set_lastScannedAt (v : option Time) (d : t) : t :=
  mk (_id d) (sessionId d) (courseId d) (createdBy d) (title d) (notes d)
     (status d) (expiresAt d) (qrCodeData d) (scannedCount d) v.
End QR.

(** ** The database and HTTP responses *)

(** Every document carries its [_id]. *)
Class HasId (A : Type) : Type := get_id : A -> ObjectId.
#[export] Instance User_HasId : HasId User.t := User._id.
#[export] Instance Course_HasId : HasId Course.t := Course._id.
#[export] Instance Attendance_HasId : HasId Attendance.t := Attendance._id.
#[export] Instance QR_HasId : HasId QR.t := QR._id.

(** The four collections, each in the store's own order. *)
Record Db : Type := mkDb
  { users : list User.t;
    courses : list Course.t;
    attendances : list Attendance.t;
    qrs : list QR.t }.

Definition set_attendances (v : list Attendance.t) (db : Db) : Db :=
  mkDb (users db) (courses db) v (qrs db).
Definition set_qrs (v : list QR.t) (db : Db) : Db :=
  mkDb (users db) (courses db) (attendances db) v.

(** [res.status(code).json({ success, message, data })]. *)
Record Resp (D : Type) : Type := mkResp
  { code : nat;
    success : bool;
    message : string;
    data : option D }.
Arguments mkResp {D} _ _ _ _.
Arguments code {D} _.
Arguments success {D} _.
Arguments message {D} _.
Arguments data {D} _.

Definition fail {D : Type} (c : nat) (msg : string) : Resp D :=
  mkResp c false msg None.

(** ** Authentication: what the middleware hands to a route *)

(** The bearer token after [jwt.verify]: absent, rejected, out of date,
    or decoded to the user id it carries. *)
Inductive Token : Type :=
| NoToken
| BadToken
| ExpiredToken
| Decoded (userId : string).

Module ReqUser.
(** [req.user]; [userId] is whatever JavaScript value was put there. *)
Record t : Type := mk
  { userId : Js.Val;
    email : string;
    role : Role;
    name : string }.
End ReqUser.

(** ** Requests *)

(** [req.query] of GET /api/attendance/mark. *)
Module MarkQuery.
Record t : Type := mk
  { studentId : Js.Param;
    courseId : Js.Param;
    date : Js.Param;
    status : Js.Param;
    notes : Js.Param }.
End MarkQuery.

(** [req.query] of GET /api/qr/generate. *)
Module GenerateQuery.
Record t : Type := mk
  { courseId : Js.Param;
    duration : Js.Param;
    title : Js.Param;
    notes : Js.Param }.
End GenerateQuery.

(** The object a scanned payload decodes to; each field is a string or
    missing. *)
Module QrPayload.
Record t : Type := mk
  { sessionId : Js.Param;
    courseId : Js.Param;
    expiresAt : Js.Param }.
End QrPayload.

(** [req.query.qrCode] of GET /api/qr/validate: absent or empty, text
    that [JSON.parse] rejects, or a decoded payload. *)
Inductive QrCodeParam : Type :=
| NoQrCode
| NotJson
| Payload (p : QrPayload.t).

(** ** Response bodies *)

Record GenerateData : Type := mkGenerateData
  { qrSession : QR.t;
    qrCodeImage : string;
    gen_expiresAt : option Time;
    gen_duration : Z }.

Inductive ValidateData : Type :=
| ExpiredData (sessionId courseId expiresAt : Js.Param)
| InactiveData (sessionId courseId : Js.Param) (status : QRStatus)
| ValidData (sessionId courseId : Js.Param) (courseName courseCode : string)
    (expiresAt : option Time) (title : string) (notes : option string)
    (createdBy : string).

(** ** Operations

    Everything in the repository that can write a collection: the three
    QR routes and the mark route, the instance methods of the QR model
    applied to the stored document with a given [_id], a bare [save] of
    it, and the periodic clean-up. *)
Inductive Op : Type :=
| OpGenerate (user : option ReqUser.t) (q : GenerateQuery.t)
    (now t_save : Time) (newId : ObjectId) (newSessionId : string)
| OpValidate (tok : Token) (qrCode : QrCodeParam) (now : Time)
| OpExpireRoute (user : option ReqUser.t) (id : string) (t_set t_save : Time)
| OpMark (tok : Token) (q : MarkQuery.t) (now : Time) (newId : ObjectId)
| OpExpire (id : ObjectId) (t_set t_save : Time)
| OpCancel (id : ObjectId) (t_save : Time)
| OpRecordScan (id : ObjectId) (t_set t_save : Time)
| OpSave (id : ObjectId) (t_save : Time)
| OpCleanup (t_query : Time) (t_save : ObjectId -> Time).

(** ** The other requests and response bodies *)

(** The [switch] of [canAccessResource]: ['course'], ['attendance'],
    ['user'], or any other text (the [default] branch). *)
Inductive Resource : Type := ResCourse | ResAttendance | ResUser | ResOther.

(** What [canAccessResource] reads of a request: [req.params.courseId],
    [req.body.courseId], [req.params.userId] and [req.body.userId]
    ([req.body] being an object). *)
Module AccessReq.
Record t : Type := mk
  { params_courseId : Js.Param;
    body_courseId : Js.Param;
    params_userId : Js.Param;
    body_userId : Js.Param }.
End AccessReq.

(** One entry of the [attempts] map of [rateLimitAction]. *)
Module Attempts.
Record t : Type := mk
  { count : Z;
    resetTime : Time }.
End Attempts.

(** The orders the QR queries ask for: [{ createdAt: -1 }] and
    [{ expiresAt: -1 }]. *)
Inductive SortKey : Type := ByCreatedAtDesc | ByExpiresAtDesc.

(** A QR document after [populate('courseId', 'name code')] and
    [populate('createdBy', 'name')]; a dangling reference is [null]. *)
Record PopulatedQR : Type := mkPopulatedQR
  { pq_doc : QR.t;
    pq_course : option (string * string);
    pq_createdBy : option string }.

(** [data] of GET /api/qr/sessions and GET /api/qr/active. *)
Record ActiveData : Type := mkActiveData
  { activeSessions : list PopulatedQR;
    activeCount : nat }.


Definition set_users (v : list User.t) (db : Db) : Db :=
  mkDb v (courses db) (attendances db) (qrs db).

(** [a || b] on query parameters. *)
Definition Param_or (a b : Js.Param) : Js.Param :=
  if Js.truthy a then a else b.

(** ** A concrete platform and a small database, for the examples *)
Module Sample.

Fixpoint all_hex (s : string) : bool :=
  match s with
  | String c r =>
      match Js.digit_val c with
      | Some d => (d <? 16) && all_hex r
      | None => false
      end
  | EmptyString => true
  end.

(** Twenty-four hexadecimal digits: castable in every version of the driver. *)
Definition isObjectId (s : string) : bool :=
  (String.length s =? 24)%nat && all_hex s.

(** An [ObjectId] prints its twelve bytes in lower case. *)
Definition lower (c : ascii) : ascii :=
  let n := N_of_ascii c in
  if ((65 <=? n) && (n <=? 90))%N then ascii_of_N (n + 32) else c.

Fixpoint castObjectId (s : string) : ObjectId :=
  match s with
  | String c r => String (lower c) (castObjectId r)
  | EmptyString => EmptyString
  end.

(** A few ISO 8601 texts with their time values. *)
Definition Date_parse (s : string) : option Time :=
  if String.eqb s "2025-01-20" then Some 1737331200000
  else if String.eqb s "2025-01-20T09:30:00.000Z" then Some 1737365400000
  else if String.eqb s "2025-01-20T10:00:00.000Z" then Some 1737367200000
  else if String.eqb s "2025-01-20T11:00:00.000Z" then Some 1737370800000
  else None.

(** A server whose local time is UTC. *)
Definition startOfDay (t : Time) : Time := t - t mod 86400000.

(** A stand-in for the rendered image; no example gets as far as
    rendering one. *)
Definition qrImage (id : ObjectId) (courseId : string) (e : option Time) : string :=
  "data:image/png;base64," +:+ id.

Definition adminId : ObjectId := "65a000000000000000000a01".
Definition lecturerId : ObjectId := "65a000000000000000000b01".
Definition otherLecturerId : ObjectId := "65a000000000000000000b02".
Definition studentAId : ObjectId := "65a000000000000000000c01".
Definition studentBId : ObjectId := "65a000000000000000000c02".
Definition courseId : ObjectId := "65a00000000000000000cc01".
Definition qrId : ObjectId := "65a00000000000000000dd01".
Definition attId : ObjectId := "65a00000000000000000ee01".
Definition freshId : ObjectId := "65a00000000000000000ff01".

Definition theUsers : list User.t :=
  [ User.mk adminId "Ada" "ada@edutend.test" admin true;
    User.mk lecturerId "Lee" "lee@edutend.test" lecturer true;
    User.mk otherLecturerId "Lou" "lou@edutend.test" lecturer true;
    User.mk studentAId "Sam" "sam@edutend.test" student true;
    User.mk studentBId "Sue" "sue@edutend.test" student true ].

(** CS101, taught by Lee; Sam is enrolled, Sue is not. *)
Definition theCourses : list Course.t :=
  [ Course.mk courseId "Programming" "CS101" (Some lecturerId) [studentAId] ].

(** 2025-01-20 at 09:30, 10:00 and 11:00 UTC. *)
Definition t0930 : Time := 1737365400000.
Definition t1000 : Time := 1737367200000.
Definition t1100 : Time := 1737370800000.
Definition day : Time := 1737331200000.

(** A session of CS101 created by Lee that runs until 10:00. *)
Definition session (st : QRStatus) (e : Time) : QR.t :=
  QR.mk qrId "m5x1abc" courseId lecturerId "Morning Session" (Some "")
        st (Some e) (Some "payload") 0 None.

Definition dbWith (att : list Attendance.t) (qr : list QR.t) : Db :=
  mkDb theUsers theCourses att qr.

(** The payload printed for [session _ e], with the expiry text [e]. *)
Definition payload (e : string) : QrCodeParam :=
  Payload (QrPayload.mk (Some qrId) (Some courseId) (Some e)).

(** Sam was marked present on 2025-01-20 by Lee, with a note. *)
Definition record : Attendance.t :=
  Attendance.mk attId studentAId courseId day present (Some "on time")
                lecturerId None t0930.

Definition markQuery (stu : ObjectId) (date status : string) (notes : Js.Param)
  : MarkQuery.t :=
  MarkQuery.mk (Some stu) (Some courseId) (Some date) (Some status) notes.

(** The callers, as the authentication middleware presents them. *)
Definition asAda : ReqUser.t :=
  ReqUser.mk (Js.Oid adminId) "ada@edutend.test" admin "Ada".
Definition asLee : ReqUser.t :=
  ReqUser.mk (Js.Oid lecturerId) "lee@edutend.test" lecturer "Lee".
Definition asLou : ReqUser.t :=
  ReqUser.mk (Js.Oid otherLecturerId) "lou@edutend.test" lecturer "Lou".
Definition asSam : ReqUser.t :=
  ReqUser.mk (Js.Oid studentAId) "sam@edutend.test" student "Sam".
Definition asSue : ReqUser.t :=
  ReqUser.mk (Js.Oid studentBId) "sue@edutend.test" student "Sue".

(** A request on CS101, and a request on a user's profile. *)
Definition courseReq : AccessReq.t :=
  AccessReq.mk (Some courseId) None None None.
Definition profileReq (id : ObjectId) : AccessReq.t :=
  AccessReq.mk None None (Some id) None.

(** A store that returns the newest document first and, by expiry,
    the latest first. *)
Definition expiryOf (d : QR.t) : Time :=
  match QR.expiresAt d with
  | Some e => e
  | None => 0
  end.

Fixpoint insertByExpiry (d : QR.t) (l : list QR.t) : list QR.t :=
  match l with
  | [] => [d]
  | x :: rest =>
      if expiryOf x <=? expiryOf d then d :: l else x :: insertByExpiry d rest
  end.

Definition sortDocs (k : SortKey) (l : list QR.t) : list QR.t :=
  match k with
  | ByCreatedAtDesc => rev l
  | ByExpiresAtDesc => fold_right insertByExpiry [] l
  end.

(** A second session of CS101, created by Ada, with 3 scans. *)
Definition otherQrId : ObjectId := "65a00000000000000000dd02".
Definition session2 (st : QRStatus) (e : Time) : QR.t :=
  QR.mk otherQrId "m5x2def" courseId adminId "Afternoon Session" None
        st (Some e) (Some "payload") 3 None.

(** A session of a course that has been deleted since. *)
Definition goneCourseId : ObjectId := "65a00000000000000000cc09".
Definition orphan (st : QRStatus) (e : Time) : QR.t :=
  QR.mk "65a00000000000000000dd03" "m5x3ghi" goneCourseId lecturerId
        "Evening Session" None st (Some e) (Some "payload") 0 None.

(** The ids of CS101 and of Sam as a client may write them. *)
Definition courseIdUpper : string := "65A00000000000000000CC01".
Definition studentAIdUpper : string := "65A000000000000000000C01".

(** "x" between two no-break spaces (U+00A0). *)
Definition nbsp : string := String (ascii_of_N 194) (String (ascii_of_N 160) EmptyString).
Definition paddedNote : string := nbsp +:+ "x" +:+ nbsp.

End Sample.

(** ** The backend, over the parts supplied by the platform *)
Section Backend.

Set Default Proof Using "Type".

(** Whether the driver can cast a string to an [ObjectId]; a string it
    cannot cast makes the query throw a [CastError]. *)
Variable isObjectId : string -> bool.

(** The [ObjectId] a string is cast to, as the text it prints as (the
    form in which the documents hold their references). *)
Variable castObjectId : string -> ObjectId.

(** [new Date(s).getTime()] for a string; [None] is an invalid date.  The
    accepted formats beyond ISO 8601 depend on the engine. *)
Variable Date_parse : string -> option Time.

(** [d.setHours(0, 0, 0, 0)]: the start of the day of [d] in the
    server's time zone. *)
Variable startOfDay : Time -> Time.

(** [QRCode.toDataURL] applied to the JSON text of
    [{ sessionId, courseId, expiresAt }]. *)
Variable qrImage : ObjectId -> string -> option Time -> string.

(** *** Model.findById *)

(** [Model.findById(id)]: the id is cast, then matched; [None] when the
    cast throws, otherwise the document or [null].  [findById(undefined)]
    finds nothing. *)
Definition findById {A : Type} `{HasId A} (coll : list A) (id : Js.Param)
  : option (option A) :=
  match id with
  | None => Some None
  | Some s =>
      if isObjectId s
      then Some (find (fun d => String.eqb (get_id d) (castObjectId s)) coll)
      else None
  end.

(** *** middleware/auth.js *)

(** [authenticateToken]: either the response that ends the request or
    the [req.user] handed to the route. *)
Definition authenticateToken (db : Db) (tok : Token)
  : Resp unit + ReqUser.t :=
  match tok with
  | NoToken => inl (fail 401 "Access token required")
  | BadToken => inl (fail 401 "Invalid token")
  | ExpiredToken => inl (fail 401 "Token expired")
  | Decoded uid =>
      match findById (users db) (Some uid) with
      | None => inl (fail 500 "Authentication error")
      | Some None => inl (fail 401 "Invalid token - user not found")
      | Some (Some user) =>
          if negb (User.isActive user)
          then inl (fail 401 "Account is deactivated")
          else inr (ReqUser.mk (Js.Oid (User._id user)) (User.email user)
                               (User.role user) (User.name user))
      end
  end.

(** [requireRole(roles)]: the response that ends the request, or the
    [req.user] the route goes on with. *)
Definition requireRole (roles : list Role) (user : option ReqUser.t)
  : Resp unit + ReqUser.t :=
  match user with
  | None => inl (fail 401 "Authentication required")
  | Some u =>
      if negb (existsb (Role_eqb (ReqUser.role u)) roles)
      then inl (fail 403 "Insufficient permissions")
      else inr u
  end.

Definition requireLecturer : option ReqUser.t -> Resp unit + ReqUser.t :=
  requireRole [admin; lecturer].

(** A response of the middleware, relayed at the route's data type. *)
Definition relay {D : Type} (r : Resp unit) : Resp D :=
  mkResp (code r) (success r) (message r) None.

(** *** models/Attendance.js *)

(** Schema validation: [notes] has [maxlength: 200], which is compared
    with the [length] of the text; the other paths are typed here and
    cannot be ill-formed. *)
Definition Attendance_validate (d : Attendance.t) : bool :=
  match Attendance.notes d with
  | Some n => Js.length n <=? 200
  | None => true
  end.

(** [pre('save')], lines 161-167. *)
Definition Attendance_preSave (d : Attendance.t) : Attendance.t :=
  Attendance.set_date (startOfDay (Attendance.date d)) d.

(** The compound key of the unique index, line 45. *)
Definition Attendance_key (d : Attendance.t) : string * string * Time :=
  (Attendance.studentId d, Attendance.courseId d, Attendance.date d).

Definition key_eqb (a b : string * string * Time) : bool :=
  let '(s1, c1, d1) := a in
  let '(s2, c2, d2) := b in
  String.eqb s1 s2 && String.eqb c1 c2 && (d1 =? d2).

(** [save()] of a new document: validation, the hook, then the insert,
    which the store refuses (duplicate key) when [_id] or the compound
    key is taken.  [None] is a thrown error. *)
Definition Attendance_saveNew (d : Attendance.t) (coll : list Attendance.t)
  : option (Attendance.t * list Attendance.t) :=
  if Attendance_validate d then
    let d' := Attendance_preSave d in
    if existsb (fun r => String.eqb (Attendance._id r) (Attendance._id d')
                         || key_eqb (Attendance_key r) (Attendance_key d')) coll
    then None
    else Some (d', coll ++ [d'])
  else None.

(** What an update writes into the stored record: the paths assigned
    through the document's setters.  The hook's [setHours] changes the
    in-memory [Date] in place, which the library does not see as a
    modification, so the stored [date] stays. *)
Definition Attendance_write (d r : Attendance.t) : Attendance.t :=
  Attendance.set_updatedAt (Attendance.updatedAt d)
    (Attendance.set_notes (Attendance.notes d)
       (Attendance.set_status (Attendance.status d) r)).

(** [save()] of a document loaded from the collection. *)
Definition Attendance_saveExisting (d : Attendance.t) (coll : list Attendance.t)
  : option (Attendance.t * list Attendance.t) :=
  if Attendance_validate d then
    let d' := Attendance_preSave d in
    Some (d', map (fun r => if String.eqb (Attendance._id r) (Attendance._id d')
                            then Attendance_write d' r else r) coll)
  else None.

(** [Attendance.findOne({ studentId, courseId, date })]. *)
Definition Attendance_findOne (s c : ObjectId) (d : Time)
    (coll : list Attendance.t) : option Attendance.t :=
  find (fun r => key_eqb (Attendance_key r) (s, c, d)) coll.

(** *** routes/attendance.js: GET /api/attendance/mark *)

(** [['present', 'absent', 'late', 'excused'].includes(status)]. *)
Definition parseStatus (s : string) : option AttStatus :=
  if String.eqb s "present" then Some present
  else if String.eqb s "absent" then Some absent
  else if String.eqb s "late" then Some late
  else if String.eqb s "excused" then Some excused
  else None.

Definition serverError {D : Type} (msg : string) : Resp D := fail 500 msg.

(** The handler behind [authenticateToken].  [now] is the clock read at
    line 111, also taken for the library's stamp on a new document;
    [newId] is the [_id] the library gives a new document.  The filter
    of the lookup and the paths of the new document are cast to the
    schema's types: [studentId] and [courseId] to [ObjectId]s (both were
    cast by [findById] before), [notes] through the schema's [trim];
    [markedBy] is [req.user.userId]. *)
Definition mark_handler (db : Db) (user : ReqUser.t) (q : MarkQuery.t)
    (now : Time) (newId : ObjectId) : Resp Attendance.t * Db :=
  let err := (serverError "Server error while marking attendance", db) in
  if negb (Js.truthy (MarkQuery.studentId q)) || negb (Js.truthy (MarkQuery.courseId q))
     || negb (Js.truthy (MarkQuery.date q)) || negb (Js.truthy (MarkQuery.status q))
  then (fail 400 "studentId, courseId, date, and status are required query parameters", db)
  else
  match parseStatus (Js.or_else (MarkQuery.status q) "") with
  | None => (fail 400 "Status must be present, absent, late, or excused", db)
  | Some st =>
  match findById (users db) (MarkQuery.studentId q) with
  | None => err
  | Some found =>
  if match found with
     | None => true
     | Some u => negb (Role_eqb (User.role u) student)
     end
  then (fail 404 "Student not found", db)
  else
  match findById (courses db) (MarkQuery.courseId q) with
  | None => err
  | Some None => (fail 404 "Course not found", db)
  | Some (Some _) =>
  let sid := castObjectId (Js.or_else (MarkQuery.studentId q) "") in
  let cid := castObjectId (Js.or_else (MarkQuery.courseId q) "") in
  match Date_parse (Js.or_else (MarkQuery.date q) "") with
  | None => err
  | Some d =>
  match Attendance_findOne sid cid d (attendances db) with
  | Some existingAttendance =>
      let e1 := Attendance.set_status st existingAttendance in
      let e2 := if Js.truthy (MarkQuery.notes q)
                then Attendance.set_notes
                       (Some (Js.trim (Js.or_else (MarkQuery.notes q) ""))) e1
                else e1 in
      let e3 := Attendance.set_updatedAt now e2 in
      match Attendance_saveExisting e3 (attendances db) with
      | None => err
      | Some (saved, coll) =>
          (mkResp 200 true "Attendance updated successfully" (Some saved),
           set_attendances coll db)
      end
  | None =>
      let attendance :=
        Attendance.mk newId sid cid d st
          (option_map Js.trim (MarkQuery.notes q))
          (Js.toString (ReqUser.userId user)) None now in
      match Attendance_saveNew attendance (attendances db) with
      | None => err
      | Some (saved, coll) =>
          (mkResp 201 true "Attendance marked successfully" (Some saved),
           set_attendances coll db)
      end
  end end end end end.

(** The route: [router.get('/mark', authenticateToken, handler)]. *)
Definition mark (db : Db) (tok : Token) (q : MarkQuery.t)
    (now : Time) (newId : ObjectId) : Resp Attendance.t * Db :=
  match authenticateToken db tok with
  | inl r => (relay r, db)
  | inr user => mark_handler db user q now newId
  end.

(** *** models/QR.js *)

(** Schema validation: [sessionId], [title], [expiresAt] and
    [qrCodeData] are required (a required string must be non-empty),
    [title] has [maxlength: 100] and [notes] [maxlength: 200]. *)
Definition QR_validate (d : QR.t) : bool :=
  negb (String.eqb (QR.sessionId d) "")
  && negb (String.eqb (QR.title d) "")
  && (Js.length (QR.title d) <=? 100)
  && match QR.notes d with
     | Some n => Js.length n <=? 200
     | None => true
     end
  && match QR.expiresAt d with
     | Some _ => true
     | None => false
     end
  && Js.truthy (QR.qrCodeData d).

(** [pre('save')], lines 161-167; [t] is the hook's [new Date()]. *)
Definition QR_preSave (t : Time) (d : QR.t) : QR.t :=
  match QR.expiresAt d with
  | Some e => if e <? t then QR.set_status expired d else d
  | None => d
  end.

(** [save()] of a new document; the insert is refused when [_id] or the
    unique [sessionId] is taken.  [None] is a thrown error. *)
Definition QR_saveNew (t : Time) (d : QR.t) (coll : list QR.t)
  : option (QR.t * list QR.t) :=
  if QR_validate d then
    let d' := QR_preSave t d in
    if existsb (fun r => String.eqb (QR._id r) (QR._id d')
                         || String.eqb (QR.sessionId r) (QR.sessionId d')) coll
    then None
    else Some (d', coll ++ [d'])
  else None.

(** [save()] of a document loaded from the collection: the stored
    document with that [_id] is replaced. *)
Definition QR_saveExisting (t : Time) (d : QR.t) (coll : list QR.t)
  : option (QR.t * list QR.t) :=
  if QR_validate d then
    let d' := QR_preSave t d in
    Some (d', map (fun r => if String.eqb (QR._id r) (QR._id d') then d' else r) coll)
  else None.

(** [methods.expire], lines 78-82. *)
Definition QR_expire (t_set t_save : Time) (d : QR.t) (coll : list QR.t)
  : option (QR.t * list QR.t) :=
  QR_saveExisting t_save
    (QR.set_expiresAt (Some t_set) (QR.set_status expired d)) coll.

(** [methods.cancel], lines 85-88. *)
Definition QR_cancel (t_save : Time) (d : QR.t) (coll : list QR.t)
  : option (QR.t * list QR.t) :=
  QR_saveExisting t_save (QR.set_status cancelled d) coll.

(** [methods.recordScan], lines 91-95; [this.scannedCount += 1] is an
    addition of numbers. *)
Definition QR_recordScan (t_set t_save : Time) (d : QR.t) (coll : list QR.t)
  : option (QR.t * list QR.t) :=
  QR_saveExisting t_save
    (QR.set_lastScannedAt (Some t_set)
       (QR.set_scannedCount (Js.num_succ (QR.scannedCount d)) d)) coll.

(** The query of [statics.cleanupExpired], lines 180-183. *)
Definition QR_stale (t : Time) (d : QR.t) : bool :=
  QRStatus_eqb (QR.status d) active
  && match QR.expiresAt d with
     | Some e => e <? t
     | None => false
     end.

(** One turn of the loop of [cleanupExpired], lines 185-188; the first
    component turns [false] once a [save] has thrown. *)
Definition QR_cleanupStep (t_save : ObjectId -> Time)
    (acc : bool * list QR.t) (session : QR.t) : bool * list QR.t :=
  match acc with
  | (false, coll) => (false, coll)
  | (true, coll) =>
      match QR_saveExisting (t_save (QR._id session))
              (QR.set_status expired session) coll with
      | Some (_, coll') => (true, coll')
      | None => (false, coll)
      end
  end.

(** [statics.cleanupExpired]: [t_query] is the clock of the query,
    [t_save id] the clock of the hook when document [id] is saved. *)
Definition QR_cleanupExpired (t_query : Time) (t_save : ObjectId -> Time)
    (coll : list QR.t) : bool * list QR.t :=
  fold_left (QR_cleanupStep t_save)
    (List.filter (QR_stale t_query) coll)
    (true, coll).

(** *** routes/qr.js: GET /api/qr/generate *)

(** [req.user.role === 'lecturer' && owner?.toString() !== req.user.userId],
    the test of lines 93 and 339. *)
Definition notOwner (user : ReqUser.t) (owner : option ObjectId) : bool :=
  Role_eqb (ReqUser.role user) lecturer
  && match owner with
     | Some o => negb (Js.strict_eq (Js.Str o) (ReqUser.userId user))
     | None => true
     end.

(** [router.get('/generate', requireLecturer, handler)].  [now] is
    [Date.now()] at line 105, [t_save] the clock of the save hook,
    [newId] and [newSessionId] the fresh [_id] and the text built at
    line 102. *)
Definition generate (db : Db) (user : option ReqUser.t) (q : GenerateQuery.t)
    (now t_save : Time) (newId : ObjectId) (newSessionId : string)
  : Resp GenerateData * Db :=
  match requireLecturer user with
  | inl r => (relay r, db)
  | inr u =>
  let err := (serverError "Server error while generating QR code", db) in
  if negb (Js.truthy (GenerateQuery.courseId q))
     || negb (Js.truthy (GenerateQuery.duration q))
  then (fail 400 "courseId and duration are required query parameters", db)
  else
  match Js.parseInt (Js.or_else (GenerateQuery.duration q) "") with
  | None => (fail 400 "Duration must be between 1 and 480 minutes", db)
  | Some durationNum =>
  if (durationNum <? 1) || (480 <? durationNum)
  then (fail 400 "Duration must be between 1 and 480 minutes", db)
  else
  match findById (courses db) (GenerateQuery.courseId q) with
  | None => err
  | Some None => (fail 404 "Course not found", db)
  | Some (Some course) =>
  if notOwner u (Course.lecturer course)
  then (fail 403 "You can only generate QR codes for your own courses", db)
  else
  let courseId := Js.or_else (GenerateQuery.courseId q) "" in
  let qrSession :=
    QR.mk newId newSessionId (castObjectId courseId)
      (Js.toString (ReqUser.userId u))
      (Js.trim (Js.or_else (GenerateQuery.title q)
                  ("Attendance Session - " +:+ Course.name course)))
      (Some (Js.trim (Js.or_else (GenerateQuery.notes q) "")))
      active
      (Some (now + durationNum * 60 * 1000))
      None 0 None in
  match QR_saveNew t_save qrSession (qrs db) with
  | None => err
  | Some (saved, coll) =>
      (mkResp 201 true "QR code generated successfully"
         (Some (mkGenerateData saved
                  (qrImage (QR._id saved) courseId (QR.expiresAt saved))
                  (QR.expiresAt saved) durationNum)),
       set_qrs coll db)
  end end end end.

(** *** routes/qr.js: GET /api/qr/validate *)

(** [new Date() > new Date(expiresAt)], line 190, on the payload's own
    field; a missing or unreadable date compares false. *)
Definition payloadExpired (now : Time) (expiresAt : Js.Param) : bool :=
  match expiresAt with
  | Some s =>
      match Date_parse s with
      | Some e => e <? now
      | None => false
      end
  | None => false
  end.

(** [course.students.some(s => s.student.toString() === req.user.userId)]. *)
Definition enrolled (user : ReqUser.t) (course : Course.t) : bool :=
  existsb (fun s => Js.strict_eq (Js.Str s) (ReqUser.userId user))
          (Course.students course).

(** The handler behind [authenticateToken]; [now] is the clock of
    line 190. *)
Definition validate_handler (db : Db) (user : ReqUser.t) (qrCode : QrCodeParam)
    (now : Time) : Resp ValidateData * Db :=
  let err := (serverError "Server error while validating QR code", db) in
  match qrCode with
  | NoQrCode => (fail 400 "QR code data is required as query parameter", db)
  | NotJson => (fail 400 "Invalid QR code format", db)
  | Payload p =>
  let sessionId := QrPayload.sessionId p in
  let courseId := QrPayload.courseId p in
  let expiresAt := QrPayload.expiresAt p in
  match findById (qrs db) sessionId with
  | None => err
  | Some None => (fail 404 "QR session not found", db)
  | Some (Some qrSession) =>
  if payloadExpired now expiresAt
  then (mkResp 400 false "QR code has expired"
          (Some (ExpiredData sessionId courseId expiresAt)), db)
  else
  if negb (QRStatus_eqb (QR.status qrSession) active)
  then (mkResp 400 false "QR session is not active"
          (Some (InactiveData sessionId courseId (QR.status qrSession))), db)
  else
  let answer :=
    (* populate('courseId', 'name code') and populate('createdBy', 'name'):
       a dangling reference is [null], whose [.name] throws *)
    match find (fun c => String.eqb (Course._id c) (QR.courseId qrSession)) (courses db),
          find (fun u => String.eqb (User._id u) (QR.createdBy qrSession)) (users db) with
    | Some c, Some creator =>
        (mkResp 200 true "QR code is valid"
           (Some (ValidData sessionId courseId (Course.name c) (Course.code c)
                    (QR.expiresAt qrSession) (QR.title qrSession)
                    (QR.notes qrSession) (User.name creator))), db)
    | _, _ => err
    end in
  if Role_eqb (ReqUser.role user) student then
    match findById (courses db) courseId with
    | None => err
    | Some found =>
        if match found with
           | None => true
           | Some course => negb (enrolled user course)
           end
        then (fail 403 "You are not enrolled in this course", db)
        else answer
    end
  else answer
  end end.

(** The route: [router.get('/validate', authenticateToken, handler)]. *)
Definition validate (db : Db) (tok : Token) (qrCode : QrCodeParam)
    (now : Time) : Resp ValidateData * Db :=
  match authenticateToken db tok with
  | inl r => (relay r, db)
  | inr user => validate_handler db user qrCode now
  end.

(** *** routes/qr.js: PUT /api/qr/:id/expire *)

(** [router.put('/:id/expire', requireLecturer, handler)]; [t_set] is
    the clock of line 348, [t_save] the clock of the save hook. *)
Definition expire_route (db : Db) (user : option ReqUser.t) (id : string)
    (t_set t_save : Time) : Resp QR.t * Db :=
  match requireLecturer user with
  | inl r => (relay r, db)
  | inr u =>
  let err := (serverError "Server error while expiring QR session", db) in
  match findById (qrs db) (Some id) with
  | None => err
  | Some None => (fail 404 "QR session not found", db)
  | Some (Some qrSession) =>
  if notOwner u (Some (QR.createdBy qrSession))
  then (fail 403 "You can only expire your own QR sessions", db)
  else
  match QR_saveExisting t_save
          (QR.set_expiresAt (Some t_set) (QR.set_status expired qrSession))
          (qrs db) with
  | None => err
  | Some (saved, coll) =>
      (mkResp 200 true "QR session expired successfully" (Some saved),
       set_qrs coll db)
  end end end.

(** *** Running operations *)

(** The document a query by [_id] returns. *)
Definition QR_byId (id : ObjectId) (coll : list QR.t) : option QR.t :=
  find (fun d => String.eqb (QR._id d) id) coll.

(** Apply a method of the model to the stored document [id]; nothing
    happens when there is no such document or the save throws. *)
Definition onDocument
    (method : QR.t -> list QR.t -> option (QR.t * list QR.t))
    (id : ObjectId) (db : Db) : Db :=
  match QR_byId id (qrs db) with
  | Some d =>
      match method d (qrs db) with
      | Some (_, coll) => set_qrs coll db
      | None => db
      end
  | None => db
  end.

Definition step (db : Db) (op : Op) : Db :=
  match op with
  | OpGenerate user q now t_save newId newSessionId =>
      snd (generate db user q now t_save newId newSessionId)
  | OpValidate tok qrCode now => snd (validate db tok qrCode now)
  | OpExpireRoute user id t_set t_save => snd (expire_route db user id t_set t_save)
  | OpMark tok q now newId => snd (mark db tok q now newId)
  | OpExpire id t_set t_save => onDocument (QR_expire t_set t_save) id db
  | OpCancel id t_save => onDocument (QR_cancel t_save) id db
  | OpRecordScan id t_set t_save => onDocument (QR_recordScan t_set t_save) id db
  | OpSave id t_save => onDocument (QR_saveExisting t_save) id db
  | OpCleanup t_query t_save =>
      set_qrs (snd (QR_cleanupExpired t_query t_save (qrs db))) db
  end.

Definition run (db : Db) (ops : list Op) : Db := fold_left step ops db.

(** *** Properties of a database *)

(** The unique index of the attendance collection: no two records
    share (student, course, date). *)
Definition unique_keys (coll : list Attendance.t) : Prop :=
  NoDup (map Attendance_key coll).

(** Number of records stored for a triple. *)
Definition count_key (k : string * string * Time) (coll : list Attendance.t) : nat :=
  length (List.filter (fun r => key_eqb (Attendance_key r) k) coll).

(** What the update branch of the mark route (lines 109-111) leaves in
    the stored record [r]: the new status, the new note when one is
    given, the new stamp; every other path as it was. *)
Definition Attendance_overwrite (st : AttStatus) (notes : Js.Param) (now : Time)
    (r : Attendance.t) : Attendance.t :=
  Attendance.mk (Attendance._id r) (Attendance.studentId r) (Attendance.courseId r)
    (Attendance.date r) st
    (if Js.truthy notes then Some (Js.trim (Js.or_else notes "")) else Attendance.notes r)
    (Attendance.markedBy r) (Attendance.qrSessionId r) now.

(** A mark request that passes the checks of lines 67-98 and whose
    date reads as [d]: the four parameters are present, the status is
    [st], the student exists and is a student, the course exists; [sid]
    and [cid] are the [ObjectId]s the two ids are cast to. *)
Definition mark_accepts (db : Db) (q : MarkQuery.t) (st : AttStatus)
    (sid cid : ObjectId) (d : Time) : Prop :=
  Js.truthy (MarkQuery.studentId q) = true /\
  Js.truthy (MarkQuery.courseId q) = true /\
  Js.truthy (MarkQuery.date q) = true /\
  Js.truthy (MarkQuery.status q) = true /\
  parseStatus (Js.or_else (MarkQuery.status q) "") = Some st /\
  (exists stu, findById (users db) (MarkQuery.studentId q) = Some (Some stu) /\
               User.role stu = student) /\
  (exists c, findById (courses db) (MarkQuery.courseId q) = Some (Some c)) /\
  Date_parse (Js.or_else (MarkQuery.date q) "") = Some d /\
  sid = castObjectId (Js.or_else (MarkQuery.studentId q) "") /\
  cid = castObjectId (Js.or_else (MarkQuery.courseId q) "").

(** What a scan leaves in a session: the counter and the scan time. *)
Definition scan_data (d : QR.t) : Z * option Time :=
  (QR.scannedCount d, QR.lastScannedAt d).

(** A session that has left [active]. *)
Definition terminal (d : QR.t) : Prop := QR.status d <> active.

(** What a terminal session with a given [_id] looks like in a collection. *)
Definition terminal_at (id : ObjectId) (coll : list QR.t) : Prop :=
  exists s, QR_byId id coll = Some s /\ terminal s.

(** ** The rest of the middleware *)

Definition requireAdmin : option ReqUser.t -> Resp unit + ReqUser.t :=
  requireRole [admin].

Definition requireStudent : option ReqUser.t -> Resp unit + ReqUser.t :=
  requireRole [admin; lecturer; student].

(** The ['course'] and ['attendance'] cases of [canAccessResource]
    (the two are the same code): only a lecturer is looked at, and only
    when the request names a course.  A course without [lecturer] makes
    [course.lecturer.toString()] throw. *)
Definition courseAccess (db : Db) (u : ReqUser.t) (req : AccessReq.t)
  : option (Resp unit) :=
  if Role_eqb (ReqUser.role u) lecturer then
    let courseId := Param_or (AccessReq.params_courseId req)
                             (AccessReq.body_courseId req) in
    if Js.truthy courseId then
      match findById (courses db) courseId with
      | None => Some (fail 500 "Error checking resource access")
      | Some None =>
          Some (fail 403 "Access denied - course not found or not owned by you")
      | Some (Some course) =>
          match Course.lecturer course with
          | None => Some (fail 500 "Error checking resource access")
          | Some owner =>
              if negb (String.eqb owner (Js.toString (ReqUser.userId u)))
              then Some (fail 403 "Access denied - course not found or not owned by you")
              else None
          end
      end
    else None
  else None.

(** The ['user'] case. *)
Definition userAccess (u : ReqUser.t) (req : AccessReq.t) : option (Resp unit) :=
  let userId := Param_or (AccessReq.params_userId req) (AccessReq.body_userId req) in
  if Js.truthy userId
     && negb (String.eqb (Js.or_else userId "") (Js.toString (ReqUser.userId u)))
  then Some (fail 403 "Access denied - can only access own profile")
  else None.

(** [canAccessResource(resourceType)]: [None] is [next()]. *)
Definition canAccessResource (resourceType : Resource) (db : Db)
    (user : option ReqUser.t) (req : AccessReq.t) : option (Resp unit) :=
  match user with
  | None => Some (fail 401 "Authentication required")
  | Some u =>
      if Role_eqb (ReqUser.role u) admin then None
      else match resourceType with
           | ResCourse => courseAccess db u req
           | ResAttendance => courseAccess db u req
           | ResUser => userAccess u req
           | ResOther => None
           end
  end.

(** The key of [rateLimitAction]:
    [`${req.user?.userId || req.ip}-${action}`]. *)
Definition rateLimitKey (user : option ReqUser.t) (ip action : string) : string :=
  let who := match user with
             | Some u =>
                 match ReqUser.userId u with
                 | Js.Str "" => ip
                 | v => Js.toString v
                 end
             | None => ip
             end in
  who +:+ "-" +:+ action.

(** One request through [rateLimitAction(action, maxAttempts, windowMs)],
    on the closure's [attempts] map.  The entry read from the map is the
    object the window reset mutates, so a reset reaches the map even when
    the request is then refused; a fresh entry is only stored when the
    request passes. *)
Definition rateLimitAction (action : string) (maxAttempts windowMs : Z)
    (attempts : gmap string Attempts.t) (key : string) (now : Time)
  : option (Resp unit) * gmap string Attempts.t :=
  let stored := attempts !! key in
  let userAttempts := match stored with
                      | Some a => a
                      | None => Attempts.mk 0 (now + windowMs)
                      end in
  let userAttempts :=
    if Attempts.resetTime userAttempts <? now
    then Attempts.mk 0 (now + windowMs)
    else userAttempts in
  if maxAttempts <=? Attempts.count userAttempts
  then (Some (fail 429 ("Too many " +:+ action +:+ " attempts. Please try again later.")),
        match stored with
        | Some _ => <[key := userAttempts]> attempts
        | None => attempts
        end)
  else (None,
        <[key := Attempts.mk (Attempts.count userAttempts + 1)
                   (Attempts.resetTime userAttempts)]> attempts).

(** The requests of one client in a row: which pass, and the map left. *)
Fixpoint rateLimitRun (action : string) (maxAttempts windowMs : Z)
    (attempts : gmap string Attempts.t) (key : string) (times : list Time)
  : list bool * gmap string Attempts.t :=
  match times with
  | [] => ([], attempts)
  | now :: rest =>
      let '(r, attempts') := rateLimitAction action maxAttempts windowMs attempts key now in
      let '(passes, final) := rateLimitRun action maxAttempts windowMs attempts' key rest in
      (match r with None => true | Some _ => false end :: passes, final)
  end.

(** ** The rest of the QR model *)

(** [virtual('isExpired')], lines 62-64; a missing expiry compares false. *)
Definition QR_isExpired (now : Time) (d : QR.t) : bool :=
  match QR.expiresAt d with
  | Some e => e <? now
  | None => false
  end.

(** [virtual('isActive')], lines 67-69. *)
Definition QR_isActive (now : Time) (d : QR.t) : bool :=
  QRStatus_eqb (QR.status d) active && negb (QR_isExpired now d).

(** [virtual('timeRemaining')], lines 72-75: [t1] is the clock read by
    [isExpired], [t2] the one read after it.  [None] is the throw of
    [this.expiresAt.getTime()] on a missing expiry. *)
Definition QR_timeRemaining (t1 t2 : Time) (d : QR.t) : option Z :=
  if QR_isExpired t1 d then Some 0
  else match QR.expiresAt d with
       | Some e => Some (Z.max 0 (e - t2))
       | None => None
       end.

(** The order of a query's results is the store's business: the
    creation stamps are the library's, and ties are not ordered by the
    code.  All that is used of it is that sorting keeps the documents. *)
Variable sortDocs : SortKey -> list QR.t -> list QR.t.
Hypothesis sortDocs_perm : forall k l, Permutation (sortDocs k l) l.

(** The filter [{ status: 'active', expiresAt: { $gt: now } }]. *)
Definition QR_listedActive (now : Time) (d : QR.t) : bool :=
  QRStatus_eqb (QR.status d) active
  && match QR.expiresAt d with
     | Some e => now <? e
     | None => false
     end.

(** [statics.getActiveForCourse], lines 98-104: the filter is cast to
    the schema, so the stored reference is matched against the
    [ObjectId] the argument is cast to; [None] is the cast error. *)
Definition QR_getActiveForCourse (now : Time) (courseId : string)
    (coll : list QR.t) : option (list QR.t) :=
  if isObjectId courseId
  then Some (sortDocs ByCreatedAtDesc
               (List.filter (fun d => String.eqb (QR.courseId d) (castObjectId courseId)
                                      && QR_listedActive now d) coll))
  else None.

(** [statics.getActiveByUser], lines 107-113. *)
Definition QR_getActiveByUser (now : Time) (userId : string)
    (coll : list QR.t) : option (list QR.t) :=
  if isObjectId userId
  then Some (sortDocs ByCreatedAtDesc
               (List.filter (fun d => String.eqb (QR.createdBy d) (castObjectId userId)
                                      && QR_listedActive now d) coll))
  else None.

(** The filter of [statics.getExpired], lines 117-122. *)
Definition QR_listedExpired (now : Time) (d : QR.t) : bool :=
  match QR.expiresAt d with
  | Some e => e <? now
  | None => false
  end
  || QRStatus_eqb (QR.status d) expired.

(** [statics.getExpired], lines 116-123. *)
Definition QR_getExpired (now : Time) (coll : list QR.t) : list QR.t :=
  sortDocs ByExpiresAtDesc (List.filter (QR_listedExpired now) coll).






(** ** The listing routes of routes/qr.js *)

Definition populateQR (db : Db) (d : QR.t) : PopulatedQR :=
  mkPopulatedQR d
    (option_map (fun c => (Course.name c, Course.code c))
       (find (fun c => String.eqb (Course._id c) (QR.courseId d)) (courses db)))
    (option_map User.name
       (find (fun u => String.eqb (User._id u) (QR.createdBy d)) (users db))).

(** [res.json] of the listed sessions.  A populated course is written
    with its virtuals (the course schema has [toJSON: { virtuals: true }]),
    and [currentStudentCount] reads [this.students], which
    [populate('courseId', 'name code')] did not load: the getter throws
    as soon as one listed session has its course.  The user schema's
    virtuals read [name] and [role] and do not throw. *)
Definition listed_json (db : Db) (found : list QR.t) : option ActiveData :=
  let sessions := map (populateQR db) found in
  if existsb (fun p => match pq_course p with
                       | Some _ => true
                       | None => false
                       end) sessions
  then None
  else Some (mkActiveData sessions (length found)).

(** [router.get('/sessions', authenticateToken, handler)], lines 254-290;
    the filter's [courseId] is cast to an [ObjectId]. *)
Definition sessions_route (db : Db) (tok : Token) (courseId : Js.Param) (now : Time)
  : Resp ActiveData :=
  match authenticateToken db tok with
  | inl r => relay r
  | inr _ =>
      if negb (Js.truthy courseId) then fail 400 "Course ID is required"
      else
        let cid := Js.or_else courseId "" in
        if isObjectId cid then
          let found :=
            sortDocs ByCreatedAtDesc
              (List.filter (fun d => String.eqb (QR.courseId d) (castObjectId cid)
                                     && QR_listedActive now d) (qrs db)) in
          match listed_json db found with
          | Some body => mkResp 200 true "" (Some body)
          | None => serverError "Server error while fetching active sessions"
          end
        else serverError "Server error while fetching active sessions"
  end.

(** [router.get('/active', authenticateToken, handler)], lines 295-321. *)
Definition active_route (db : Db) (tok : Token) (now : Time) : Resp ActiveData :=
  match authenticateToken db tok with
  | inl r => relay r
  | inr _ =>
      let found :=
        sortDocs ByCreatedAtDesc (List.filter (QR_listedActive now) (qrs db)) in
      match listed_json db found with
      | Some body => mkResp 200 true "" (Some body)
      | None => serverError "Server error while fetching active sessions"
      end
  end.

(** ** routes/users.js: deleting and (de)activating a user *)

(** [User.findByIdAndUpdate(id, { isActive })] on the first document
    with that [_id] ([id] already cast). *)
Fixpoint User_setActive (id : ObjectId) (v : bool) (coll : list User.t) : list User.t :=
  match coll with
  | [] => []
  | u :: rest =>
      if String.eqb (User._id u) id
      then User.mk (User._id u) (User.name u) (User.email u) (User.role u) v :: rest
      else u :: User_setActive id v rest
  end.

(** [User.findByIdAndDelete(id)]. *)
Fixpoint User_delete (id : ObjectId) (coll : list User.t) : list User.t :=
  match coll with
  | [] => []
  | u :: rest =>
      if String.eqb (User._id u) id then rest else u :: User_delete id rest
  end.

(** [router.put('/:id/activate', requireAdmin, handler)], lines 197-235;
    [isActive] is [None] when [req.body.isActive] is not a boolean. *)
Definition users_activate (db : Db) (user : option ReqUser.t) (id : string)
    (isActive : option bool) : Resp User.t * Db :=
  match requireAdmin user with
  | inl r => (relay r, db)
  | inr _ =>
      match isActive with
      | None => (fail 400 "isActive must be a boolean value", db)
      | Some v =>
          match findById (users db) (Some id) with
          | None => (serverError "Server error while updating user status", db)
          | Some None => (fail 404 "User not found", db)
          | Some (Some u) =>
              (mkResp 200 true
                 (if v then "User activated successfully"
                  else "User deactivated successfully")
                 (Some (User.mk (User._id u) (User.name u) (User.email u)
                          (User.role u) v)),
               set_users (User_setActive (castObjectId id) v (users db)) db)
          end
      end
  end.

(** [router.delete('/:id', requireAdmin, handler)], lines 168-191. *)
Definition users_delete (db : Db) (user : option ReqUser.t) (id : string)
  : Resp unit * Db :=
  match requireAdmin user with
  | inl r => (relay r, db)
  | inr _ =>
      match findById (users db) (Some id) with
      | None => (serverError "Server error while deleting user", db)
      | Some None => (fail 404 "User not found", db)
      | Some (Some _) =>
          (mkResp 200 true "User deleted successfully" None,
           set_users (User_delete (castObjectId id) (users db)) db)
      end
  end.

(** ** The attendance model's own update *)

(** [methods.updateStatus(newStatus, notes = null)], lines 59-66 of the
    attendance model: [notes] is [None] for [null] or [undefined]; a
    status outside the enumeration is refused by the save. *)
Definition Attendance_updateStatus (newStatus : string) (notes : Js.Param)
    (now : Time) (d : Attendance.t) (coll : list Attendance.t)
  : option (Attendance.t * list Attendance.t) :=
  match parseStatus newStatus with
  | None => None
  | Some st =>
      let d1 := Attendance.set_status st d in
      let d2 := match notes with
                | Some n => Attendance.set_notes (Some (Js.trim n)) d1
                | None => d1
                end in
      Attendance_saveExisting (Attendance.set_updatedAt now d2) coll
  end.

(** ** Strict equality against [req.user.userId] *)

Lemma strict_eq_Str_Oid (s h : string) : Js.strict_eq (Js.Str s) (Js.Oid h) = false.
Proof. reflexivity. Qed.

(** The user built by [authenticateToken] carries an [ObjectId] object. *)
Lemma authenticateToken_userId (db : Db) (tok : Token) (u : ReqUser.t) :
  authenticateToken db tok = inr u ->
  exists h, ReqUser.userId u = Js.Oid h.
Proof.
  unfold authenticateToken. intros H.
  destruct tok; try discriminate.
  destruct (findById (users db) (Some userId)) as [[user|]|]; try discriminate.
  destruct (negb (User.isActive user)); try discriminate.
  injection H as <-. eauto.
Qed.

(** Hence the enrolment test of the validate route never finds such a user. *)
Lemma enrolled_Oid (u : ReqUser.t) (c : Course.t) (h : string) :
  ReqUser.userId u = Js.Oid h -> enrolled u c = false.
Proof.
  intros Hu. unfold enrolled. rewrite Hu.
  induction (Course.students c) as [|s l IH]; simpl; auto.
Qed.

(** And the ownership test turns every lecturer away. *)
Lemma notOwner_Oid (u : ReqUser.t) (owner : option ObjectId) (h : string) :
  ReqUser.userId u = Js.Oid h ->
  notOwner u owner = Role_eqb (ReqUser.role u) lecturer.
Proof.
  intros Hu. unfold notOwner. rewrite Hu.
  destruct owner; simpl; destruct (Role_eqb _ _); reflexivity.
Qed.

(** ** The save path of the QR model *)

Lemma QR_preSave_id (t : Time) (d : QR.t) : QR._id (QR_preSave t d) = QR._id d.
Proof. unfold QR_preSave. destruct (QR.expiresAt d); [destruct (_ <? _)|]; reflexivity. Qed.

Lemma QR_preSave_expiresAt (t : Time) (d : QR.t) :
  QR.expiresAt (QR_preSave t d) = QR.expiresAt d.
Proof. unfold QR_preSave. destruct (QR.expiresAt d) eqn:E; [destruct (_ <? _)|]; simpl; auto. Qed.

Lemma QR_preSave_past (t e : Time) (d : QR.t) :
  QR.expiresAt d = Some e -> e < t -> QR.status (QR_preSave t d) = expired.
Proof.
  intros He Hlt. unfold QR_preSave. rewrite He.
  apply Z.ltb_lt in Hlt. rewrite Hlt. reflexivity.
Qed.

Lemma QR_preSave_status (t : Time) (d : QR.t) :
  QR.status (QR_preSave t d) = expired \/ QR.status (QR_preSave t d) = QR.status d.
Proof.
  unfold QR_preSave. destruct (QR.expiresAt d); [destruct (_ <? _)|]; simpl; auto.
Qed.

Lemma QR_preSave_terminal (t : Time) (d : QR.t) : terminal d -> terminal (QR_preSave t d).
Proof.
  unfold terminal. intros Hd.
  destruct (QR_preSave_status t d) as [-> | ->]; [discriminate | exact Hd].
Qed.

Lemma QR_saveExisting_inv (t : Time) (d d' : QR.t) (coll coll' : list QR.t) :
  QR_saveExisting t d coll = Some (d', coll') ->
  QR_validate d = true /\ d' = QR_preSave t d /\
  coll' = map (fun r => if String.eqb (QR._id r) (QR._id d) then d' else r) coll.
Proof.
  unfold QR_saveExisting. destruct (QR_validate d); [|discriminate].
  intros H. injection H as <- <-. rewrite QR_preSave_id. auto.
Qed.

Lemma QR_saveNew_inv (t : Time) (d d' : QR.t) (coll coll' : list QR.t) :
  QR_saveNew t d coll = Some (d', coll') ->
  QR_validate d = true /\ d' = QR_preSave t d /\ coll' = coll ++ [d'].
Proof.
  unfold QR_saveNew. destruct (QR_validate d); [|discriminate].
  destruct (existsb _ coll); [discriminate|].
  intros H. injection H as <- <-. auto.
Qed.

Lemma QR_byId_id (id : ObjectId) (coll : list QR.t) (d : QR.t) :
  QR_byId id coll = Some d -> QR._id d = id.
Proof.
  unfold QR_byId. intros H. apply find_some in H as [_ H].
  by apply String.eqb_eq in H.
Qed.

Lemma QR_byId_app (id : ObjectId) (coll more : list QR.t) (d : QR.t) :
  QR_byId id coll = Some d -> QR_byId id (coll ++ more) = Some d.
Proof.
  unfold QR_byId. induction coll as [|r coll IH]; simpl; [discriminate|].
  destruct (String.eqb (QR._id r) id); auto.
Qed.

(** Replacing the documents that carry the [_id] of [d']. *)
Lemma QR_byId_replace (id k : ObjectId) (d' : QR.t) (coll : list QR.t) :
  QR._id d' = k ->
  QR_byId id (map (fun r => if String.eqb (QR._id r) k then d' else r) coll)
  = if String.eqb k id
    then match QR_byId id coll with
         | Some _ => Some d'
         | None => None
         end
    else QR_byId id coll.
Proof.
  intros Hk. unfold QR_byId. induction coll as [|r coll IH]; simpl.
  - destruct (String.eqb k id); reflexivity.
  - destruct (String.eqb (QR._id r) k) eqn:Er.
    + apply String.eqb_eq in Er. simpl.
      destruct (String.eqb k id) eqn:Ed.
      * rewrite Hk, Er, Ed. reflexivity.
      * rewrite Hk, Er, Ed. exact IH.
    + simpl. destruct (String.eqb (QR._id r) id) eqn:Ei.
      * apply String.eqb_eq in Ei. subst id. rewrite String.eqb_sym, Er. reflexivity.
      * exact IH.
Qed.

(** *** C10 *)

(** C10.  Whenever a QR document goes through [save] (as a new document
    or as a stored one) and the save succeeds, every document of the
    collection afterwards was there before or is the document written;
    if the expiry of the document is before the clock the hook reads,
    the document written has status [expired]; so the document written
    is never [active] with an expiry already passed. *)
Theorem QR_save_forces_expired (t : Time) (d d' : QR.t) (coll coll' : list QR.t) :
  QR_saveNew t d coll = Some (d', coll') \/
  QR_saveExisting t d coll = Some (d', coll') ->
  (forall r, In r coll' -> In r coll \/ r = d') /\
  (forall e, QR.expiresAt d = Some e -> e < t -> QR.status d' = expired) /\
  ~ (QR.status d' = active /\ exists e, QR.expiresAt d' = Some e /\ e < t).
Proof.
  clear startOfDay.
  intros H.
  assert (Hd' : d' = QR_preSave t d).
  { destruct H as [H | H];
      [apply QR_saveNew_inv in H | apply QR_saveExisting_inv in H]; tauto. }
  split; [|split].
  - intros r Hr. destruct H as [H | H].
    + apply QR_saveNew_inv in H as (_ & _ & ->).
      apply in_app_or in Hr as [Hr | [Hr | []]]; auto.
    + apply QR_saveExisting_inv in H as (_ & _ & ->).
      apply in_map_iff in Hr as (r0 & Hr0 & Hin).
      destruct (String.eqb (QR._id r0) (QR._id d)); subst; auto.
  - intros e He Hlt. subst d'. eapply QR_preSave_past; eauto.
  - intros [Hact (e & He & Hlt)]. subst d'.
    rewrite QR_preSave_expiresAt in He.
    rewrite (QR_preSave_past t e d He Hlt) in Hact. discriminate.
Qed.

(** ** The lifecycle state only moves away from [active] *)

Lemma findById_QR (coll : list QR.t) (id : string) (r : option QR.t) :
  findById coll (Some id) = Some r -> r = QR_byId (castObjectId id) coll.
Proof.
  unfold findById. destruct (isObjectId id); [|discriminate].
  intros H. injection H as <-. reflexivity.
Qed.

Lemma terminal_at_saveExisting (id : ObjectId) (t : Time) (d d' : QR.t)
    (coll coll' : list QR.t) :
  terminal_at id coll ->
  (QR._id d = id -> terminal d) ->
  QR_saveExisting t d coll = Some (d', coll') ->
  terminal_at id coll'.
Proof.
  intros (s & Hs & Hterm) Hd H.
  apply QR_saveExisting_inv in H as (_ & -> & ->).
  unfold terminal_at.
  rewrite (QR_byId_replace id (QR._id d)) by apply QR_preSave_id.
  rewrite Hs.
  destruct (String.eqb (QR._id d) id) eqn:E.
  - apply String.eqb_eq in E. eexists; split; [reflexivity|].
    apply QR_preSave_terminal; auto.
  - eauto.
Qed.

Lemma terminal_at_saveNew (id : ObjectId) (t : Time) (d d' : QR.t)
    (coll coll' : list QR.t) :
  terminal_at id coll ->
  QR_saveNew t d coll = Some (d', coll') ->
  terminal_at id coll'.
Proof.
  intros (s & Hs & Hterm) H.
  apply QR_saveNew_inv in H as (_ & _ & ->).
  exists s. split; [apply QR_byId_app|]; auto.
Qed.

(** A method that only ever saves a document derived from the loaded
    one, terminal whenever the loaded one is. *)
Lemma terminal_at_onDocument (id id0 : ObjectId) (db : Db)
    (method : QR.t -> list QR.t -> option (QR.t * list QR.t))
    (change : QR.t -> QR.t) (t : Time) :
  (forall d coll, method d coll = QR_saveExisting t (change d) coll) ->
  (forall d, QR._id (change d) = QR._id d) ->
  (forall d, terminal d -> terminal (change d)) ->
  terminal_at id (qrs db) ->
  terminal_at id (qrs (onDocument method id0 db)).
Proof.
  intros Hm Hid Hterm Hat. unfold onDocument.
  destruct (QR_byId id0 (qrs db)) as [d|] eqn:Hd; [|exact Hat].
  rewrite Hm.
  destruct (QR_saveExisting t (change d) (qrs db)) as [[d' coll']|] eqn:Hs; [|exact Hat].
  simpl. eapply terminal_at_saveExisting; [exact Hat| |exact Hs].
  intros Heq. apply Hterm.
  rewrite Hid in Heq. pose proof (QR_byId_id _ _ _ Hd) as Hid0.
  destruct Hat as (s & Hs' & Hts).
  assert (id0 = id) by congruence. subst id0.
  congruence.
Qed.

Lemma terminal_at_cleanup (id : ObjectId) (t_save : ObjectId -> Time)
    (todo : list QR.t) (acc : bool * list QR.t) :
  terminal_at id (snd acc) ->
  terminal_at id (snd (fold_left (QR_cleanupStep t_save) todo acc)).
Proof.
  revert acc. induction todo as [|session todo IH]; intros acc Hat; simpl; [exact Hat|].
  apply IH. unfold QR_cleanupStep.
  destruct acc as [[|] coll]; simpl in *; [|exact Hat].
  destruct (QR_saveExisting _ _ coll) as [[d' coll']|] eqn:Hs; simpl; [|exact Hat].
  eapply terminal_at_saveExisting; [exact Hat| |exact Hs].
  intros _. unfold terminal. simpl. discriminate.
Qed.

Lemma mark_qrs (db : Db) (tok : Token) (q : MarkQuery.t) (now : Time) (newId : ObjectId) :
  qrs (snd (mark db tok q now newId)) = qrs db.
Proof.
  unfold mark. destruct (authenticateToken db tok); [reflexivity|].
  unfold mark_handler.
  repeat match goal with
         | |- context [match ?x with _ => _ end] => destruct x; simpl; try reflexivity
         end.
Qed.

(** The validate route writes nothing. *)
Lemma validate_readonly (db : Db) (tok : Token) (qrCode : QrCodeParam) (now : Time) :
  snd (validate db tok qrCode now) = db.
Proof.
  unfold validate. destruct (authenticateToken db tok); [reflexivity|].
  unfold validate_handler.
  repeat match goal with
         | |- context [match ?x with _ => _ end] => destruct x; simpl; try reflexivity
         end.
Qed.

Lemma terminal_at_step (id : ObjectId) (db : Db) (op : Op) :
  terminal_at id (qrs db) -> terminal_at id (qrs (step db op)).
Proof.
  intros Hat. destruct op; simpl.
  - (* generate *)
    unfold generate.
    repeat match goal with
           | |- context [QR_saveNew ?t ?d ?c] =>
               destruct (QR_saveNew t d c) as [[? ?]|] eqn:Hs; simpl;
               [eapply terminal_at_saveNew; [exact Hat | exact Hs] | exact Hat]
           | |- context [match ?x with _ => _ end] => destruct x; simpl; try exact Hat
           end.
  - rewrite validate_readonly. exact Hat.
  - (* expire route *)
    unfold expire_route.
    destruct (requireLecturer user) as [r|u]; [exact Hat|].
    destruct (findById (qrs db) (Some id0)) as [[qrSession|]|] eqn:Hf; try exact Hat.
    destruct (notOwner u _); [exact Hat|].
    destruct (QR_saveExisting _ _ (qrs db)) as [[saved coll]|] eqn:Hs; [|exact Hat].
    simpl. eapply terminal_at_saveExisting; [exact Hat| |exact Hs].
    intros _. unfold terminal. simpl. discriminate.
  - rewrite mark_qrs. exact Hat.
  - apply (terminal_at_onDocument id id0 db _
             (fun d => QR.set_expiresAt (Some t_set) (QR.set_status expired d)) t_save);
      auto; intros; unfold terminal; simpl; discriminate.
  - apply (terminal_at_onDocument id id0 db _ (QR.set_status cancelled) t_save);
      auto; intros; unfold terminal; simpl; discriminate.
  - apply (terminal_at_onDocument id id0 db _
             (fun d => QR.set_lastScannedAt (Some t_set)
                         (QR.set_scannedCount (Js.num_succ (QR.scannedCount d)) d)) t_save);
      auto.
  - apply (terminal_at_onDocument id id0 db _ (fun d => d) t_save); auto.
  - unfold QR_cleanupExpired. apply terminal_at_cleanup. exact Hat.
Qed.

(** *** C6 *)

(** C6.  For every database, every stored session that is no longer
    [active] (it is [expired] or [cancelled]) and every sequence of
    operations (generate, validate, the expire route, mark, the model's
    [expire], [cancel], [recordScan] and [save], the clean-up), the
    session is still stored afterwards and is still not [active]. *)
Theorem session_state_monotonic (ops : list Op) (db : Db) (id : ObjectId) (s : QR.t) :
  QR_byId id (qrs db) = Some s ->
  QR.status s <> active ->
  exists s', QR_byId id (qrs (run db ops)) = Some s' /\ QR.status s' <> active.
Proof.
  intros Hs Hterm.
  assert (Hat : terminal_at id (qrs db)) by (exists s; auto).
  clear Hs Hterm s. revert db Hat.
  induction ops as [|op ops IH]; intros db Hat; simpl.
  - exact Hat.
  - apply IH. apply terminal_at_step. exact Hat.
Qed.

(** ** The attendance collection *)

Lemma key_eqb_eq (a b : string * string * Time) : key_eqb a b = true <-> a = b.
Proof.
  destruct a as [[s1 c1] d1], b as [[s2 c2] d2]. unfold key_eqb.
  rewrite !andb_true_iff, !String.eqb_eq, Z.eqb_eq.
  split; [intros [[-> ->] ->]; reflexivity | intros H; injection H; auto].
Qed.

Lemma count_key_cons (k : string * string * Time) (r : Attendance.t)
    (coll : list Attendance.t) :
  count_key k (r :: coll)
  = if key_eqb (Attendance_key r) k then S (count_key k coll) else count_key k coll.
Proof.
  unfold count_key. cbn [List.filter].
  destruct (key_eqb (Attendance_key r) k); reflexivity.
Qed.

Lemma count_key_0 (k : string * string * Time) (coll : list Attendance.t) :
  ~ In k (map Attendance_key coll) -> count_key k coll = 0%nat.
Proof.
  induction coll as [|r coll IH]; [reflexivity|].
  rewrite count_key_cons. cbn [map In]. intros Hn.
  destruct (key_eqb (Attendance_key r) k) eqn:E.
  - apply key_eqb_eq in E. tauto.
  - apply IH. tauto.
Qed.

Lemma unique_keys_count (coll : list Attendance.t) (k : string * string * Time) :
  unique_keys coll -> (count_key k coll <= 1)%nat.
Proof.
  unfold unique_keys. induction coll as [|r coll IH]; cbn [map]; intros Hnd.
  - unfold count_key. simpl. lia.
  - apply NoDup_cons in Hnd as [Hnotin Hnd].
    rewrite count_key_cons.
    destruct (key_eqb (Attendance_key r) k) eqn:E.
    + apply key_eqb_eq in E. subst k.
      rewrite count_key_0; [lia|].
      rewrite <- list_elem_of_In. exact Hnotin.
    + apply IH. exact Hnd.
Qed.

Lemma Attendance_saveNew_inv (d d' : Attendance.t) (coll coll' : list Attendance.t) :
  Attendance_saveNew d coll = Some (d', coll') ->
  d' = Attendance_preSave d /\ coll' = coll ++ [d'] /\
  ~ In (Attendance_key d') (map Attendance_key coll).
Proof.
  unfold Attendance_saveNew. destruct (Attendance_validate d); [|discriminate].
  destruct (existsb _ coll) eqn:E; [discriminate|].
  intros H. injection H as <- <-. repeat split.
  intros Hin. apply in_map_iff in Hin as (r & Hk & Hr).
  assert (existsb
            (fun r => String.eqb (Attendance._id r) (Attendance._id (Attendance_preSave d))
                      || key_eqb (Attendance_key r) (Attendance_key (Attendance_preSave d)))
            coll = true) as Ht.
  { apply existsb_exists. exists r. split; [exact Hr|].
    apply orb_true_iff. right. apply key_eqb_eq. exact Hk. }
  congruence.
Qed.

Lemma Attendance_saveExisting_inv (d d' : Attendance.t) (coll coll' : list Attendance.t) :
  Attendance_saveExisting d coll = Some (d', coll') ->
  d' = Attendance_preSave d /\
  coll' = map (fun r => if String.eqb (Attendance._id r) (Attendance._id d)
                        then Attendance_write d' r else r) coll /\
  map Attendance._id coll' = map Attendance._id coll /\
  map Attendance_key coll' = map Attendance_key coll.
Proof.
  unfold Attendance_saveExisting. destruct (Attendance_validate d); [|discriminate].
  intros H. injection H as <- <-. repeat split.
  - rewrite map_map. apply map_ext. intros r.
    destruct (String.eqb _ _); reflexivity.
  - rewrite map_map. apply map_ext. intros r.
    destruct (String.eqb _ _); reflexivity.
Qed.

(** A request the middleware ends is answered 401 or 500, never with
    success. *)
Lemma authenticateToken_inl (db : Db) (tok : Token) (e : Resp unit) :
  authenticateToken db tok = inl e ->
  success e = false /\ (code e = 401%nat \/ code e = 500%nat).
Proof.
  unfold authenticateToken. destruct tok.
  1-3: intros H; injection H as <-; simpl; auto.
  destruct (findById (users db) (Some userId)) as [[user|]|].
  - destruct (negb (User.isActive user)); [|discriminate].
    intros H; injection H as <-; simpl; auto.
  - intros H; injection H as <-; simpl; auto.
  - intros H; injection H as <-; simpl; auto.
Qed.

(** The three ways a mark call can end. *)
Lemma mark_cases (db db' : Db) (tok : Token) (q : MarkQuery.t) (now : Time)
    (newId : ObjectId) (r : Resp Attendance.t) :
  mark db tok q now newId = (r, db') ->
  (success r = false /\ db' = db) \/
  (exists e saved coll,
      Attendance_saveExisting e (attendances db) = Some (saved, coll) /\
      r = mkResp 200 true "Attendance updated successfully" (Some saved) /\
      db' = set_attendances coll db) \/
  (exists a saved coll,
      Attendance_saveNew a (attendances db) = Some (saved, coll) /\
      r = mkResp 201 true "Attendance marked successfully" (Some saved) /\
      db' = set_attendances coll db).
Proof.
  unfold mark. destruct (authenticateToken db tok) as [e|user] eqn:Ha.
  { intros H. injection H as <- <-. left.
    apply authenticateToken_inl in Ha as [Ha _]. split; [exact Ha | reflexivity]. }
  unfold mark_handler.
  repeat match goal with
         | |- context [Attendance_saveExisting ?e ?c] =>
             destruct (Attendance_saveExisting e c) as [[? ?]|] eqn:?
         | |- context [Attendance_saveNew ?e ?c] =>
             destruct (Attendance_saveNew e c) as [[? ?]|] eqn:?
         | |- (_, _) = (_, _) -> _ => intros H; injection H as <- <-
         | |- context [match ?x with _ => _ end] => destruct x eqn:?
         end;
    first [ left; split; reflexivity
          | right; left; solve [eauto 10]
          | right; right; solve [eauto 10] ].
Qed.

(** Only the mark route writes attendance records. *)
Lemma step_attendances (db : Db) (op : Op) :
  (exists tok q now newId, op = OpMark tok q now newId) \/
  attendances (step db op) = attendances db.
Proof.
  destruct op; simpl; eauto 10; right.
  - unfold generate.
    repeat match goal with
           | |- context [match ?x with _ => _ end] => destruct x; simpl; try reflexivity
           end.
  - rewrite validate_readonly. reflexivity.
  - unfold expire_route.
    repeat match goal with
           | |- context [match ?x with _ => _ end] => destruct x; simpl; try reflexivity
           end.
  - unfold onDocument.
    repeat match goal with
           | |- context [match ?x with _ => _ end] => destruct x; simpl; try reflexivity
           end.
  - unfold onDocument.
    repeat match goal with
           | |- context [match ?x with _ => _ end] => destruct x; simpl; try reflexivity
           end.
  - unfold onDocument.
    repeat match goal with
           | |- context [match ?x with _ => _ end] => destruct x; simpl; try reflexivity
           end.
  - unfold onDocument.
    repeat match goal with
           | |- context [match ?x with _ => _ end] => destruct x; simpl; try reflexivity
           end.
Qed.

Lemma mark_unique_keys (db : Db) (tok : Token) (q : MarkQuery.t) (now : Time)
    (newId : ObjectId) :
  unique_keys (attendances db) ->
  unique_keys (attendances (snd (mark db tok q now newId))).
Proof.
  clear qrImage.
  intros Hu. destruct (mark db tok q now newId) as [r db'] eqn:Hm. simpl.
  apply mark_cases in Hm
    as [[_ ->] | [(e & saved & coll & Hs & _ & ->) | (a & saved & coll & Hs & _ & ->)]];
    simpl; auto.
  - apply Attendance_saveExisting_inv in Hs as (_ & _ & _ & Hk).
    unfold unique_keys. rewrite Hk. exact Hu.
  - apply Attendance_saveNew_inv in Hs as (_ & -> & Hfresh).
    unfold unique_keys in *. rewrite map_app. simpl.
    apply NoDup_app. split; [exact Hu|]. split.
    + intros k Hk Hk'. apply list_elem_of_In in Hk.
      apply list_elem_of_singleton in Hk'. subst k. tauto.
    + apply NoDup_singleton.
Qed.

Lemma run_unique_keys (ops : list Op) (db : Db) :
  unique_keys (attendances db) -> unique_keys (attendances (run db ops)).
Proof.
  revert db. induction ops as [|op ops IH]; intros db Hu; simpl; [exact Hu|].
  apply IH.
  destruct (step_attendances db op) as [(tok & q & now & newId & ->) | ->]; [|exact Hu].
  simpl. apply mark_unique_keys. exact Hu.
Qed.

(** ** The two branches of the mark route *)

Lemma Attendance_findOne_In (s c : ObjectId) (d : Time) (coll : list Attendance.t)
    (r : Attendance.t) :
  Attendance_findOne s c d coll = Some r ->
  In r coll /\ Attendance_key r = (s, c, d).
Proof.
  unfold Attendance_findOne. intros H. apply find_some in H as [Hin Hk].
  split; [exact Hin | by apply key_eqb_eq].
Qed.

Lemma count_key_keys (k : string * string * Time) (c1 c2 : list Attendance.t) :
  map Attendance_key c1 = map Attendance_key c2 -> count_key k c1 = count_key k c2.
Proof.
  revert c2. induction c1 as [|r c1 IH]; intros [|r2 c2] H; try discriminate.
  - reflexivity.
  - cbn [map] in H.
    assert (Hr : Attendance_key r = Attendance_key r2) by congruence.
    assert (Hrest : map Attendance_key c1 = map Attendance_key c2) by congruence.
    rewrite !count_key_cons, Hr, (IH c2 Hrest). reflexivity.
Qed.

Lemma count_key_app (k : string * string * Time) (c1 c2 : list Attendance.t) :
  count_key k (c1 ++ c2) = (count_key k c1 + count_key k c2)%nat.
Proof.
  induction c1 as [|r c1 IH]; [reflexivity|].
  cbn [app]. rewrite !count_key_cons, IH.
  destruct (key_eqb _ _); reflexivity.
Qed.

(** A request that passes the checks is decided by the lookup. *)
Lemma mark_handler_accepted (db : Db) (user : ReqUser.t) (q : MarkQuery.t)
    (now : Time) (newId : ObjectId) (st : AttStatus) (sid cid : ObjectId) (d : Time) :
  mark_accepts db q st sid cid d ->
  mark_handler db user q now newId
  = match Attendance_findOne sid cid d (attendances db) with
    | Some existing =>
        match Attendance_saveExisting
                (Attendance_overwrite st (MarkQuery.notes q) now existing)
                (attendances db) with
        | Some (saved, coll) =>
            (mkResp 200 true "Attendance updated successfully" (Some saved),
             set_attendances coll db)
        | None => (serverError "Server error while marking attendance", db)
        end
    | None =>
        match Attendance_saveNew
                (Attendance.mk newId sid cid d st (option_map Js.trim (MarkQuery.notes q))
                   (Js.toString (ReqUser.userId user)) None now)
                (attendances db) with
        | Some (saved, coll) =>
            (mkResp 201 true "Attendance marked successfully" (Some saved),
             set_attendances coll db)
        | None => (serverError "Server error while marking attendance", db)
        end
    end.
Proof.
  intros (H1 & H2 & H3 & H4 & Hst & (stu & Hstu & Hrole) & (c & Hc) & Hd & -> & ->).
  unfold mark_handler. rewrite H1, H2, H3, H4. cbn [negb orb].
  rewrite Hst, Hstu, Hrole. cbn [Role_eqb negb]. rewrite Hc, Hd.
  destruct (Attendance_findOne _ _ d (attendances db)) as [existing|]; [|reflexivity].
  set (e3 := Attendance.set_updatedAt now _).
  assert (He3 : e3 = Attendance_overwrite st (MarkQuery.notes q) now existing).
  { subst e3. unfold Attendance_overwrite.
    destruct (Js.truthy (MarkQuery.notes q)); reflexivity. }
  rewrite He3. reflexivity.
Qed.

(** Only a request that passes the checks is answered with success. *)
Lemma mark_handler_success (db : Db) (user : ReqUser.t) (q : MarkQuery.t)
    (now : Time) (newId : ObjectId) :
  success (fst (mark_handler db user q now newId)) = true ->
  exists st sid cid d, mark_accepts db q st sid cid d.
Proof.
  unfold mark_handler, mark_accepts.
  destruct (Js.truthy (MarkQuery.studentId q)); [|discriminate].
  destruct (Js.truthy (MarkQuery.courseId q)); [|discriminate].
  destruct (Js.truthy (MarkQuery.date q)); [|discriminate].
  destruct (Js.truthy (MarkQuery.status q)); [|discriminate].
  cbn [negb orb].
  destruct (parseStatus _) as [st|]; [|discriminate].
  destruct (findById (users db) _) as [[stu|]|]; try discriminate.
  destruct (Role_eqb (User.role stu) student) eqn:Hrole; [|discriminate].
  cbn [negb].
  destruct (findById (courses db) _) as [[c|]|]; try discriminate.
  destruct (Date_parse _) as [d|]; [|discriminate].
  intros _. eexists st, _, _, d. repeat split; eauto.
  exists stu. split; [reflexivity|]. destruct (User.role stu); try discriminate; reflexivity.
Qed.

(** What an update writes, seen from the record the lookup found. *)
Lemma Attendance_saveExisting_overwrite (st : AttStatus) (notes : Js.Param) (now : Time)
    (existing : Attendance.t) (coll : list Attendance.t) :
  let upd := Attendance_overwrite st notes now existing in
  Attendance_saveExisting upd coll
  = if Attendance_validate upd
    then Some (Attendance_preSave upd,
               map (fun r => if String.eqb (Attendance._id r) (Attendance._id existing)
                             then Attendance_write upd r else r) coll)
    else None.
Proof.
  intros upd. unfold Attendance_saveExisting.
  destruct (Attendance_validate upd); reflexivity.
Qed.

(** *** C1 *)

(** C1.  Start from a database whose attendance records have pairwise
    distinct (student, course, date) triples.  After every sequence of
    operations, mark calls among them, every triple has at most one
    record.  A mark call made then on a request that passes the checks
    again leaves at most one record per triple, and:
    - when no record is stored for the student, course and date of the
      call, the call succeeds exactly when the new record is valid and
      neither its [_id] nor its triple (the date at the start of its
      day) is taken; it then answers 201 and appends that one record,
      whose triple had no record before and has one now;
    - when a record is stored for them, the call succeeds when the
      updated record is valid; a successful call answers 200 and writes
      the new status, note and stamp into that record, which keeps its
      triple, and every triple has as many records as before.
    Only a request that passes the checks is answered with success. *)
Theorem attendance_unique_per_triple (ops : list Op) (db : Db) :
  unique_keys (attendances db) ->
  let db1 := run db ops in
  (forall k, (count_key k (attendances db1) <= 1)%nat) /\
  (forall tok user q now newId st sid cid d,
     authenticateToken db1 tok = inr user ->
     mark_accepts db1 q st sid cid d ->
     let out := mark db1 tok q now newId in
     let rec := Attendance.mk newId sid cid (startOfDay d) st
                  (option_map Js.trim (MarkQuery.notes q))
                  (Js.toString (ReqUser.userId user)) None now in
     (forall k, (count_key k (attendances (snd out)) <= 1)%nat) /\
     (Attendance_findOne sid cid d (attendances db1) = None ->
      (success (fst out) = true <->
       Attendance_validate rec = true /\
       forall r, In r (attendances db1) ->
                 Attendance._id r <> newId /\
                 Attendance_key r <> (sid, cid, startOfDay d)) /\
      (success (fst out) = true ->
       out = (mkResp 201 true "Attendance marked successfully" (Some rec),
              set_attendances (attendances db1 ++ [rec]) db1) /\
       count_key (Attendance_key rec) (attendances db1) = 0%nat /\
       count_key (Attendance_key rec) (attendances (snd out)) = 1%nat)) /\
     (forall existing,
        Attendance_findOne sid cid d (attendances db1) = Some existing ->
        let upd := Attendance_overwrite st (MarkQuery.notes q) now existing in
        (Attendance_validate upd = true -> success (fst out) = true) /\
        (success (fst out) = true ->
         code (fst out) = 200%nat /\
         attendances (snd out)
         = map (fun r => if String.eqb (Attendance._id r) (Attendance._id existing)
                         then Attendance_write upd r else r) (attendances db1) /\
         In upd (attendances (snd out)) /\
         Attendance_key upd = (sid, cid, d) /\
         forall k, count_key k (attendances (snd out))
                   = count_key k (attendances db1)))) /\
  (forall tok q now newId,
     success (fst (mark db1 tok q now newId)) = true ->
     exists user st sid cid d,
       authenticateToken db1 tok = inr user /\ mark_accepts db1 q st sid cid d).
Proof.
  intros Hu db1.
  assert (Hu1 : unique_keys (attendances db1)) by (apply run_unique_keys; exact Hu).
  split; [|split].
  - intros k. apply unique_keys_count. exact Hu1.
  - intros tok user q now newId st sid cid d Ha Hacc out rec.
    split; [|split].
    + intros k. apply unique_keys_count. subst out. apply mark_unique_keys. exact Hu1.
    + intros Hfind.
      assert (Hout : out = match Attendance_saveNew
                                   (Attendance.mk newId sid cid d st
                                      (option_map Js.trim (MarkQuery.notes q))
                                      (Js.toString (ReqUser.userId user)) None now)
                                   (attendances db1) with
                           | Some (saved, coll) =>
                               (mkResp 201 true "Attendance marked successfully"
                                  (Some saved), set_attendances coll db1)
                           | None =>
                               (serverError "Server error while marking attendance", db1)
                           end).
      { subst out. unfold mark. rewrite Ha.
        rewrite (mark_handler_accepted db1 user q now newId st sid cid d Hacc), Hfind.
        reflexivity. }
      clearbody out. subst out.
      unfold Attendance_saveNew.
      set (a := Attendance.mk newId sid cid d st _ _ None now).
      assert (Hpre : Attendance_preSave a = rec) by reflexivity.
      assert (Hva : Attendance_validate a = Attendance_validate rec) by reflexivity.
      rewrite Hpre, Hva.
      assert (Hfresh : existsb (fun r => String.eqb (Attendance._id r) (Attendance._id rec)
                                         || key_eqb (Attendance_key r) (Attendance_key rec))
                         (attendances db1) = false <->
                       forall r, In r (attendances db1) ->
                                 Attendance._id r <> newId /\
                                 Attendance_key r <> (sid, cid, startOfDay d)).
      { split.
        - intros Hex r Hin.
          assert (Hr : String.eqb (Attendance._id r) (Attendance._id rec)
                       || key_eqb (Attendance_key r) (Attendance_key rec) = false).
          { destruct (_ || _) eqn:E; [|reflexivity].
            assert (existsb (fun r => String.eqb (Attendance._id r) (Attendance._id rec)
                                      || key_eqb (Attendance_key r) (Attendance_key rec))
                      (attendances db1) = true) as Ht
              by (apply existsb_exists; exists r; auto).
            congruence. }
          apply orb_false_iff in Hr as [Hid Hk]. split.
          + apply String.eqb_neq in Hid. exact Hid.
          + intros Heq. apply (proj2 (key_eqb_eq _ _)) in Heq.
            change (Attendance_key rec) with (sid, cid, startOfDay d) in Hk.
            congruence.
        - intros Hall. destruct (existsb _ (attendances db1)) eqn:E; [|reflexivity].
          apply existsb_exists in E as (r & Hin & Hr).
          destruct (Hall r Hin) as [Hid Hk].
          apply orb_true_iff in Hr as [Hr | Hr].
          + apply String.eqb_eq in Hr. contradiction.
          + apply key_eqb_eq in Hr. contradiction. }
      destruct (Attendance_validate rec) eqn:Hval.
      * destruct (existsb _ (attendances db1)) eqn:Hex.
        -- split; [|discriminate].
           split; [discriminate|]. intros [_ Hall].
           apply Hfresh in Hall. discriminate.
        -- split.
           ++ split; [|reflexivity]. intros _. split; [reflexivity|].
              apply Hfresh. reflexivity.
           ++ intros _. split; [reflexivity|].
              assert (H0 : count_key (Attendance_key rec) (attendances db1) = 0%nat).
              { apply count_key_0. intros Hin.
                apply in_map_iff in Hin as (r & Hk & Hr).
                destruct (proj1 Hfresh eq_refl r Hr) as [_ Hne]. apply Hne. exact Hk. }
              split; [exact H0|].
              cbn [snd set_attendances attendances].
              rewrite count_key_app, H0, count_key_cons.
              assert (Hk : key_eqb (Attendance_key rec) (Attendance_key rec) = true)
                by (apply key_eqb_eq; reflexivity).
              rewrite Hk. reflexivity.
      * split; [|discriminate].
        split; [discriminate|]. intros [H _]. discriminate.
    + intros existing Hfind upd.
      assert (Hout : out = match Attendance_saveExisting upd (attendances db1) with
                           | Some (saved, coll) =>
                               (mkResp 200 true "Attendance updated successfully"
                                  (Some saved), set_attendances coll db1)
                           | None =>
                               (serverError "Server error while marking attendance", db1)
                           end).
      { subst out. unfold mark. rewrite Ha.
        rewrite (mark_handler_accepted db1 user q now newId st sid cid d Hacc), Hfind.
        reflexivity. }
      clearbody out. subst out.
      subst upd. rewrite Attendance_saveExisting_overwrite.
      set (upd := Attendance_overwrite st (MarkQuery.notes q) now existing).
      destruct (Attendance_validate upd) eqn:Hval.
      * split; [reflexivity|]. intros _.
        cbn [fst snd code set_attendances attendances].
        apply Attendance_findOne_In in Hfind as [Hin Hkey].
        split; [reflexivity|]. split; [reflexivity|]. split; [|split].
        -- apply in_map_iff. exists existing. split; [|exact Hin].
           rewrite String.eqb_refl. subst upd. destruct existing; reflexivity.
        -- subst upd. rewrite <- Hkey. reflexivity.
        -- intros k. apply count_key_keys.
           rewrite map_map. apply map_ext. intros r.
           destruct (String.eqb _ _); reflexivity.
      * split; discriminate.
  - intros tok q now newId. unfold mark.
    destruct (authenticateToken db1 tok) as [e|user] eqn:Ha.
    + apply authenticateToken_inl in Ha as [Hf _]. cbn [fst relay success].
      intros H. congruence.
    + intros H. apply mark_handler_success in H as (st & sid & cid & d & Hacc).
      exists user, st, sid, cid, d. auto.
Qed.

(** ** The update branch of the mark route *)

(** *** C5, as amended *)

(** C5 (amended).  Take a mark call that passes the checks of the
    route (parameters present, a status of the enumeration, an existing
    student, an existing course, a readable date) and whose lookup
    finds a stored record [existing] for exactly that student, course and
    date (student and course being the [ObjectId]s the two ids are cast
    to); let the note have a [length] of at most 200 after the update.  Then
    the call answers 200 and the record is updated in place: its status
    is the new status; its note is the new note, trimmed, when the call
    gives a non-empty one, and is kept otherwise; its marking actor, its
    originating session, its date and its identity are kept.  No record
    is added or removed. *)
Theorem mark_updates_existing (db : Db) (user : ReqUser.t) (q : MarkQuery.t)
    (now : Time) (newId : ObjectId) (st : AttStatus) (stu : User.t)
    (c : Course.t) (d : Time) (existing : Attendance.t) :
  Js.truthy (MarkQuery.studentId q) = true ->
  Js.truthy (MarkQuery.courseId q) = true ->
  Js.truthy (MarkQuery.date q) = true ->
  Js.truthy (MarkQuery.status q) = true ->
  parseStatus (Js.or_else (MarkQuery.status q) "") = Some st ->
  findById (users db) (MarkQuery.studentId q) = Some (Some stu) ->
  User.role stu = student ->
  findById (courses db) (MarkQuery.courseId q) = Some (Some c) ->
  Date_parse (Js.or_else (MarkQuery.date q) "") = Some d ->
  Attendance_findOne (castObjectId (Js.or_else (MarkQuery.studentId q) ""))
    (castObjectId (Js.or_else (MarkQuery.courseId q) "")) d (attendances db)
  = Some existing ->
  Attendance_validate (Attendance_overwrite st (MarkQuery.notes q) now existing) = true ->
  exists saved db',
    mark_handler db user q now newId
      = (mkResp 200 true "Attendance updated successfully" (Some saved), db') /\
    In (Attendance_overwrite st (MarkQuery.notes q) now existing) (attendances db') /\
    map Attendance._id (attendances db') = map Attendance._id (attendances db) /\
    map Attendance_key (attendances db') = map Attendance_key (attendances db) /\
    users db' = users db /\ courses db' = courses db /\ qrs db' = qrs db.
Proof.
  intros H1 H2 H3 H4 Hst Hstu Hrole Hc Hd Hfind Hval.
  unfold mark_handler. rewrite H1, H2, H3, H4. cbn [negb orb].
  rewrite Hst, Hstu, Hrole. cbn [Role_eqb negb]. rewrite Hc, Hd, Hfind.
  set (e3 := Attendance.set_updatedAt now _).
  assert (He3 : e3 = Attendance_overwrite st (MarkQuery.notes q) now existing).
  { subst e3. unfold Attendance_overwrite.
    destruct (Js.truthy (MarkQuery.notes q)); reflexivity. }
  clearbody e3. subst e3.
  destruct (Attendance_saveExisting _ (attendances db)) as [[saved coll]|] eqn:Hs.
  - exists saved, (set_attendances coll db). split; [reflexivity|].
    apply Attendance_saveExisting_inv in Hs as (-> & -> & Hid & Hk).
    cbn [set_attendances attendances users courses qrs]. repeat split; auto.
    apply Attendance_findOne_In in Hfind as [Hin _].
    apply in_map_iff. exists existing. split; [|exact Hin].
    replace (Attendance._id (Attendance_overwrite st (MarkQuery.notes q) now existing))
      with (Attendance._id existing) by reflexivity.
    rewrite String.eqb_refl.
    destruct existing; reflexivity.
  - unfold Attendance_saveExisting in Hs. rewrite Hval in Hs. discriminate.
Qed.

(** ** Who may mark *)

Lemma mark_handler_codes (db : Db) (u : ReqUser.t) (q : MarkQuery.t) (now : Time)
    (newId : ObjectId) :
  In (code (fst (mark_handler db u q now newId))) [200; 201; 400; 404; 500]%nat.
Proof.
  unfold mark_handler.
  repeat match goal with
         | |- context [match ?x with _ => _ end] => destruct x; simpl; auto 10
         end.
Qed.

Lemma mark_handler_role_blind (db : Db) (u : ReqUser.t) (q : MarkQuery.t) (now : Time)
    (newId : ObjectId) (email' : string) (role' : Role) (name' : string) :
  mark_handler db u q now newId
  = mark_handler db (ReqUser.mk (ReqUser.userId u) email' role' name') q now newId.
Proof. reflexivity. Qed.

(** *** C9, as amended *)

(** C9 (amended).  The mark route makes no authorisation check on the
    actor.  It never answers 403.  A call the authentication middleware
    turns away gets the middleware's answer and changes nothing; a call
    it lets through is handled exactly as the same call by a user of any
    other role with the same id would be. *)
Theorem mark_has_no_authorization (db : Db) (tok : Token) (q : MarkQuery.t)
    (now : Time) (newId : ObjectId) :
  code (fst (mark db tok q now newId)) <> 403%nat /\
  match authenticateToken db tok with
  | inl e => mark db tok q now newId = (relay e, db)
  | inr u =>
      forall (email' : string) (role' : Role) (name' : string),
        mark db tok q now newId
        = mark_handler db (ReqUser.mk (ReqUser.userId u) email' role' name') q now newId
  end.
Proof.
  unfold mark. destruct (authenticateToken db tok) as [e|u] eqn:Ha.
  - split; [|reflexivity].
    apply authenticateToken_inl in Ha as [_ [Hc | Hc]]; simpl; rewrite Hc; discriminate.
  - split.
    + pose proof (mark_handler_codes db u q now newId) as Hin.
      simpl in Hin. intros H403. rewrite H403 in Hin.
      repeat destruct Hin as [Hin | Hin]; try discriminate; contradiction.
    + intros. apply mark_handler_role_blind.
Qed.

(** ** The validate route *)

Lemma QRStatus_eqb_eq (a b : QRStatus) : QRStatus_eqb a b = true <-> a = b.
Proof. destruct a, b; simpl; split; congruence. Qed.

(** *** C2, as amended *)

(** C2 (amended).  For every authenticated scanner, every payload that
    names a stored session and whose own [expiresAt] field reads as a
    time before the current time, the validate route answers 400 "QR
    code has expired", whatever the stored status of the session; the
    answer carries the session id, course id and expiry of the payload;
    the database is left as it was. *)
Theorem validate_expired_payload (db : Db) (tok : Token) (user : ReqUser.t)
    (p : QrPayload.t) (now : Time) (s : QR.t) (txt : string) (e : Time) :
  authenticateToken db tok = inr user ->
  findById (qrs db) (QrPayload.sessionId p) = Some (Some s) ->
  QrPayload.expiresAt p = Some txt ->
  Date_parse txt = Some e ->
  e < now ->
  validate db tok (Payload p) now
  = (mkResp 400 false "QR code has expired"
       (Some (ExpiredData (QrPayload.sessionId p) (QrPayload.courseId p)
                (QrPayload.expiresAt p))), db).
Proof.
  intros Ha Hf Htxt He Hlt. unfold validate. rewrite Ha.
  unfold validate_handler. rewrite Hf.
  unfold payloadExpired. rewrite Htxt, He.
  apply Z.ltb_lt in Hlt. rewrite Hlt. reflexivity.
Qed.

(** *** C8, as amended *)


(** ** The expire route *)

Lemma QR_validate_expire (t : Time) (s : QR.t) :
  QR_validate s = true ->
  QR_validate (QR.set_expiresAt (Some t) (QR.set_status expired s)) = true.
Proof.
  clear startOfDay qrImage isObjectId Date_parse castObjectId.
  unfold QR_validate. destruct s; simpl.
  rewrite !andb_true_iff. tauto.
Qed.

Lemma QR_preSave_expired (t : Time) (s : QR.t) :
  QR.status s = expired -> QR_preSave t s = s.
Proof.
  unfold QR_preSave. intros Hs. destruct (QR.expiresAt s); [|reflexivity].
  destruct (_ <? _); [|reflexivity]. destruct s; simpl in *. subst. reflexivity.
Qed.

(** *** C7, as amended *)

(** C7 (amended).  For every stored, well-formed session, whatever its
    status (active, expired or cancelled), and every caller the route
    lets through (an administrator, or a lecturer the ownership test
    accepts), the expire route answers 200 and overwrites the session:
    its status becomes [expired] and its expiry the time of the call;
    the other fields are kept. *)
Theorem expire_route_overwrites (db : Db) (u : ReqUser.t) (id : string)
    (t_set t_save : Time) (s : QR.t) :
  requireLecturer (Some u) = inr u ->
  findById (qrs db) (Some id) = Some (Some s) ->
  notOwner u (Some (QR.createdBy s)) = false ->
  QR_validate s = true ->
  let s' := QR.set_expiresAt (Some t_set) (QR.set_status expired s) in
  let db' := snd (expire_route db (Some u) id t_set t_save) in
  fst (expire_route db (Some u) id t_set t_save)
  = mkResp 200 true "QR session expired successfully" (Some s') /\
  QR_byId (castObjectId id) (qrs db') = Some s' /\
  QR.status s' = expired /\ QR.expiresAt s' = Some t_set /\
  users db' = users db /\ courses db' = courses db /\
  attendances db' = attendances db.
Proof.
  intros Hreq Hf Hown Hval s' db'. subst db'.
  unfold expire_route. rewrite Hreq, Hf, Hown.
  unfold QR_saveExisting. fold s'.
  assert (Hval' : QR_validate s' = true) by (apply QR_validate_expire; exact Hval).
  rewrite Hval'.
  rewrite (QR_preSave_expired t_save s') by reflexivity.
  cbn [fst snd set_qrs qrs users courses attendances].
  repeat split.
  apply findById_QR in Hf. symmetry in Hf.
  pose proof (QR_byId_id _ _ _ Hf) as Hid.
  rewrite (QR_byId_replace (castObjectId id) (QR._id s')) by reflexivity.
  replace (QR._id s') with (castObjectId id) by (symmetry; exact Hid).
  rewrite String.eqb_refl, Hf. reflexivity.
Qed.

(** ** The generate route *)

(** The document the generate route builds is never valid: it has no
    [qrCodeData], which the schema requires. *)
Lemma QR_validate_no_qrCodeData (d : QR.t) :
  QR.qrCodeData d = None -> QR_validate d = false.
Proof.
  intros H. unfold QR_validate. rewrite H. simpl. apply andb_false_r.
Qed.

(** So the route never answers with success and never stores a session. *)
Lemma generate_never_persists (db : Db) (user : option ReqUser.t)
    (q : GenerateQuery.t) (now t_save : Time) (newId : ObjectId)
    (newSessionId : string) :
  snd (generate db user q now t_save newId newSessionId) = db /\
  success (fst (generate db user q now t_save newId newSessionId)) = false.
Proof.
  unfold generate.
  destruct (requireLecturer user) as [r|u] eqn:Hr.
  { split; [reflexivity|].
    unfold requireLecturer, requireRole in Hr.
    destruct user as [u|]; [destruct (negb _)|]; try discriminate;
      injection Hr as <-; reflexivity. }
  repeat match goal with
         | |- context [QR_saveNew ?t ?d ?c] =>
             replace (QR_saveNew t d c) with (@None (QR.t * list QR.t))
               by (unfold QR_saveNew;
                   rewrite QR_validate_no_qrCodeData by reflexivity; reflexivity)
         | |- context [match ?x with _ => _ end] => destruct x; simpl; auto
         end.
Qed.

(** A duration that does not read as an integer of [1, 480] is
    refused with 400. *)
Lemma generate_rejects_duration (db : Db) (u : ReqUser.t) (q : GenerateQuery.t)
    (now t_save : Time) (newId : ObjectId) (newSessionId : string) :
  requireLecturer (Some u) = inr u ->
  Js.truthy (GenerateQuery.courseId q) = true ->
  Js.truthy (GenerateQuery.duration q) = true ->
  match Js.parseInt (Js.or_else (GenerateQuery.duration q) "") with
  | Some n => n < 1 \/ 480 < n
  | None => True
  end ->
  generate db (Some u) q now t_save newId newSessionId
  = (fail 400 "Duration must be between 1 and 480 minutes", db).
Proof.
  intros Hr Hc Hd Hn. unfold generate. rewrite Hr, Hc, Hd. cbn [negb orb].
  destruct (Js.parseInt _) as [n|]; [|reflexivity].
  destruct Hn as [Hn | Hn].
  - apply Z.ltb_lt in Hn. rewrite Hn. reflexivity.
  - apply Z.ltb_lt in Hn. rewrite Hn, orb_true_r. reflexivity.
Qed.

(** What [recordScan] does to the counter and the scan time. *)
Lemma QR_recordScan_counts (t_set t_save : Time) (d d' : QR.t)
    (coll coll' : list QR.t) :
  QR_recordScan t_set t_save d coll = Some (d', coll') ->
  QR.scannedCount d' = Js.num_succ (QR.scannedCount d) /\
  QR.lastScannedAt d' = Some t_set.
Proof.
  unfold QR_recordScan. intros H.
  apply QR_saveExisting_inv in H as (_ & -> & _).
  unfold QR_preSave. simpl.
  destruct (QR.expiresAt d); [destruct (_ <? _)|]; simpl; auto.
Qed.

(** ** What moves the scan counter and what writes attendance *)

Lemma QR_byId_NoDup (coll : list QR.t) (d : QR.t) :
  NoDup (map QR._id coll) -> In d coll -> QR_byId (QR._id d) coll = Some d.
Proof.
  clear.
  unfold QR_byId. induction coll as [|r coll IH]; cbn [map In find]; [tauto|].
  intros Hnd Hin. apply NoDup_cons in Hnd as [Hnotin Hnd].
  destruct Hin as [-> | Hin].
  - rewrite String.eqb_refl. reflexivity.
  - destruct (String.eqb (QR._id r) (QR._id d)) eqn:E; [|auto].
    apply String.eqb_eq in E. exfalso. apply Hnotin.
    rewrite E. apply list_elem_of_In, in_map, Hin.
Qed.

Lemma scan_data_preSave (t : Time) (d : QR.t) :
  scan_data (QR_preSave t d) = scan_data d.
Proof.
  unfold QR_preSave. destruct (QR.expiresAt d); [destruct (_ <? _)|]; reflexivity.
Qed.

(** A save of a document that carries the scan data of the stored
    one leaves the scan data of every stored session as it was. *)
Lemma scans_saveExisting (t : Time) (d d' : QR.t) (coll coll' : list QR.t) :
  QR_saveExisting t d coll = Some (d', coll') ->
  (forall s, QR_byId (QR._id d) coll = Some s -> scan_data d = scan_data s) ->
  forall id, option_map scan_data (QR_byId id coll')
             = option_map scan_data (QR_byId id coll).
Proof.
  intros H Hsame id.
  apply QR_saveExisting_inv in H as (_ & -> & ->).
  rewrite (QR_byId_replace id (QR._id d)) by apply QR_preSave_id.
  destruct (String.eqb (QR._id d) id) eqn:E; [|reflexivity].
  apply String.eqb_eq in E. subst id.
  destruct (QR_byId (QR._id d) coll) as [s|] eqn:Hs; [|reflexivity].
  cbn [option_map]. rewrite scan_data_preSave, (Hsame s eq_refl). reflexivity.
Qed.

Lemma scans_onDocument (id0 : ObjectId) (db : Db)
    (method : QR.t -> list QR.t -> option (QR.t * list QR.t))
    (change : QR.t -> QR.t) (t : Time) :
  (forall d coll, method d coll = QR_saveExisting t (change d) coll) ->
  (forall d, QR._id (change d) = QR._id d) ->
  (forall d, scan_data (change d) = scan_data d) ->
  forall id, option_map scan_data (QR_byId id (qrs (onDocument method id0 db)))
             = option_map scan_data (QR_byId id (qrs db)).
Proof.
  intros Hm Hid Hscan id. unfold onDocument.
  destruct (QR_byId id0 (qrs db)) as [d|] eqn:Hd; [|reflexivity].
  rewrite Hm.
  destruct (QR_saveExisting t (change d) (qrs db)) as [[d' coll']|] eqn:Hs; [|reflexivity].
  cbn [qrs set_qrs]. apply (scans_saveExisting t (change d) d' _ _ Hs).
  intros s Hs'. rewrite Hid in Hs'.
  pose proof (QR_byId_id _ _ _ Hd) as Hid0. rewrite Hid0 in Hs'.
  assert (s = d) by congruence. subst s. apply Hscan.
Qed.

Lemma scans_cleanup (t_save : ObjectId -> Time) (orig : list QR.t) :
  NoDup (map QR._id orig) ->
  forall (todo : list QR.t) (acc : bool * list QR.t),
    (forall s, In s todo -> In s orig) ->
    (forall id, option_map scan_data (QR_byId id (snd acc))
                = option_map scan_data (QR_byId id orig)) ->
    forall id,
      option_map scan_data
        (QR_byId id (snd (fold_left (QR_cleanupStep t_save) todo acc)))
      = option_map scan_data (QR_byId id orig).
Proof.
  intros Hnd todo. induction todo as [|session todo IH]; intros acc Hin Hinv id;
    cbn [fold_left]; [apply Hinv|].
  apply IH; [intros s Hs; apply Hin; right; exact Hs|].
  clear id. intros id. unfold QR_cleanupStep.
  destruct acc as [[|] coll]; cbn [snd] in *; [|apply Hinv].
  destruct (QR_saveExisting _ _ coll) as [[d' coll']|] eqn:Hs; cbn [snd]; [|apply Hinv].
  rewrite (scans_saveExisting _ _ _ _ _ Hs); [apply Hinv|].
  intros s Hs'. cbn [QR.set_status QR._id] in Hs'.
  pose proof (Hinv (QR._id session)) as Hi.
  rewrite Hs', (QR_byId_NoDup orig session Hnd (Hin session (or_introl eq_refl))) in Hi.
  cbn [option_map] in Hi. injection Hi as Hi1 Hi2.
  unfold scan_data. cbn. congruence.
Qed.

(** Of all operations, only [recordScan] on a session changes what
    the session holds of scans. *)
Lemma step_scans (db : Db) (op : Op) (id : ObjectId) :
  NoDup (map QR._id (qrs db)) ->
  (exists t_set t_save, op = OpRecordScan id t_set t_save) \/
  option_map scan_data (QR_byId id (qrs (step db op)))
  = option_map scan_data (QR_byId id (qrs db)).
Proof.
  intros Hnd. destruct op; cbn [step].
  - right. rewrite (proj1 (generate_never_persists db user q now t_save newId newSessionId)).
    reflexivity.
  - right. rewrite validate_readonly. reflexivity.
  - right. unfold expire_route.
    destruct (requireLecturer user) as [r|u]; [reflexivity|].
    destruct (findById (qrs db) (Some id0)) as [[qrSession|]|] eqn:Hf; try reflexivity.
    destruct (notOwner u _); [reflexivity|].
    destruct (QR_saveExisting _ _ (qrs db)) as [[saved coll]|] eqn:Hs; [|reflexivity].
    cbn [snd qrs set_qrs]. apply (scans_saveExisting _ _ _ _ _ Hs).
    intros s Hs'. cbn [QR.set_expiresAt QR.set_status QR._id] in Hs'.
    apply findById_QR in Hf. symmetry in Hf.
    pose proof (QR_byId_id _ _ _ Hf) as Hid. rewrite Hid in Hs'.
    assert (s = qrSession) by congruence. subst s. reflexivity.
  - right. rewrite mark_qrs. reflexivity.
  - right. apply (scans_onDocument id0 db _
                    (fun d => QR.set_expiresAt (Some t_set) (QR.set_status expired d))
                    t_save); auto.
  - right. apply (scans_onDocument id0 db _ (QR.set_status cancelled) t_save); auto.
  - destruct (String.eqb id0 id) eqn:E.
    + apply String.eqb_eq in E. subst id0. left. eauto.
    + right. unfold onDocument.
      destruct (QR_byId id0 (qrs db)) as [d|] eqn:Hd; [|reflexivity].
      destruct (QR_recordScan t_set t_save d (qrs db)) as [[d' coll']|] eqn:Hs;
        [|reflexivity].
      cbn [qrs set_qrs]. unfold QR_recordScan in Hs.
      apply QR_saveExisting_inv in Hs as (_ & -> & ->).
      rewrite (QR_byId_replace id (QR._id d)) by (rewrite QR_preSave_id; reflexivity).
      rewrite (QR_byId_id _ _ _ Hd), E. reflexivity.
  - right. apply (scans_onDocument id0 db _ (fun d => d) t_save); auto.
  - right. cbn [qrs set_qrs]. unfold QR_cleanupExpired.
    apply (scans_cleanup t_save (qrs db) Hnd).
    + intros s Hs. apply filter_In in Hs as [Hs _]. exact Hs.
    + reflexivity.
Qed.

(** *** C3, as amended *)

(** C3 (amended).  The validate route only validates.  Whatever the
    request, it leaves the database as it was: no scan counter, no
    last-scan time and no attendance record changes.  When it answers
    with success, the payload names a stored session that is [active] and
    the payload's own expiry is not passed, the course and the creator
    of the stored session are stored, and the answer carries the
    payload's session and course ids with the name and code of that
    course, the expiry, title and notes of the stored session and the
    name of that creator.  Of all operations, only [recordScan] on a
    session changes the scan counter or the last-scan time of that
    session (the [_id]s of the stored sessions being distinct), and only
    a mark call changes the attendance records. *)
Theorem validate_only_validates (db : Db) (tok : Token) (qrCode : QrCodeParam)
    (now : Time) :
  snd (validate db tok qrCode now) = db /\
  (success (fst (validate db tok qrCode now)) = true ->
   exists p s c creator,
     qrCode = Payload p /\
     findById (qrs db) (QrPayload.sessionId p) = Some (Some s) /\
     QR.status s = active /\
     payloadExpired now (QrPayload.expiresAt p) = false /\
     find (fun c => String.eqb (Course._id c) (QR.courseId s)) (courses db) = Some c /\
     find (fun u => String.eqb (User._id u) (QR.createdBy s)) (users db) = Some creator /\
     fst (validate db tok qrCode now)
     = mkResp 200 true "QR code is valid"
         (Some (ValidData (QrPayload.sessionId p) (QrPayload.courseId p)
                  (Course.name c) (Course.code c) (QR.expiresAt s)
                  (QR.title s) (QR.notes s) (User.name creator)))) /\
  (forall op : Op,
     (NoDup (map QR._id (qrs db)) ->
      forall id,
        option_map scan_data (QR_byId id (qrs (step db op)))
        <> option_map scan_data (QR_byId id (qrs db)) ->
        exists t_set t_save, op = OpRecordScan id t_set t_save) /\
     (attendances (step db op) <> attendances db ->
      exists tok' q now' newId, op = OpMark tok' q now' newId)).
Proof.
  split; [apply validate_readonly|]. split.
  - unfold validate. destruct (authenticateToken db tok) as [e|user] eqn:Ha.
    { apply authenticateToken_inl in Ha as [Hf _]. simpl. congruence. }
    unfold validate_handler.
    destruct qrCode as [| |p]; try (simpl; discriminate).
    destruct (findById (qrs db) (QrPayload.sessionId p)) as [[s|]|] eqn:Hf;
      try (simpl; discriminate).
    destruct (payloadExpired now (QrPayload.expiresAt p)) eqn:Hexp;
      [simpl; discriminate|].
    destruct (QRStatus_eqb (QR.status s) active) eqn:Hact; [|simpl; discriminate].
    apply QRStatus_eqb_eq in Hact. cbn [negb].
    destruct (find _ (courses db)) as [c|] eqn:Hc;
      [destruct (find _ (users db)) as [creator|] eqn:Hu|];
      (destruct (Role_eqb (ReqUser.role user) student);
       [destruct (findById (courses db) (QrPayload.courseId p)) as [[course|]|];
        [destruct (negb (enrolled user course))| |]|]);
      simpl; try discriminate.
    all: intros _; exists p, s, c, creator; repeat split; auto.
  - intros op. split.
    + intros Hnd id Hne.
      destruct (step_scans db op id Hnd) as [H | H]; [exact H | contradiction].
    + intros Hne.
      destruct (step_attendances db op) as [H | H]; [exact H | contradiction].
Qed.

(** ** The middleware, beyond the claims *)

(** X1.  A token is let through by [authenticateToken] exactly when it
    decodes to an id the driver can cast, a user with the id it is cast
    to is stored and that user is active; [req.user] then carries that
    user's id (as an [ObjectId]), email, role and name. *)
Theorem authenticateToken_passes_iff (db : Db) (tok : Token) (u : ReqUser.t) :
  authenticateToken db tok = inr u <->
  exists uid user,
    tok = Decoded uid /\ isObjectId uid = true /\
    find (fun d => String.eqb (User._id d) (castObjectId uid)) (users db) = Some user /\
    User.isActive user = true /\
    u = ReqUser.mk (Js.Oid (User._id user)) (User.email user)
                   (User.role user) (User.name user).
Proof.
  unfold authenticateToken, findById. split.
  - destruct tok as [| | |uid]; try discriminate.
    destruct (isObjectId uid) eqn:Hc; [|discriminate].
    unfold get_id, User_HasId.
    destruct (find _ (users db)) as [user|] eqn:Hf; [|discriminate].
    destruct (User.isActive user) eqn:Ha; [|discriminate].
    simpl. intros H. injection H as <-. exists uid, user. auto.
  - intros (uid & user & -> & Hc & Hf & Ha & ->).
    rewrite Hc. unfold get_id, User_HasId. rewrite Hf, Ha. reflexivity.
Qed.

(** X2.  The three role guards are nested: whoever passes
    [requireAdmin] passes [requireLecturer], whoever passes
    [requireLecturer] passes [requireStudent], and [requireStudent]
    passes exactly the requests that carry a user. *)
Theorem require_hierarchy (user : option ReqUser.t) (u : ReqUser.t) :
  (requireAdmin user = inr u -> requireLecturer user = inr u) /\
  (requireLecturer user = inr u -> requireStudent user = inr u) /\
  (requireStudent user = inr u <-> user = Some u).
Proof.
  unfold requireAdmin, requireLecturer, requireStudent, requireRole.
  destruct user as [v|].
  - destruct (ReqUser.role v); simpl; repeat split; intros H;
      try discriminate; try (injection H as ->; reflexivity); congruence.
  - repeat split; intros H; discriminate.
Qed.

(** How the course case decides for a lecturer and a stored course
    with a lecturer of record. *)
Lemma courseAccess_lecturer (db : Db) (u : ReqUser.t) (req : AccessReq.t)
    (cid : string) (course : Course.t) (owner : ObjectId) :
  ReqUser.role u = lecturer ->
  Param_or (AccessReq.params_courseId req) (AccessReq.body_courseId req) = Some cid ->
  cid <> "" ->
  findById (courses db) (Some cid) = Some (Some course) ->
  Course.lecturer course = Some owner ->
  courseAccess db u req = None <-> owner = Js.toString (ReqUser.userId u).
Proof.
  intros Hrole Hcid Hne Hf Hown.
  unfold courseAccess. rewrite Hrole, Hcid. cbn [Role_eqb].
  assert (Ht : Js.truthy (Some cid) = true) by (destruct cid; [congruence | reflexivity]).
  rewrite Ht, Hf, Hown.
  destruct (String.eqb owner (Js.toString (ReqUser.userId u))) eqn:E; simpl.
  - apply String.eqb_eq in E. split; auto.
  - apply String.eqb_neq in E. split; intros H; congruence.
Qed.

(** X3.  For a lecturer and a request that names a stored course with
    a lecturer of record, [canAccessResource('course')] and
    [canAccessResource('attendance')] let the request through exactly
    when the lecturer of record is the caller. *)
Theorem canAccessResource_lecturer (db : Db) (u : ReqUser.t) (req : AccessReq.t)
    (cid : string) (course : Course.t) (owner : ObjectId) :
  ReqUser.role u = lecturer ->
  Param_or (AccessReq.params_courseId req) (AccessReq.body_courseId req) = Some cid ->
  cid <> "" ->
  findById (courses db) (Some cid) = Some (Some course) ->
  Course.lecturer course = Some owner ->
  (canAccessResource ResCourse db (Some u) req = None <->
   owner = Js.toString (ReqUser.userId u)) /\
  (canAccessResource ResAttendance db (Some u) req = None <->
   owner = Js.toString (ReqUser.userId u)).
Proof.
  intros Hrole Hcid Hne Hf Hown.
  pose proof (courseAccess_lecturer db u req cid course owner Hrole Hcid Hne Hf Hown) as H.
  unfold canAccessResource. rewrite Hrole. cbn [Role_eqb]. split; exact H.
Qed.

(** X4.  The lecturer of record, as [authenticateToken] presents that
    lecturer, is accepted by [canAccessResource('course')], which
    compares the two ids as strings, and refused by the ownership test
    of the generate and expire routes, which compares a string with the
    [ObjectId]. *)
Theorem owner_accepted_and_refused (db : Db) (tok : Token) (u : ReqUser.t)
    (req : AccessReq.t) (cid : string) (course : Course.t) :
  authenticateToken db tok = inr u ->
  ReqUser.role u = lecturer ->
  Param_or (AccessReq.params_courseId req) (AccessReq.body_courseId req) = Some cid ->
  cid <> "" ->
  findById (courses db) (Some cid) = Some (Some course) ->
  Course.lecturer course = Some (Js.toString (ReqUser.userId u)) ->
  canAccessResource ResCourse db (Some u) req = None /\
  notOwner u (Course.lecturer course) = true.
Proof.
  intros Ha Hrole Hcid Hne Hf Hown. split.
  - unfold canAccessResource. rewrite Hrole. cbn [Role_eqb].
    apply (courseAccess_lecturer db u req cid course
             (Js.toString (ReqUser.userId u))); auto.
  - apply authenticateToken_userId in Ha as [h Hh].
    rewrite (notOwner_Oid u _ h Hh), Hrole. reflexivity.
Qed.

(** X5.  For a caller who is not an administrator,
    [canAccessResource('user')] refuses the request exactly when it
    names a user id (in [params], else in [body]) that is not the
    caller's own. *)
Theorem canAccessResource_user (db : Db) (u : ReqUser.t) (req : AccessReq.t) :
  ReqUser.role u <> admin ->
  (canAccessResource ResUser db (Some u) req
   = Some (fail 403 "Access denied - can only access own profile")
   <-> exists id,
         Param_or (AccessReq.params_userId req) (AccessReq.body_userId req) = Some id /\
         id <> "" /\ id <> Js.toString (ReqUser.userId u)) /\
  (canAccessResource ResUser db (Some u) req = None
   <-> ~ exists id,
         Param_or (AccessReq.params_userId req) (AccessReq.body_userId req) = Some id /\
         id <> "" /\ id <> Js.toString (ReqUser.userId u)).
Proof.
  intros Hrole. unfold canAccessResource, userAccess.
  assert (Hadm : Role_eqb (ReqUser.role u) admin = false)
    by (destruct (ReqUser.role u); simpl; congruence).
  rewrite Hadm.
  set (p := Param_or _ _).
  set (own := Js.toString (ReqUser.userId u)).
  assert (Hiff : Js.truthy p && negb (String.eqb (Js.or_else p "") own) = true
                 <-> exists id, p = Some id /\ id <> "" /\ id <> own).
  { destruct p as [[|c r]|]; cbn [Js.truthy Js.or_else andb].
    - split; [discriminate|]. intros (id & H & Hne & _). congruence.
    - rewrite negb_true_iff, String.eqb_neq. split.
      + intros H. exists (String c r). repeat split; auto.
      + intros (id & H & _ & Hne). congruence.
    - split; [discriminate|]. intros (id & H & _). discriminate. }
  destruct (Js.truthy p && negb (String.eqb (Js.or_else p "") own)) eqn:E.
  - split; split; auto; try discriminate.
    + intros _. apply Hiff. reflexivity.
    + intros H. exfalso. apply H, Hiff. reflexivity.
  - split; split; auto; try discriminate.
    + intros H. apply Hiff in H. discriminate.
    + intros _ H. apply Hiff in H. discriminate.
Qed.

(** ** The rate limiter *)

Lemma rateLimitAction_other_key (action : string) (maxAttempts windowMs : Z)
    (attempts : gmap string Attempts.t) (key key' : string) (now : Time) :
  key <> key' ->
  snd (rateLimitAction action maxAttempts windowMs attempts key now) !! key'
  = attempts !! key'.
Proof.
  intros Hne. unfold rateLimitAction.
  destruct (attempts !! key) as [a|] eqn:Ha;
    destruct (_ <=? _); simpl; try reflexivity;
    rewrite lookup_insert_ne by exact Hne; reflexivity.
Qed.

(** A request strictly inside the window of a stored entry. *)
Lemma rateLimitAction_in_window (action : string) (maxAttempts windowMs : Z)
    (attempts : gmap string Attempts.t) (key : string) (now c R : Time) :
  attempts !! key = Some (Attempts.mk c R) ->
  now <= R ->
  rateLimitAction action maxAttempts windowMs attempts key now
  = if maxAttempts <=? c
    then (Some (fail 429 ("Too many " +:+ action +:+ " attempts. Please try again later.")),
          <[key := Attempts.mk c R]> attempts)
    else (None, <[key := Attempts.mk (c + 1) R]> attempts).
Proof.
  intros Ha Hle. unfold rateLimitAction. rewrite Ha. cbn [Attempts.resetTime].
  assert (Hno : (R <? now) = false) by (apply Z.ltb_ge; exact Hle).
  rewrite Hno. reflexivity.
Qed.

Lemma rateLimitRun_in_window (action : string) (maxAttempts windowMs : Z)
    (key : string) (times : list Time) :
  forall (attempts : gmap string Attempts.t) (c R : Time),
    attempts !! key = Some (Attempts.mk c R) ->
    Forall (fun t => t <= R) times ->
    fst (rateLimitRun action maxAttempts windowMs attempts key times)
    = map (fun i => c + Z.of_nat i <? maxAttempts) (seq 0 (length times)) /\
    exists c', snd (rateLimitRun action maxAttempts windowMs attempts key times) !! key
               = Some (Attempts.mk c' R).
Proof.
  induction times as [|now rest IH]; intros attempts c R Ha Hall.
  - simpl. split; [reflexivity | eauto].
  - apply Forall_cons in Hall as [Hnow Hrest].
    cbn [rateLimitRun].
    rewrite (rateLimitAction_in_window action maxAttempts windowMs attempts key now c R Ha Hnow).
    destruct (maxAttempts <=? c) eqn:Hm.
    + specialize (IH (<[key := Attempts.mk c R]> attempts) c R
                     (lookup_insert_eq _ _ _) Hrest) as [IHp IHs].
      destruct (rateLimitRun _ _ _ (<[key := _]> attempts) key rest) as [passes final].
      simpl in *. split; [|exact IHs].
      apply Z.leb_le in Hm.
      f_equal.
      * symmetry. apply Z.ltb_ge. lia.
      * rewrite IHp. rewrite <- seq_shift, map_map.
        apply map_ext. intros i.
        transitivity false; [apply Z.ltb_ge; lia | symmetry; apply Z.ltb_ge; lia].
    + specialize (IH (<[key := Attempts.mk (c + 1) R]> attempts) (c + 1) R
                     (lookup_insert_eq _ _ _) Hrest) as [IHp IHs].
      destruct (rateLimitRun _ _ _ (<[key := _]> attempts) key rest) as [passes final].
      simpl in *. split; [|exact IHs].
      apply Z.leb_gt in Hm.
      f_equal.
      * symmetry. apply Z.ltb_lt. lia.
      * rewrite IHp. rewrite <- seq_shift, map_map.
        apply map_ext. intros i. f_equal. lia.
Qed.

Lemma map_false_seq {A : Type} (f : nat -> bool) (l : list A) (start : nat) :
  (forall i, f i = false) ->
  map (fun _ => false) l = map f (seq start (length l)).
Proof.
  intros Hf. revert start. induction l as [|x l IH]; intros start; [reflexivity|].
  cbn [length seq map]. rewrite Hf. f_equal. apply IH.
Qed.

(** X6.  A client the limiter has no entry for sends requests, all of
    them no later than [windowMs] after the first: the request number
    [i] (from 0) passes exactly when [i < maxAttempts]; so the first
    [maxAttempts] requests pass and every later one in the window is
    refused. *)
Theorem rateLimit_window (action : string) (maxAttempts windowMs : Z)
    (attempts : gmap string Attempts.t) (key : string) (t0 : Time)
    (rest : list Time) :
  attempts !! key = None ->
  Forall (fun t => t <= t0 + windowMs) rest ->
  fst (rateLimitRun action maxAttempts windowMs attempts key (t0 :: rest))
  = map (fun i => Z.of_nat i <? maxAttempts) (seq 0 (S (length rest))).
Proof.
  intros Hnone Hall. cbn [rateLimitRun].
  assert (Hfirst :
    rateLimitAction action maxAttempts windowMs attempts key t0
    = if maxAttempts <=? 0
      then (Some (fail 429 ("Too many " +:+ action +:+ " attempts. Please try again later.")),
            attempts)
      else (None, <[key := Attempts.mk 1 (t0 + windowMs)]> attempts)).
  { unfold rateLimitAction. rewrite Hnone. cbn [Attempts.resetTime].
    destruct (t0 + windowMs <? t0); reflexivity. }
  rewrite Hfirst. destruct (maxAttempts <=? 0) eqn:Hm.
  - (* nothing ever passes, nothing is ever stored *)
    apply Z.leb_le in Hm.
    assert (Hnothing : forall times,
      fst (rateLimitRun action maxAttempts windowMs attempts key times)
      = map (fun _ => false) times).
    { induction times as [|t times IHt]; [reflexivity|].
      cbn [rateLimitRun]. unfold rateLimitAction at 1. rewrite Hnone.
      cbn [Attempts.resetTime Attempts.count].
      assert (Hb : (maxAttempts <=? 0) = true) by (apply Z.leb_le; lia).
      destruct (t + windowMs <? t); cbn [Attempts.count]; rewrite Hb;
        destruct (rateLimitRun _ _ _ attempts key times); simpl in *; congruence. }
    specialize (Hnothing rest).
    destruct (rateLimitRun _ _ _ attempts key rest) as [passes final].
    simpl in *. subst passes. cbn [seq map]. f_equal.
    + symmetry. apply Z.ltb_ge. lia.
    + apply map_false_seq. intros i. apply Z.ltb_ge. lia.
  - apply Z.leb_gt in Hm.
    destruct (rateLimitRun_in_window action maxAttempts windowMs key rest
                (<[key := Attempts.mk 1 (t0 + windowMs)]> attempts) 1 (t0 + windowMs)
                (lookup_insert_eq _ _ _) Hall) as [Hp _].
    destruct (rateLimitRun _ _ _ (<[key := _]> attempts) key rest) as [passes final].
    simpl in *. subst passes. cbn [seq map]. f_equal.
    + symmetry. apply Z.ltb_lt. lia.
    + rewrite <- seq_shift, map_map. apply map_ext. intros i. f_equal. lia.
Qed.

(** X7.  Once the window of a client's entry is over, the next request
    of that client passes, however many were refused before, and opens a
    new window in which it counts as the first (for a positive
    [maxAttempts]). *)
Theorem rateLimit_after_window (action : string) (maxAttempts windowMs : Z)
    (attempts : gmap string Attempts.t) (key : string) (t0 now : Time)
    (rest : list Time) :
  attempts !! key = None ->
  Forall (fun t => t <= t0 + windowMs) rest ->
  0 < maxAttempts ->
  t0 + windowMs < now ->
  let during := snd (rateLimitRun action maxAttempts windowMs attempts key (t0 :: rest)) in
  rateLimitAction action maxAttempts windowMs during key now
  = (None, <[key := Attempts.mk 1 (now + windowMs)]> during).
Proof.
  intros Hnone Hall Hpos Hlate during.
  assert (Hentry : exists c', during !! key = Some (Attempts.mk c' (t0 + windowMs))).
  { subst during. cbn [rateLimitRun].
    assert (Hfirst :
      rateLimitAction action maxAttempts windowMs attempts key t0
      = (None, <[key := Attempts.mk 1 (t0 + windowMs)]> attempts)).
    { unfold rateLimitAction. rewrite Hnone. cbn [Attempts.resetTime].
      assert (Hb : (maxAttempts <=? 0) = false) by (apply Z.leb_gt; lia).
      destruct (t0 + windowMs <? t0); cbn [Attempts.count Attempts.resetTime];
        rewrite Hb; reflexivity. }
    rewrite Hfirst.
    destruct (rateLimitRun_in_window action maxAttempts windowMs key rest
                (<[key := Attempts.mk 1 (t0 + windowMs)]> attempts) 1 (t0 + windowMs)
                (lookup_insert_eq _ _ _) Hall) as [_ Hs].
    destruct (rateLimitRun _ _ _ (<[key := _]> attempts) key rest) as [passes final].
    exact Hs. }
  destruct Hentry as [c' Hc'].
  unfold rateLimitAction. rewrite Hc'. cbn [Attempts.resetTime].
  assert (Hr : (t0 + windowMs <? now) = true) by (apply Z.ltb_lt; exact Hlate).
  rewrite Hr. cbn [Attempts.count Attempts.resetTime].
  assert (Hb : (maxAttempts <=? 0) = false) by (apply Z.leb_gt; lia).
  rewrite Hb. reflexivity.
Qed.

(** X8.  The limiter counts each key on its own: the requests of one
    client never change the entry of another. *)
Theorem rateLimit_per_key (action : string) (maxAttempts windowMs : Z)
    (key key' : string) (times : list Time) (attempts : gmap string Attempts.t) :
  key <> key' ->
  snd (rateLimitRun action maxAttempts windowMs attempts key times) !! key'
  = attempts !! key'.
Proof.
  intros Hne. revert attempts.
  induction times as [|now rest IH]; intros attempts; [reflexivity|].
  cbn [rateLimitRun].
  pose proof (rateLimitAction_other_key action maxAttempts windowMs attempts key key' now Hne) as H1.
  destruct (rateLimitAction action maxAttempts windowMs attempts key now) as [r attempts'].
  specialize (IH attempts').
  destruct (rateLimitRun action maxAttempts windowMs attempts' key rest) as [passes final].
  simpl in *. congruence.
Qed.

(** ** The virtuals and queries of the QR model *)

(** X9.  For a session with an expiry, [timeRemaining] returns a
    number that is never negative, and that is positive exactly when
    the expiry is not before the first clock reading and is after the
    second; it is then the distance from the second reading to the
    expiry. *)
Theorem QR_timeRemaining_spec (t1 t2 e : Time) (d : QR.t) :
  QR.expiresAt d = Some e ->
  exists r,
    QR_timeRemaining t1 t2 d = Some r /\
    0 <= r /\
    (0 < r <-> t1 <= e /\ t2 < e) /\
    (0 < r -> r = e - t2).
Proof.
  intros He. unfold QR_timeRemaining, QR_isExpired. rewrite He.
  destruct (e <? t1) eqn:E.
  - apply Z.ltb_lt in E. exists 0. repeat split; try lia.
  - apply Z.ltb_ge in E. exists (Z.max 0 (e - t2)). repeat split; try lia.
Qed.

Lemma QR_listedActive_spec (now : Time) (d : QR.t) :
  QR_listedActive now d = true <->
  QR.status d = active /\ exists e, QR.expiresAt d = Some e /\ now < e.
Proof.
  unfold QR_listedActive. rewrite andb_true_iff, QRStatus_eqb_eq.
  destruct (QR.expiresAt d) as [e|].
  - rewrite Z.ltb_lt. split.
    + intros [Hs Hlt]. eauto.
    + intros [Hs (e' & He & Hlt)]. injection He as <-. auto.
  - split; [intros [_ H]; discriminate | intros [_ (e & He & _)]; discriminate].
Qed.

(** X10.  A session the active queries list is active in the sense of
    the [isActive] virtual at the same instant; the converse fails
    exactly for a session flagged [active] whose expiry is that very
    instant or is missing. *)
Theorem QR_isActive_listed (now : Time) (d : QR.t) :
  QR_isActive now d = true <->
  QR_listedActive now d = true \/
  (QR.status d = active /\ (QR.expiresAt d = Some now \/ QR.expiresAt d = None)).
Proof.
  rewrite QR_listedActive_spec.
  unfold QR_isActive, QR_isExpired.
  rewrite andb_true_iff, QRStatus_eqb_eq, negb_true_iff.
  destruct (QR.expiresAt d) as [e|].
  - rewrite Z.ltb_ge. split.
    + intros [Hs Hle]. destruct (Z.eq_dec e now) as [-> | Hne].
      * right. auto.
      * left. split; [exact Hs|]. exists e. split; [reflexivity | lia].
    + intros [[Hs (e' & He & Hlt)] | [Hs [He | He]]].
      * injection He as <-. split; [exact Hs | lia].
      * injection He as ->. split; [exact Hs | lia].
      * discriminate.
  - split.
    + intros [Hs _]. right. auto.
    + intros [[Hs (e' & He & _)] | [Hs _]]; [discriminate | auto].
Qed.

Lemma In_sortDocs (k : SortKey) (l : list QR.t) (d : QR.t) :
  In d (sortDocs k l) <-> In d l.
Proof using sortDocs_perm.
  split; apply Permutation_in; [|symmetry]; apply sortDocs_perm.
Qed.

(** X11.  [getActiveForCourse] and [getActiveByUser], when the id can
    be cast, return exactly the stored sessions whose course (whose
    creator) is the [ObjectId] the argument is cast to, that are flagged
    [active] and whose expiry is after the current time, each as often
    as it is stored. *)
Theorem QR_getActive_exact (now : Time) (id : string) (coll : list QR.t) :
  isObjectId id = true ->
  (exists l, QR_getActiveForCourse now id coll = Some l /\
     length l = length (List.filter (fun d => String.eqb (QR.courseId d) (castObjectId id)
                                              && QR_listedActive now d) coll) /\
     forall d, In d l <->
               In d coll /\ QR.courseId d = castObjectId id /\ QR.status d = active /\
               exists e, QR.expiresAt d = Some e /\ now < e) /\
  (exists l, QR_getActiveByUser now id coll = Some l /\
     length l = length (List.filter (fun d => String.eqb (QR.createdBy d) (castObjectId id)
                                              && QR_listedActive now d) coll) /\
     forall d, In d l <->
               In d coll /\ QR.createdBy d = castObjectId id /\ QR.status d = active /\
               exists e, QR.expiresAt d = Some e /\ now < e).
Proof using sortDocs_perm.
  clear startOfDay qrImage Date_parse.
  intros Hc. unfold QR_getActiveForCourse, QR_getActiveByUser. rewrite Hc.
  split; eexists; (split; [reflexivity|]); split.
  - apply Permutation_length, sortDocs_perm.
  - intros d. rewrite In_sortDocs, filter_In, andb_true_iff, String.eqb_eq,
      QR_listedActive_spec. tauto.
  - apply Permutation_length, sortDocs_perm.
  - intros d. rewrite In_sortDocs, filter_In, andb_true_iff, String.eqb_eq,
      QR_listedActive_spec. tauto.
Qed.

(** When the listed sessions can be written as JSON, and what is
    written then. *)
Lemma listed_json_spec (db : Db) (found : list QR.t) :
  (listed_json db found = None <->
   exists d c, In d found /\
     find (fun c => String.eqb (Course._id c) (QR.courseId d)) (courses db) = Some c) /\
  (forall ad, listed_json db found = Some ad ->
     ad = mkActiveData (map (populateQR db) found) (length found) /\
     forall p, In p (activeSessions ad) -> pq_course p = None).
Proof.
  clear.
  unfold listed_json.
  destruct (existsb _ (map (populateQR db) found)) eqn:E.
  - split.
    + split; [intros _|reflexivity].
      apply existsb_exists in E as (p & Hp & Hc).
      apply in_map_iff in Hp as (d & <- & Hd).
      cbn [populateQR pq_course] in Hc.
      destruct (find _ (courses db)) as [c|] eqn:Hf; [|discriminate].
      exists d, c. auto.
    + intros ad H. discriminate.
  - assert (Hall : forall p, In p (map (populateQR db) found) -> pq_course p = None).
    { intros p Hp. destruct (pq_course p) as [x|] eqn:Hx; [|reflexivity].
      assert (existsb (fun p => match pq_course p with Some _ => true | None => false end)
                (map (populateQR db) found) = true) as Ht.
      { apply existsb_exists. exists p. rewrite Hx. auto. }
      congruence. }
    split.
    + split; [discriminate|].
      intros (d & c & Hd & Hf). exfalso.
      specialize (Hall (populateQR db d) (in_map _ _ _ Hd)).
      cbn [populateQR pq_course] in Hall. rewrite Hf in Hall. discriminate.
    + intros ad H. injection H as <-. split; [reflexivity | exact Hall].
Qed.

(** X12.  The route GET /api/qr/active, for an authenticated caller,
    fails with 500 exactly when some stored session that is flagged
    [active] with an expiry after the current time belongs to a stored
    course (writing the populated course throws).  Otherwise it answers
    200, and whenever it answers with data it lists exactly the stored
    sessions that are flagged [active] and whose expiry is after the
    current time, none of them expired and none with a course, and
    reports their number as [count]. *)
Theorem active_route_lists_live (db : Db) (tok : Token) (now : Time) (u : ReqUser.t) :
  authenticateToken db tok = inr u ->
  let broken :=
    exists d c, In d (qrs db) /\ QR.status d = active /\
      (exists e, QR.expiresAt d = Some e /\ now < e) /\
      find (fun c => String.eqb (Course._id c) (QR.courseId d)) (courses db) = Some c in
  (broken <->
   active_route db tok now = serverError "Server error while fetching active sessions") /\
  (~ broken ->
   exists ad, active_route db tok now = mkResp 200 true "" (Some ad)) /\
  (forall ad, data (active_route db tok now) = Some ad ->
     activeCount ad = length (activeSessions ad) /\
     (forall p, In p (activeSessions ad) <->
        exists d, p = populateQR db d /\ In d (qrs db) /\ QR.status d = active /\
                  exists e, QR.expiresAt d = Some e /\ now < e) /\
     (forall p, In p (activeSessions ad) ->
        pq_course p = None /\ QR_isExpired now (pq_doc p) = false)).
Proof using sortDocs_perm.
  clear startOfDay.
  intros Ha broken. unfold active_route. rewrite Ha.
  set (found := sortDocs ByCreatedAtDesc (List.filter (QR_listedActive now) (qrs db))).
  assert (Hfound : forall d, In d found <->
            In d (qrs db) /\ QR.status d = active /\
            exists e, QR.expiresAt d = Some e /\ now < e).
  { intros d. subst found. rewrite In_sortDocs, filter_In, QR_listedActive_spec. tauto. }
  destruct (listed_json_spec db found) as [Hnone Hsome].
  assert (Hbroken : broken <-> listed_json db found = None).
  { rewrite Hnone. subst broken. split.
    - intros (d & c & Hin & Hs & He & Hc). exists d, c. split; [|exact Hc].
      apply Hfound. auto.
    - intros (d & c & Hd & Hc). apply Hfound in Hd as (Hin & Hs & He).
      exists d, c. auto. }
  destruct (listed_json db found) as [body|] eqn:Hl.
  - split; [|split].
    + rewrite Hbroken. split; discriminate.
    + intros _. eauto.
    + cbn [data]. intros ad H. injection H as <-.
      destruct (Hsome body eq_refl) as [-> Hcourse].
      cbn [activeCount activeSessions] in *.
      split; [symmetry; apply length_map|]. split.
      * intros p. rewrite in_map_iff. split.
        -- intros (d & <- & Hd). exists d. split; [reflexivity|].
           apply Hfound. exact Hd.
        -- intros (d & -> & Hd). exists d. split; [reflexivity|].
           apply Hfound. exact Hd.
      * intros p Hp. split; [apply Hcourse; exact Hp|].
        apply in_map_iff in Hp as (d & <- & Hd). cbn [populateQR pq_doc].
        apply Hfound in Hd as (_ & _ & e & He & Hlt).
        unfold QR_isExpired. rewrite He. apply Z.ltb_ge. lia.
  - split; [|split].
    + rewrite Hbroken. split; reflexivity.
    + intros Hn. exfalso. apply Hn, Hbroken. reflexivity.
    + cbn [data serverError fail]. intros ad H. discriminate.
Qed.

(** X13.  The route GET /api/qr/sessions, for an authenticated caller,
    asks for a course id (400 without one) and, for an id the driver
    can cast, fails with 500 exactly when the course the id is cast to
    is stored and has a stored session that is flagged [active] with an
    expiry after the current time.  Whenever it answers with data, it
    lists exactly the stored sessions of the course the id is cast to
    that are flagged [active] and whose expiry is after the current
    time, with their number as [count]. *)
Theorem sessions_route_lists_live (db : Db) (tok : Token) (courseId : Js.Param)
    (now : Time) (u : ReqUser.t) :
  authenticateToken db tok = inr u ->
  (Js.truthy courseId = false ->
   sessions_route db tok courseId now = fail 400 "Course ID is required") /\
  (forall cid, courseId = Some cid -> cid <> "" -> isObjectId cid = true ->
     let listed := fun d =>
       In d (qrs db) /\ QR.courseId d = castObjectId cid /\ QR.status d = active /\
       exists e, QR.expiresAt d = Some e /\ now < e in
     ((exists d c, listed d /\
         find (fun c => String.eqb (Course._id c) (castObjectId cid)) (courses db) = Some c)
      <-> sessions_route db tok courseId now
          = serverError "Server error while fetching active sessions") /\
     (forall ad, data (sessions_route db tok courseId now) = Some ad ->
        activeCount ad = length (activeSessions ad) /\
        (forall p, In p (activeSessions ad) <-> exists d, p = populateQR db d /\ listed d) /\
        (forall p, In p (activeSessions ad) -> pq_course p = None))).
Proof using sortDocs_perm.
  clear startOfDay qrImage Date_parse.
  intros Ha. split.
  - intros Ht. unfold sessions_route. rewrite Ha, Ht. reflexivity.
  - intros cid -> Hne Hcast listed.
    unfold sessions_route. rewrite Ha.
    assert (Ht : Js.truthy (Some cid) = true) by (destruct cid; [congruence | reflexivity]).
    assert (Hor : Js.or_else (Some cid) "" = cid) by (destruct cid; reflexivity).
    rewrite Ht, Hor, Hcast. cbn [negb].
    set (found := sortDocs ByCreatedAtDesc _).
    assert (Hfound : forall d, In d found <-> listed d).
    { intros d. subst found listed. cbn beta.
      rewrite In_sortDocs, filter_In, andb_true_iff, String.eqb_eq,
        QR_listedActive_spec. tauto. }
    destruct (listed_json_spec db found) as [Hnone Hsome].
    assert (Hbroken : (exists d c, listed d /\
               find (fun c => String.eqb (Course._id c) (castObjectId cid)) (courses db)
               = Some c) <-> listed_json db found = None).
    { rewrite Hnone. split.
      - intros (d & c & Hd & Hc). exists d, c. split; [apply Hfound; exact Hd|].
        destruct Hd as (_ & -> & _). exact Hc.
      - intros (d & c & Hd & Hc). apply Hfound in Hd.
        exists d, c. split; [exact Hd|].
        destruct Hd as (_ & <- & _). exact Hc. }
    destruct (listed_json db found) as [body|] eqn:Hl.
    + split.
      * rewrite Hbroken. split; discriminate.
      * cbn [data]. intros ad H. injection H as <-.
        destruct (Hsome body eq_refl) as [-> Hcourse].
        cbn [activeCount activeSessions] in *.
        split; [symmetry; apply length_map|]. split; [|exact Hcourse].
        intros p. rewrite in_map_iff. split.
        -- intros (d & <- & Hd). exists d. split; [reflexivity|].
           apply Hfound. exact Hd.
        -- intros (d & -> & Hd). exists d. split; [reflexivity|].
           apply Hfound. exact Hd.
    + split.
      * rewrite Hbroken. split; reflexivity.
      * cbn [data serverError fail]. intros ad H. discriminate.
Qed.

(** X14.  [getExpired] returns exactly the stored sessions that are
    flagged [expired] or whose expiry is before the current time; none
    of them is in an active listing; and a cancelled session whose
    expiry has not passed is in neither. *)
Theorem QR_getExpired_exact (now : Time) (coll : list QR.t) (d : QR.t) :
  (In d (QR_getExpired now coll) <->
   In d coll /\ (QR.status d = expired \/
                 exists e, QR.expiresAt d = Some e /\ e < now)) /\
  (In d (QR_getExpired now coll) -> QR_listedActive now d = false) /\
  (QR.status d = cancelled ->
   (forall e, QR.expiresAt d = Some e -> now <= e) ->
   ~ In d (QR_getExpired now coll) /\ QR_listedActive now d = false).
Proof using sortDocs_perm.
  clear startOfDay.
  assert (Hexp : QR_listedExpired now d = true <->
                 QR.status d = expired \/ exists e, QR.expiresAt d = Some e /\ e < now).
  { unfold QR_listedExpired. rewrite orb_true_iff, QRStatus_eqb_eq.
    destruct (QR.expiresAt d) as [e|].
    - rewrite Z.ltb_lt. split.
      + intros [H | H]; [right; eauto | left; exact H].
      + intros [H | (e' & He & Hlt)]; [right; exact H | left; congruence].
    - split.
      + intros [H | H]; [discriminate | left; exact H].
      + intros [H | (e' & He & _)]; [right; exact H | discriminate]. }
  unfold QR_getExpired. rewrite In_sortDocs, filter_In, Hexp.
  split; [tauto|]. split.
  - intros [_ H]. destruct (QR_listedActive now d) eqn:Hl; [|reflexivity].
    apply QR_listedActive_spec in Hl as [Hs (e & He & Hlt)].
    destruct H as [H | (e' & He' & Hlt')]; [congruence|].
    assert (e' = e) by congruence. lia.
  - intros Hs Hnot. split.
    + intros [_ [H | (e & He & Hlt)]]; [congruence|].
      specialize (Hnot e He). lia.
    + destruct (QR_listedActive now d) eqn:Hl; [|reflexivity].
      apply QR_listedActive_spec in Hl as [Hs' _]. congruence.
Qed.

(** ** Statistics *)



(** ** The clean-up *)


Lemma QR_validate_set_status (st : QRStatus) (d : QR.t) :
  QR_validate (QR.set_status st d) = QR_validate d.
Proof. destruct d. reflexivity. Qed.



(** ** The instance methods of the QR model *)

Lemma QR_saveExisting_total (t : Time) (d : QR.t) (coll : list QR.t) :
  QR_validate d = true ->
  QR_saveExisting t d coll
  = Some (QR_preSave t d,
          map (fun r => if String.eqb (QR._id r) (QR._id d) then QR_preSave t d else r) coll).
Proof.
  intros Hv. unfold QR_saveExisting. rewrite Hv, QR_preSave_id. reflexivity.
Qed.

Lemma QR_preSave_status_if (t : Time) (d : QR.t) :
  QR.status (QR_preSave t d) = if QR_isExpired t d then expired else QR.status d.
Proof.
  unfold QR_preSave, QR_isExpired.
  destruct (QR.expiresAt d); [destruct (_ <? _)|]; reflexivity.
Qed.

Lemma QR_byId_saved (t : Time) (d s : QR.t) (coll : list QR.t) :
  QR_byId (QR._id d) coll = Some s ->
  QR_byId (QR._id d)
    (map (fun r => if String.eqb (QR._id r) (QR._id d) then QR_preSave t d else r) coll)
  = Some (QR_preSave t d).
Proof.
  intros Hs. rewrite (QR_byId_replace _ (QR._id d)) by apply QR_preSave_id.
  rewrite String.eqb_refl, Hs. reflexivity.
Qed.

Lemma QR_cancel_total (t_save : Time) (d : QR.t) (coll : list QR.t) :
  QR_validate d = true ->
  QR_cancel t_save d coll
  = Some (QR_preSave t_save (QR.set_status cancelled d),
          map (fun r => if String.eqb (QR._id r) (QR._id d)
                        then QR_preSave t_save (QR.set_status cancelled d) else r) coll).
Proof.
  intros Hv. unfold QR_cancel.
  rewrite QR_saveExisting_total by (rewrite QR_validate_set_status; exact Hv).
  reflexivity.
Qed.

(** X17.  [cancel()] on a well-formed session always saves, but the
    state it leaves is [cancelled] only while the expiry is not passed:
    when the expiry is before the clock of the save, the save hook
    overrides the assignment and the session is stored as [expired].
    The expiry itself is not changed. *)
Theorem QR_cancel_status (t_save : Time) (d : QR.t) (coll : list QR.t) :
  QR_validate d = true ->
  exists d' coll',
    QR_cancel t_save d coll = Some (d', coll') /\
    QR.status d' = (if QR_isExpired t_save d then expired else cancelled) /\
    QR.expiresAt d' = QR.expiresAt d /\
    (forall s, QR_byId (QR._id d) coll = Some s -> QR_byId (QR._id d) coll' = Some d').
Proof.
  intros Hv. rewrite (QR_cancel_total t_save d coll Hv).
  eexists; eexists. split; [reflexivity|].
  rewrite QR_preSave_status_if, QR_preSave_expiresAt. repeat split.
  intros s Hs. apply (QR_byId_saved t_save (QR.set_status cancelled d) s coll Hs).
Qed.

(** X18.  After [expire()], a later [cancel()] cannot turn the session
    into a cancelled one: [expire()] sets the expiry to its own clock,
    so at any later save the hook finds the expiry passed and stores
    [expired] again, with the expiry that [expire()] set. *)
Theorem QR_expire_then_cancel (t1 t2 t3 : Time) (d : QR.t) (coll : list QR.t) :
  QR_validate d = true ->
  t1 < t3 ->
  exists d1 coll1 d2 coll2,
    QR_expire t1 t2 d coll = Some (d1, coll1) /\
    QR_cancel t3 d1 coll1 = Some (d2, coll2) /\
    QR.status d1 = expired /\
    QR.status d2 = expired /\
    QR.expiresAt d2 = Some t1.
Proof.
  clear isObjectId Date_parse startOfDay qrImage sortDocs sortDocs_perm.
  intros Hv Hlt. unfold QR_expire.
  rewrite QR_saveExisting_total by (apply QR_validate_expire; exact Hv).
  set (d1 := QR_preSave t2 _).
  assert (Hd1 : d1 = QR.set_expiresAt (Some t1) (QR.set_status expired d))
    by (apply QR_preSave_expired; reflexivity).
  assert (Hv1 : QR_validate d1 = true)
    by (rewrite Hd1; apply QR_validate_expire; exact Hv).
  exists d1. eexists. eexists. eexists. split; [reflexivity|].
  split; [apply (QR_cancel_total t3 d1 _ Hv1)|].
  split; [rewrite Hd1; reflexivity|].
  rewrite QR_preSave_status_if, QR_preSave_expiresAt.
  unfold QR_isExpired. rewrite Hd1. cbn [QR.expiresAt QR.set_expiresAt QR.set_status].
  apply Z.ltb_lt in Hlt. rewrite Hlt. split; reflexivity.
Qed.

(** X19.  [recordScan()] does not look at the state of the session: on
    every well-formed session, active or not, it saves and stamps the
    scan time, and it adds one to the scan counter as long as the
    counter is below 2^53; a counter that has reached 2^53 stays there
    (the sum is not a number, and is rounded back).  The status is kept
    unless the expiry is before the clock of the save, in which case the
    session is stored as [expired]. *)
Theorem QR_recordScan_any_status (t_set t_save : Time) (d : QR.t) (coll : list QR.t) :
  QR_validate d = true ->
  exists d' coll',
    QR_recordScan t_set t_save d coll = Some (d', coll') /\
    QR.scannedCount d' = Js.num_succ (QR.scannedCount d) /\
    (- 2 ^ 53 <= QR.scannedCount d < 2 ^ 53 ->
     QR.scannedCount d' = QR.scannedCount d + 1) /\
    (QR.scannedCount d = 2 ^ 53 -> QR.scannedCount d' = 2 ^ 53) /\
    QR.lastScannedAt d' = Some t_set /\
    QR.status d' = (if QR_isExpired t_save d then expired else QR.status d) /\
    (forall s, QR_byId (QR._id d) coll = Some s -> QR_byId (QR._id d) coll' = Some d').
Proof.
  intros Hv. unfold QR_recordScan.
  set (d0 := QR.set_lastScannedAt _ _).
  assert (Hv0 : QR_validate d0 = true) by (destruct d; exact Hv).
  rewrite QR_saveExisting_total by exact Hv0.
  eexists; eexists. split; [reflexivity|].
  rewrite QR_preSave_status_if.
  assert (Hn : QR.scannedCount (QR_preSave t_save d0) = Js.num_succ (QR.scannedCount d)).
  { unfold QR_preSave. destruct (QR.expiresAt d0); [destruct (_ <? _)|]; reflexivity. }
  rewrite Hn. split; [reflexivity|]. split; [|split; [|split; [|split]]].
  - intros [Hlo Hhi]. unfold Js.num_succ.
    apply Z.leb_le in Hlo. apply Z.ltb_lt in Hhi. rewrite Hlo, Hhi. reflexivity.
  - intros ->. reflexivity.
  - unfold QR_preSave. destruct (QR.expiresAt d0); [destruct (_ <? _)|]; reflexivity.
  - reflexivity.
  - intros s Hs. apply (QR_byId_saved t_save d0 s coll Hs).
Qed.

(** X20.  Saving a new, well-formed session is refused exactly when a
    stored session has its [_id] or its [sessionId]; otherwise the
    session is stored: it is found by its [_id] afterwards, as the hook
    left it, and every other lookup by [_id] gives what it gave
    before. *)
Theorem QR_saveNew_spec (t : Time) (d : QR.t) (coll : list QR.t) :
  QR_validate d = true ->
  (QR_saveNew t d coll = None <->
   exists r, In r coll /\ (QR._id r = QR._id d \/ QR.sessionId r = QR.sessionId d)) /\
  (forall d' coll', QR_saveNew t d coll = Some (d', coll') ->
     d' = QR_preSave t d /\
     QR_byId (QR._id d) coll' = Some d' /\
     forall id, id <> QR._id d -> QR_byId id coll' = QR_byId id coll).
Proof.
  clear isObjectId Date_parse startOfDay qrImage sortDocs sortDocs_perm.
  intros Hv.
  assert (Hsid : QR.sessionId (QR_preSave t d) = QR.sessionId d).
  { unfold QR_preSave. destruct (QR.expiresAt d); [destruct (_ <? _)|]; reflexivity. }
  assert (Hex : existsb (fun r => String.eqb (QR._id r) (QR._id (QR_preSave t d))
                                  || String.eqb (QR.sessionId r)
                                                (QR.sessionId (QR_preSave t d))) coll = true
                <-> exists r, In r coll /\
                      (QR._id r = QR._id d \/ QR.sessionId r = QR.sessionId d)).
  { rewrite existsb_exists, QR_preSave_id, Hsid.
    split; intros (r & Hin & H); exists r; (split; [exact Hin|]).
    - apply orb_true_iff in H. rewrite !String.eqb_eq in H. exact H.
    - apply orb_true_iff. rewrite !String.eqb_eq. exact H. }
  unfold QR_saveNew. rewrite Hv. cbv zeta.
  destruct (existsb _ coll) eqn:E.
  - split; [split; auto; intros _; apply Hex; reflexivity | discriminate].
  - split.
    + split; [discriminate|]. intros H. apply Hex in H. discriminate.
    + intros d' coll' H. injection H as <- <-. split; [reflexivity|].
      assert (Hnone : QR_byId (QR._id d) coll = None).
      { unfold QR_byId. destruct (find _ coll) as [r|] eqn:Hf; [|reflexivity].
        apply find_some in Hf as [Hin Hid]. apply String.eqb_eq in Hid.
        assert (false = true) by (apply Hex; eauto).
        discriminate. }
      assert (Happ : forall id, QR_byId id (coll ++ [QR_preSave t d])
                = match QR_byId id coll with
                  | Some r => Some r
                  | None => if String.eqb (QR._id d) id then Some (QR_preSave t d) else None
                  end).
      { intros id. unfold QR_byId. clear. induction coll as [|r l IH]; cbn [app find].
        - rewrite QR_preSave_id. reflexivity.
        - destruct (String.eqb (QR._id r) id); [reflexivity | exact IH]. }
      split.
      * rewrite Happ, Hnone, String.eqb_refl. reflexivity.
      * intros id Hne. rewrite Happ.
        destruct (QR_byId id coll); [reflexivity|].
        destruct (String.eqb (QR._id d) id) eqn:E'; [|reflexivity].
        apply String.eqb_eq in E'. congruence.
Qed.

(** ** What the routes write *)

Lemma expire_route_cases (db : Db) (user : option ReqUser.t) (id : string)
    (t_set t_save : Time) :
  (success (fst (expire_route db user id t_set t_save)) = false /\
   snd (expire_route db user id t_set t_save) = db) \/
  (exists saved coll,
     expire_route db user id t_set t_save
     = (mkResp 200 true "QR session expired successfully" (Some saved),
        set_qrs coll db)).
Proof.
  unfold expire_route.
  destruct (requireLecturer user) as [r|u] eqn:Hr.
  { left. split; [|reflexivity].
    unfold requireLecturer, requireRole in Hr.
    destruct user as [v|]; [destruct (negb _)|]; try discriminate;
      injection Hr as <-; reflexivity. }
  destruct (findById (qrs db) (Some id)) as [[s|]|]; try (left; split; reflexivity).
  destruct (notOwner u _); [left; split; reflexivity|].
  destruct (QR_saveExisting _ _ _) as [[saved coll]|]; [|left; split; reflexivity].
  right. eauto.
Qed.

Lemma requireAdmin_inl (user : option ReqUser.t) (r : Resp unit) :
  requireAdmin user = inl r -> success r = false.
Proof.
  unfold requireAdmin, requireRole.
  destruct user as [v|]; [destruct (negb _)|]; try discriminate;
    intros H; injection H as <-; reflexivity.
Qed.

(** X21.  A request that is not answered with success writes nothing:
    for the mark route, the expire route and the two user routes, a
    response with [success: false] comes with the database exactly as it
    was. *)
Theorem failed_requests_write_nothing (db : Db) :
  (forall tok q now newId,
     success (fst (mark db tok q now newId)) = false ->
     snd (mark db tok q now newId) = db) /\
  (forall user id t_set t_save,
     success (fst (expire_route db user id t_set t_save)) = false ->
     snd (expire_route db user id t_set t_save) = db) /\
  (forall user id v,
     success (fst (users_activate db user id v)) = false ->
     snd (users_activate db user id v) = db) /\
  (forall user id,
     success (fst (users_delete db user id)) = false ->
     snd (users_delete db user id) = db).
Proof.
  repeat split.
  - intros tok q now newId Hf.
    destruct (mark db tok q now newId) as [r db'] eqn:Hm. simpl in *.
    apply mark_cases in Hm
      as [[_ ->] | [(e & saved & coll & _ & -> & _) | (a & saved & coll & _ & -> & _)]];
      [reflexivity | discriminate | discriminate].
  - intros user id t_set t_save Hf.
    destruct (expire_route_cases db user id t_set t_save)
      as [[_ H] | (saved & coll & H)]; [exact H|].
    rewrite H in Hf. discriminate.
  - intros user id v. unfold users_activate.
    destruct (requireAdmin user); [reflexivity|].
    destruct v; [|reflexivity].
    destruct (findById (users db) (Some id)) as [[u|]|]; simpl; auto; discriminate.
  - intros user id. unfold users_delete.
    destruct (requireAdmin user); [reflexivity|].
    destruct (findById (users db) (Some id)) as [[u|]|]; simpl; auto; discriminate.
Qed.

(** X22.  The create branch of the mark route.  When the caller is
    authenticated, the request passes the checks, no stored record has
    the given student, course (the [ObjectId]s the two ids are cast to)
    and date, none has the student, course and start of that day, none
    has the new [_id], and the trimmed note has a [length] of at most
    200, the route answers 201 and appends one record: that student and
    course, the status as given, the date moved to the start of its day,
    the note trimmed, the caller as marking actor and no originating
    session. *)
Theorem mark_creates (db : Db) (tok : Token) (user : ReqUser.t) (q : MarkQuery.t)
    (now : Time) (newId : ObjectId) (st : AttStatus) (stu : User.t)
    (c : Course.t) (d : Time) :
  authenticateToken db tok = inr user ->
  Js.truthy (MarkQuery.studentId q) = true ->
  Js.truthy (MarkQuery.courseId q) = true ->
  Js.truthy (MarkQuery.date q) = true ->
  Js.truthy (MarkQuery.status q) = true ->
  parseStatus (Js.or_else (MarkQuery.status q) "") = Some st ->
  findById (users db) (MarkQuery.studentId q) = Some (Some stu) ->
  User.role stu = student ->
  findById (courses db) (MarkQuery.courseId q) = Some (Some c) ->
  Date_parse (Js.or_else (MarkQuery.date q) "") = Some d ->
  let sid := castObjectId (Js.or_else (MarkQuery.studentId q) "") in
  let cid := castObjectId (Js.or_else (MarkQuery.courseId q) "") in
  let rec := Attendance.mk newId sid cid (startOfDay d) st
               (option_map Js.trim (MarkQuery.notes q))
               (Js.toString (ReqUser.userId user)) None now in
  Attendance_findOne sid cid d (attendances db) = None ->
  (forall r, In r (attendances db) ->
             Attendance._id r <> newId /\ Attendance_key r <> (sid, cid, startOfDay d)) ->
  Attendance_validate rec = true ->
  mark db tok q now newId
  = (mkResp 201 true "Attendance marked successfully" (Some rec),
     set_attendances (attendances db ++ [rec]) db).
Proof.
  intros Ha H1 H2 H3 H4 Hst Hstu Hrole Hc Hd sid cid rec Hfind Hfresh Hval.
  unfold mark. rewrite Ha.
  unfold mark_handler. rewrite H1, H2, H3, H4. cbn [negb orb].
  rewrite Hst, Hstu, Hrole. cbn [Role_eqb negb]. rewrite Hc, Hd.
  fold sid cid. rewrite Hfind.
  unfold Attendance_saveNew.
  set (a := Attendance.mk newId sid cid d st _ _ None now).
  assert (Hva : Attendance_validate a = true) by exact Hval.
  rewrite Hva.
  assert (Hpre : Attendance_preSave a = rec) by reflexivity.
  rewrite Hpre.
  assert (Hex : existsb (fun r => String.eqb (Attendance._id r) (Attendance._id rec)
                                  || key_eqb (Attendance_key r) (Attendance_key rec))
                        (attendances db) = false).
  { destruct (existsb _ (attendances db)) eqn:E; [|reflexivity].
    apply existsb_exists in E as (r & Hin & Hr).
    destruct (Hfresh r Hin) as [Hid Hk].
    apply orb_true_iff in Hr as [Hr | Hr].
    - apply String.eqb_eq in Hr. contradiction.
    - apply key_eqb_eq in Hr. contradiction. }
  rewrite Hex. reflexivity.
Qed.

(** X23.  The lookup of the mark route uses the date as given, the
    unique index the start of its day.  So when the request passes the
    checks, no stored record has exactly the given date, but one is
    stored for the same student and course at the start of that day,
    the route fails with 500 and writes nothing. *)
Theorem mark_same_day_refused (db : Db) (user : ReqUser.t) (q : MarkQuery.t)
    (now : Time) (newId : ObjectId) (st : AttStatus) (stu : User.t)
    (c : Course.t) (d : Time) (r : Attendance.t) :
  Js.truthy (MarkQuery.studentId q) = true ->
  Js.truthy (MarkQuery.courseId q) = true ->
  Js.truthy (MarkQuery.date q) = true ->
  Js.truthy (MarkQuery.status q) = true ->
  parseStatus (Js.or_else (MarkQuery.status q) "") = Some st ->
  findById (users db) (MarkQuery.studentId q) = Some (Some stu) ->
  User.role stu = student ->
  findById (courses db) (MarkQuery.courseId q) = Some (Some c) ->
  Date_parse (Js.or_else (MarkQuery.date q) "") = Some d ->
  let sid := castObjectId (Js.or_else (MarkQuery.studentId q) "") in
  let cid := castObjectId (Js.or_else (MarkQuery.courseId q) "") in
  Attendance_findOne sid cid d (attendances db) = None ->
  In r (attendances db) ->
  Attendance_key r = (sid, cid, startOfDay d) ->
  mark_handler db user q now newId
  = (serverError "Server error while marking attendance", db).
Proof.
  intros H1 H2 H3 H4 Hst Hstu Hrole Hc Hd sid cid Hfind Hin Hk.
  unfold mark_handler. rewrite H1, H2, H3, H4. cbn [negb orb].
  rewrite Hst, Hstu, Hrole. cbn [Role_eqb negb]. rewrite Hc, Hd.
  fold sid cid. rewrite Hfind.
  unfold Attendance_saveNew.
  destruct (Attendance_validate _); [|reflexivity].
  set (a' := Attendance_preSave _).
  assert (Hex : existsb (fun r => String.eqb (Attendance._id r) (Attendance._id a')
                                  || key_eqb (Attendance_key r) (Attendance_key a'))
                        (attendances db) = true).
  { apply existsb_exists. exists r. split; [exact Hin|].
    apply orb_true_iff. right. apply key_eqb_eq. rewrite Hk. reflexivity. }
  rewrite Hex. reflexivity.
Qed.

(** ** Accounts *)

Lemma find_User_setActive (id id' : ObjectId) (v : bool) (coll : list User.t) :
  find (fun u => String.eqb (User._id u) id') (User_setActive id v coll)
  = if String.eqb id id'
    then option_map (fun u => User.mk (User._id u) (User.name u) (User.email u)
                                      (User.role u) v)
           (find (fun u => String.eqb (User._id u) id) coll)
    else find (fun u => String.eqb (User._id u) id') coll.
Proof.
  destruct (String.eqb id id') eqn:E.
  - apply String.eqb_eq in E. subst id'.
    induction coll as [|u rest IH]; cbn [User_setActive find option_map]; [reflexivity|].
    destruct (String.eqb (User._id u) id) eqn:Eu.
    + cbn [find User._id]. rewrite Eu. reflexivity.
    + cbn [find]. rewrite Eu. exact IH.
  - induction coll as [|u rest IH]; cbn [User_setActive find]; [reflexivity|].
    destruct (String.eqb (User._id u) id) eqn:Eu.
    + apply String.eqb_eq in Eu. cbn [find User._id]. rewrite Eu, E. reflexivity.
    + cbn [find]. destruct (String.eqb (User._id u) id'); [reflexivity | exact IH].
Qed.

(** X24.  Deactivating an account locks it out: after the route PUT
    /api/users/:id/activate has answered 200 to [isActive: false], a
    token of that user is refused with 401 "Account is deactivated",
    the tokens of all other users (ids that are cast to another
    [ObjectId]) are treated as before, and activating the account again
    lets the user back in. *)
Theorem deactivation_locks_out (db : Db) (caller : option ReqUser.t) (id : string) :
  code (fst (users_activate db caller id (Some false))) = 200%nat ->
  let db' := snd (users_activate db caller id (Some false)) in
  authenticateToken db' (Decoded id) = inl (fail 401 "Account is deactivated") /\
  (forall id', castObjectId id' <> castObjectId id ->
     authenticateToken db' (Decoded id') = authenticateToken db (Decoded id')) /\
  (exists u,
     authenticateToken (snd (users_activate db' caller id (Some true))) (Decoded id)
     = inr u).
Proof.
  intros H200 db'.
  set (oid := castObjectId id).
  assert (Hpass : exists u,
            isObjectId id = true /\
            find (fun d => String.eqb (User._id d) oid) (users db) = Some u /\
            users db' = User_setActive oid false (users db) /\
            (forall l, snd (users_activate (set_users l db') caller id (Some true))
                       = set_users (if match find (fun d => String.eqb (User._id d) oid) l with
                                        | Some _ => true | None => false end
                                    then User_setActive oid true l else l) db')).
  { subst db'. revert H200. unfold users_activate.
    destruct (requireAdmin caller) as [r|a] eqn:Hr.
    { intros H. exfalso. unfold requireAdmin, requireRole in Hr.
      destruct caller as [v|]; [destruct (negb _)|]; try discriminate;
        injection Hr as <-; discriminate. }
    unfold findById. destruct (isObjectId id) eqn:Hc; [|discriminate].
    unfold get_id, User_HasId. fold oid.
    destruct (find (fun d => String.eqb (User._id d) oid) (users db)) as [u|] eqn:Hf;
      [|discriminate].
    intros _. exists u. repeat split.
    intros l. cbn [snd users set_users].
    destruct (find _ l); reflexivity. }
  destruct Hpass as (u & Hc & Hf & Husers & Hre).
  assert (Hfind' : forall v l,
            find (fun d => String.eqb (User._id d) oid) l = Some u ->
            find (fun d => String.eqb (User._id d) oid) (User_setActive oid v l)
            = Some (User.mk (User._id u) (User.name u) (User.email u) (User.role u) v)).
  { intros v l Hl. rewrite find_User_setActive, String.eqb_refl, Hl. reflexivity. }
  split; [|split].
  - unfold authenticateToken, findById. rewrite Hc. unfold get_id, User_HasId.
    fold oid. rewrite Husers, (Hfind' false _ Hf). reflexivity.
  - intros id' Hne. unfold authenticateToken, findById.
    destruct (isObjectId id'); [|reflexivity]. unfold get_id, User_HasId.
    rewrite Husers, find_User_setActive.
    assert (E : String.eqb oid (castObjectId id') = false)
      by (apply String.eqb_neq; subst oid; congruence).
    rewrite E. reflexivity.
  - replace db' with (set_users (users db') db') by (destruct db'; reflexivity).
    rewrite Hre, Husers, (Hfind' false _ Hf).
    unfold authenticateToken, findById. rewrite Hc. unfold get_id, User_HasId.
    cbn [users set_users]. fold oid.
    rewrite find_User_setActive, String.eqb_refl, (Hfind' false _ Hf).
    cbn [option_map User.isActive negb]. eauto.
Qed.

(** X25.  The model's [updateStatus] and the update branch of the mark
    route write the same thing when a non-empty note or no note is
    given, and differ on the empty note: the method stores it, the route
    keeps the old note.  A status outside the enumeration makes the
    method's save fail. *)
Theorem Attendance_updateStatus_vs_route (newStatus : string) (st : AttStatus)
    (notes : Js.Param) (now : Time) (d : Attendance.t) (coll : list Attendance.t) :
  parseStatus newStatus = Some st ->
  (notes <> Some "" ->
   Attendance_updateStatus newStatus notes now d coll
   = Attendance_saveExisting (Attendance_overwrite st notes now d) coll) /\
  Attendance_updateStatus newStatus (Some "") now d coll
  = Attendance_saveExisting
      (Attendance.set_notes (Some "") (Attendance_overwrite st (Some "") now d)) coll /\
  Attendance.notes (Attendance_overwrite st (Some "") now d) = Attendance.notes d.
Proof.
  intros Hst. unfold Attendance_updateStatus. rewrite Hst. repeat split.
  intros Hne. f_equal. unfold Attendance_overwrite.
  destruct notes as [[|ch r]|]; [congruence | reflexivity | reflexivity].
Qed.

(** ** What the comparison with [req.user.userId] costs *)

(** X26.  No student ever gets a scanned code validated: for a user
    with role student, as [authenticateToken] presents that user, the
    validate route never answers with success, whatever the payload and
    the enrolment. *)
Theorem student_never_validates (db : Db) (tok : Token) (u : ReqUser.t)
    (qrCode : QrCodeParam) (now : Time) :
  authenticateToken db tok = inr u ->
  ReqUser.role u = student ->
  success (fst (validate db tok qrCode now)) = false.
Proof.
  intros Ha Hrole. unfold validate. rewrite Ha.
  apply authenticateToken_userId in Ha as [h Hh].
  unfold validate_handler.
  destruct qrCode as [| |p]; try reflexivity.
  destruct (findById (qrs db) (QrPayload.sessionId p)) as [[s|]|]; try reflexivity.
  destruct (payloadExpired now (QrPayload.expiresAt p)); [reflexivity|].
  destruct (negb (QRStatus_eqb (QR.status s) active)); [reflexivity|].
  rewrite Hrole. cbn [Role_eqb].
  destruct (findById (courses db) (QrPayload.courseId p)) as [[course|]|];
    try reflexivity.
  rewrite (enrolled_Oid u course h Hh). reflexivity.
Qed.

(** X27.  No lecturer ever expires a session through the route: for a
    user with role lecturer, as [authenticateToken] presents that user,
    PUT /api/qr/:id/expire never answers with success and never writes;
    when the session exists the answer is 403, also for the lecturer who
    created it. *)
Theorem lecturer_never_expires (db : Db) (tok : Token) (u : ReqUser.t)
    (id : string) (t_set t_save : Time) :
  authenticateToken db tok = inr u ->
  ReqUser.role u = lecturer ->
  success (fst (expire_route db (Some u) id t_set t_save)) = false /\
  snd (expire_route db (Some u) id t_set t_save) = db /\
  (forall s, findById (qrs db) (Some id) = Some (Some s) ->
     fst (expire_route db (Some u) id t_set t_save)
     = fail 403 "You can only expire your own QR sessions").
Proof.
  intros Ha Hrole. apply authenticateToken_userId in Ha as [h Hh].
  unfold expire_route, requireLecturer, requireRole. rewrite Hrole.
  cbn [existsb Role_eqb orb negb].
  destruct (findById (qrs db) (Some id)) as [[s|]|].
  - rewrite (notOwner_Oid u _ h Hh), Hrole. cbn [Role_eqb].
    repeat split. 
  - repeat split. intros s H. discriminate.
  - repeat split. intros s H. discriminate.
Qed.

(** X28.  For an administrator and an id the driver can cast, the
    expire route stores exactly what the model's [expire()] stores when
    applied to the stored session: the route's two assignments and save
    are the method's. *)
Theorem expire_route_is_method (db : Db) (u : ReqUser.t) (id : string)
    (t_set t_save : Time) :
  ReqUser.role u = admin ->
  isObjectId id = true ->
  snd (expire_route db (Some u) id t_set t_save)
  = step db (OpExpire (castObjectId id) t_set t_save).
Proof.
  intros Hrole Hc. unfold expire_route, requireLecturer, requireRole.
  rewrite Hrole. cbn [existsb Role_eqb orb negb step].
  unfold findById. rewrite Hc. unfold get_id, QR_HasId, onDocument, QR_byId.
  destruct (find _ (qrs db)) as [s|]; [|reflexivity].
  unfold notOwner. rewrite Hrole. cbn [Role_eqb andb].
  unfold QR_expire.
  destruct (QR_saveExisting _ _ _) as [[saved coll]|]; reflexivity.
Qed.

Lemma onDocument_users_courses
    (method : QR.t -> list QR.t -> option (QR.t * list QR.t))
    (id : ObjectId) (db : Db) :
  users (onDocument method id db) = users db /\
  courses (onDocument method id db) = courses db.
Proof.
  unfold onDocument. destruct (QR_byId id (qrs db)) as [d|]; [|auto].
  destruct (method d (qrs db)) as [[? ?]|]; auto.
Qed.

Lemma step_users_courses (db : Db) (op : Op) :
  users (step db op) = users db /\ courses (step db op) = courses db.
Proof.
  destruct op; cbn [step]; try apply onDocument_users_courses.
  - destruct (generate_never_persists db user q now t_save newId newSessionId) as [-> _].
    auto.
  - rewrite validate_readonly. auto.
  - destruct (expire_route_cases db user id t_set t_save)
      as [[_ ->] | (saved & coll & ->)]; auto.
  - destruct (mark db tok q now newId) as [r db'] eqn:Hm. cbn [snd].
    apply mark_cases in Hm
      as [[_ ->] | [(e & saved & coll & _ & _ & ->) | (a & saved & coll & _ & _ & ->)]];
      auto.
  - auto.
Qed.

(** X29.  No operation on sessions or attendance touches an account or
    a course: after every sequence of operations (the QR routes, the
    mark route, the model's methods, the clean-up) the users and the
    courses are the ones before. *)
Theorem run_keeps_users_courses (ops : list Op) (db : Db) :
  users (run db ops) = users db /\ courses (run db ops) = courses db.
Proof.
  revert db. induction ops as [|op ops IH]; intros db; [auto|].
  cbn [run fold_left]. fold (run (step db op) ops).
  destruct (IH (step db op)) as [-> ->]. apply step_users_courses.
Qed.

End Backend.

(** ** Worked examples on the sample database *)

(** Ada's request, as the authentication middleware builds it. *)
Lemma authenticate_admin (att : list Attendance.t) (qr : list QR.t) :
  authenticateToken Sample.isObjectId Sample.castObjectId (Sample.dbWith att qr) (Decoded Sample.adminId)
  = inr (ReqUser.mk (Js.Oid Sample.adminId) "ada@edutend.test" admin "Ada").
Proof. reflexivity. Qed.

(** *** C1 *)

(** Two mark calls for Sam on 2025-01-20.  The first, by Lee, finds no
    record and creates one; the second, by Ada, names the day alone,
    finds that record and updates it: one record, now [late]. *)
Lemma attendance_unique_per_triple_witness :
  let db1 := run Sample.isObjectId Sample.castObjectId Sample.Date_parse
               Sample.startOfDay Sample.qrImage (Sample.dbWith [] [])
               [ OpMark (Decoded Sample.lecturerId)
                   (Sample.markQuery Sample.studentAId "2025-01-20T10:00:00.000Z"
                      "present" None)
                   Sample.t1000 Sample.attId ] in
  let out := mark Sample.isObjectId Sample.castObjectId Sample.Date_parse
               Sample.startOfDay db1 (Decoded Sample.adminId)
               (Sample.markQuery Sample.studentAId "2025-01-20" "late" None)
               Sample.t1100 Sample.freshId in
  unique_keys (attendances (Sample.dbWith [] [])) /\
  attendances db1
  = [Attendance.mk Sample.attId Sample.studentAId Sample.courseId Sample.day present
       None Sample.lecturerId None Sample.t1000] /\
  code (fst out) = 200%nat /\
  attendances (snd out)
  = [Attendance.mk Sample.attId Sample.studentAId Sample.courseId Sample.day late
       None Sample.lecturerId None Sample.t1100] /\
  forall k, (count_key k (attendances (snd out)) <= 1)%nat.
Proof.
  intros db1 out.
  assert (Hu : unique_keys (attendances (Sample.dbWith [] []))) by constructor.
  split; [exact Hu|]. split; [reflexivity|].
  destruct (attendance_unique_per_triple Sample.isObjectId Sample.castObjectId
              Sample.Date_parse Sample.startOfDay Sample.qrImage
              [ OpMark (Decoded Sample.lecturerId)
                  (Sample.markQuery Sample.studentAId "2025-01-20T10:00:00.000Z"
                     "present" None)
                  Sample.t1000 Sample.attId ]
              (Sample.dbWith [] []) Hu) as (_ & Hcall & _).
  assert (Hacc : mark_accepts Sample.isObjectId Sample.castObjectId Sample.Date_parse
                   db1 (Sample.markQuery Sample.studentAId "2025-01-20" "late" None)
                   late Sample.studentAId Sample.courseId Sample.day).
  { refine (conj eq_refl (conj eq_refl (conj eq_refl (conj eq_refl (conj eq_refl
              (conj _ (conj _ (conj eq_refl (conj eq_refl eq_refl))))))))).
    - exists (User.mk Sample.studentAId "Sam" "sam@edutend.test" student true).
      split; reflexivity.
    - exists (Course.mk Sample.courseId "Programming" "CS101" (Some Sample.lecturerId)
                [Sample.studentAId]).
      reflexivity. }
  destruct (Hcall (Decoded Sample.adminId) Sample.asAda
              (Sample.markQuery Sample.studentAId "2025-01-20" "late" None)
              Sample.t1100 Sample.freshId late Sample.studentAId Sample.courseId
              Sample.day eq_refl Hacc) as (Hone & _ & Hupdate).
  destruct (Hupdate (Attendance.mk Sample.attId Sample.studentAId Sample.courseId
                       Sample.day present None Sample.lecturerId None Sample.t1000)
              eq_refl) as [Hiff Hdone].
  destruct (Hdone (Hiff eq_refl)) as (Hcode & Hatt & _).
  split; [exact Hcode|]. split; [|exact Hone].
  etransitivity; [exact Hatt | reflexivity].
Defined.

(** *** C6 *)

(** A cancelled session stays out of [active] through a scan, a bare
    save, the expire route and the clean-up. *)
Lemma session_state_monotonic_witness :
  exists s',
    QR_byId Sample.qrId
      (qrs (run Sample.isObjectId Sample.castObjectId Sample.Date_parse Sample.startOfDay Sample.qrImage
              (Sample.dbWith [] [Sample.session cancelled Sample.t1100])
              [ OpRecordScan Sample.qrId Sample.t0930 Sample.t0930;
                OpSave Sample.qrId Sample.t0930;
                OpExpireRoute
                  (Some (ReqUser.mk (Js.Oid Sample.adminId) "ada@edutend.test" admin "Ada"))
                  Sample.qrId Sample.t1000 Sample.t1000;
                OpCleanup Sample.t1100 (fun _ => Sample.t1100) ]))
    = Some s' /\ QR.status s' <> active.
Proof.
  apply (session_state_monotonic Sample.isObjectId Sample.castObjectId Sample.Date_parse
           Sample.startOfDay Sample.qrImage _ _ Sample.qrId
           (Sample.session cancelled Sample.t1100)).
  - reflexivity.
  - discriminate.
Defined.

(** *** C10 *)

(** Saving, at 11:00, an active session that ran until 10:00: it is
    written as [expired]. *)
Lemma QR_save_forces_expired_witness :
  QR_saveExisting Sample.t1100 (Sample.session active Sample.t1000)
    [Sample.session active Sample.t1000]
  = Some (Sample.session expired Sample.t1000, [Sample.session expired Sample.t1000]) /\
  QR.status (Sample.session expired Sample.t1000) = expired /\
  ~ (QR.status (Sample.session expired Sample.t1000) = active /\
     exists e, QR.expiresAt (Sample.session expired Sample.t1000) = Some e /\
               e < Sample.t1100).
Proof.
  split; [reflexivity|].
  destruct (QR_save_forces_expired Sample.t1100 (Sample.session active Sample.t1000)
              (Sample.session expired Sample.t1000)
              [Sample.session active Sample.t1000]
              [Sample.session expired Sample.t1000]
              (or_intror eq_refl)) as (_ & Hpast & Hnever).
  split; [|exact Hnever].
  apply (Hpast Sample.t1000); reflexivity.
Defined.

(** *** C2 *)

(** At 11:00 Ada presents the payload of a session that ran until
    10:00. *)
Lemma validate_expired_payload_witness :
  validate Sample.isObjectId Sample.castObjectId Sample.Date_parse
    (Sample.dbWith [] [Sample.session active Sample.t1000])
    (Decoded Sample.adminId) (Sample.payload "2025-01-20T10:00:00.000Z") Sample.t1100
  = (mkResp 400 false "QR code has expired"
       (Some (ExpiredData (Some Sample.qrId) (Some Sample.courseId)
                (Some "2025-01-20T10:00:00.000Z"))),
     Sample.dbWith [] [Sample.session active Sample.t1000]).
Proof.
  apply (validate_expired_payload Sample.isObjectId Sample.castObjectId Sample.Date_parse
           (Sample.dbWith [] [Sample.session active Sample.t1000])
           (Decoded Sample.adminId)
           (ReqUser.mk (Js.Oid Sample.adminId) "ada@edutend.test" admin "Ada")
           (QrPayload.mk (Some Sample.qrId) (Some Sample.courseId)
              (Some "2025-01-20T10:00:00.000Z"))
           Sample.t1100 (Sample.session active Sample.t1000)
           "2025-01-20T10:00:00.000Z" Sample.t1000).
  - reflexivity.
  - reflexivity.
  - reflexivity.
  - reflexivity.
  - reflexivity.
Defined.

(** Two stored sessions whose expiry is in the past when the payload
    is presented.  The first is still flagged [active]: the call fails
    as expired, but the stored status stays [active].  The second was
    expired by hand at 09:30 and its payload still reads 11:00: at
    10:00 the call fails as "not active", not as expired. *)
Lemma validate_expired_counterexample :
  (let db := Sample.dbWith [] [Sample.session active Sample.t1000] in
   let out := validate Sample.isObjectId Sample.castObjectId Sample.Date_parse db (Decoded Sample.adminId)
                (Sample.payload "2025-01-20T10:00:00.000Z") Sample.t1100 in
   QR.expiresAt (Sample.session active Sample.t1000) = Some Sample.t1000 /\
   Sample.t1000 < Sample.t1100 /\
   message (fst out) = "QR code has expired" /\
   QR_byId Sample.qrId (qrs (snd out)) = Some (Sample.session active Sample.t1000) /\
   QR.status (Sample.session active Sample.t1000) <> expired)
  /\
  (let db := Sample.dbWith [] [Sample.session expired Sample.t0930] in
   let out := validate Sample.isObjectId Sample.castObjectId Sample.Date_parse db (Decoded Sample.adminId)
                (Sample.payload "2025-01-20T11:00:00.000Z") Sample.t1000 in
   QR.expiresAt (Sample.session expired Sample.t0930) = Some Sample.t0930 /\
   Sample.t0930 < Sample.t1000 /\
   fst out = mkResp 400 false "QR session is not active"
               (Some (InactiveData (Some Sample.qrId) (Some Sample.courseId) expired)) /\
   message (fst out) <> "QR code has expired").
Proof.
  split; cbv zeta; repeat split; try reflexivity; try discriminate.
Qed.

(** *** C3 *)

(** At 09:30 Ada presents the payload of a session that runs until
    10:00: the answer is a success with the name and code of CS101, the
    fields of the stored session and the name of Lee, who created it. *)
Lemma validate_only_validates_witness :
  fst (validate Sample.isObjectId Sample.castObjectId Sample.Date_parse
         (Sample.dbWith [] [Sample.session active Sample.t1000])
         (Decoded Sample.adminId) (Sample.payload "2025-01-20T10:00:00.000Z")
         Sample.t0930)
  = mkResp 200 true "QR code is valid"
      (Some (ValidData (Some Sample.qrId) (Some Sample.courseId) "Programming" "CS101"
               (Some Sample.t1000) "Morning Session" (Some "") "Lee")).
Proof.
  destruct (proj1 (proj2 (validate_only_validates Sample.isObjectId Sample.castObjectId
                            Sample.Date_parse Sample.startOfDay Sample.qrImage
                            (Sample.dbWith [] [Sample.session active Sample.t1000])
                            (Decoded Sample.adminId)
                            (Sample.payload "2025-01-20T10:00:00.000Z") Sample.t0930))
              eq_refl)
    as (p & s & c & creator & Hp & Hs & _ & _ & Hc & Hu & Hr).
  injection Hp as <-. injection Hs as <-. injection Hc as <-. injection Hu as <-.
  exact Hr.
Defined.

(** The same successful call leaves the scan counter at 0, the
    last-scan time unset and the attendance collection empty; and Sam,
    who is enrolled in the course, is turned away by the very same
    route, so no record is made for him either. *)
Lemma validate_scan_counterexample :
  (let db := Sample.dbWith [] [Sample.session active Sample.t1000] in
   let out := validate Sample.isObjectId Sample.castObjectId Sample.Date_parse db (Decoded Sample.adminId)
                (Sample.payload "2025-01-20T10:00:00.000Z") Sample.t0930 in
   success (fst out) = true /\
   exists s, QR_byId Sample.qrId (qrs (snd out)) = Some s /\
             QR.scannedCount s = 0 /\ QR.scannedCount s <> 0 + 1 /\
             QR.lastScannedAt s = None /\
             attendances (snd out) = [])
  /\
  (let db := Sample.dbWith [] [Sample.session active Sample.t1000] in
   let out := validate Sample.isObjectId Sample.castObjectId Sample.Date_parse db (Decoded Sample.studentAId)
                (Sample.payload "2025-01-20T10:00:00.000Z") Sample.t0930 in
   In Sample.studentAId (flat_map Course.students Sample.theCourses) /\
   success (fst out) = false /\
   attendances (snd out) = []).
Proof.
  split; cbv zeta.
  - split; [reflexivity|]. eexists. repeat split; try reflexivity. discriminate.
  - repeat split; try reflexivity. left. reflexivity.
Qed.

(** *** C4 *)

(** C4.  Ada, an administrator, asks for a 60-minute session of the
    existing course CS101.  The route builds the document without
    [qrCodeData], the save is refused by the schema, and the answer is
    500 with no session stored. *)
Theorem generate_fails_on_valid_request :
  generate Sample.isObjectId Sample.castObjectId Sample.qrImage (Sample.dbWith [] [])
    (Some (ReqUser.mk (Js.Oid Sample.adminId) "ada@edutend.test" admin "Ada"))
    (GenerateQuery.mk (Some Sample.courseId) (Some "60") (Some "Morning Session") None)
    Sample.t0930 Sample.t0930 Sample.qrId "m5x1abc"
  = (mkResp 500 false "Server error while generating QR code" None,
     Sample.dbWith [] []).
Proof. reflexivity. Qed.

(** Lee, who teaches CS101, is turned away before that: the ownership
    test compares the lecturer's id, a string, with the [ObjectId] in
    [req.user.userId]. *)
Lemma generate_refuses_owner :
  generate Sample.isObjectId Sample.castObjectId Sample.qrImage (Sample.dbWith [] [])
    (Some (ReqUser.mk (Js.Oid Sample.lecturerId) "lee@edutend.test" lecturer "Lee"))
    (GenerateQuery.mk (Some Sample.courseId) (Some "60") (Some "Morning Session") None)
    Sample.t0930 Sample.t0930 Sample.qrId "m5x1abc"
  = (mkResp 403 false "You can only generate QR codes for your own courses" None,
     Sample.dbWith [] []).
Proof. reflexivity. Qed.

(** *** C5 *)

(** Ada marks Sam absent on 2025-01-20, for which Lee's record exists;
    she writes Sam's id in upper case and the note "x" between two
    no-break spaces. *)
Lemma mark_updates_existing_witness :
  exists saved db',
    mark_handler Sample.isObjectId Sample.castObjectId Sample.Date_parse
      Sample.startOfDay (Sample.dbWith [Sample.record] []) Sample.asAda
      (Sample.markQuery Sample.studentAIdUpper "2025-01-20" "absent"
         (Some Sample.paddedNote))
      Sample.t1000 Sample.freshId
    = (mkResp 200 true "Attendance updated successfully" (Some saved), db') /\
    In (Attendance.mk Sample.attId Sample.studentAId Sample.courseId Sample.day absent
          (Some "x") Sample.lecturerId None Sample.t1000) (attendances db') /\
    map Attendance._id (attendances db') = [Sample.attId] /\
    map Attendance_key (attendances db') = [Attendance_key Sample.record] /\
    users db' = Sample.theUsers /\ courses db' = Sample.theCourses /\ qrs db' = [].
Proof.
  apply (mark_updates_existing Sample.isObjectId Sample.castObjectId Sample.Date_parse
           Sample.startOfDay (Sample.dbWith [Sample.record] []) Sample.asAda
           (Sample.markQuery Sample.studentAIdUpper "2025-01-20" "absent"
              (Some Sample.paddedNote))
           Sample.t1000 Sample.freshId absent
           (User.mk Sample.studentAId "Sam" "sam@edutend.test" student true)
           (Course.mk Sample.courseId "Programming" "CS101" (Some Sample.lecturerId)
              [Sample.studentAId])
           Sample.day Sample.record).
  all: reflexivity.
Defined.

(** After that call the record has the new status, but still Lee's
    note, although the call gave none, and still Lee as marking actor,
    although Ada made the call. *)
Lemma mark_overwrite_counterexample :
  let db := Sample.dbWith [Sample.record] [] in
  let out := mark Sample.isObjectId Sample.castObjectId Sample.Date_parse Sample.startOfDay db
               (Decoded Sample.adminId)
               (Sample.markQuery Sample.studentAId "2025-01-20" "absent" None)
               Sample.t1000 Sample.freshId in
  success (fst out) = true /\
  exists rec,
    attendances (snd out) = [rec] /\
    Attendance.status rec = absent /\
    Attendance.notes rec = Some "on time" /\
    Attendance.notes rec <> None /\
    Attendance.markedBy rec = Sample.lecturerId /\
    Attendance.markedBy rec <> Sample.adminId.
Proof.
  cbv zeta. split; [reflexivity|]. eexists.
  repeat split; try reflexivity; discriminate.
Qed.

(** The same day named with a time of day: the lookup misses the stored
    record, the insert meets the unique index, and the call fails. *)
Lemma mark_same_day_fails :
  mark Sample.isObjectId Sample.castObjectId Sample.Date_parse Sample.startOfDay
    (Sample.dbWith [Sample.record] []) (Decoded Sample.adminId)
    (Sample.markQuery Sample.studentAId "2025-01-20T10:00:00.000Z" "absent" None)
    Sample.t1000 Sample.freshId
  = (mkResp 500 false "Server error while marking attendance" None,
     Sample.dbWith [Sample.record] []).
Proof. reflexivity. Qed.

(** *** C7 *)

(** Ada expires, at 09:30, a session that runs until 10:00. *)
Lemma expire_route_overwrites_witness :
  let db := Sample.dbWith [] [Sample.session cancelled Sample.t1000] in
  let caller := ReqUser.mk (Js.Oid Sample.adminId) "ada@edutend.test" admin "Ada" in
  let s' := QR.set_expiresAt (Some Sample.t0930)
              (QR.set_status expired (Sample.session cancelled Sample.t1000)) in
  let db' := snd (expire_route Sample.isObjectId Sample.castObjectId db (Some caller) Sample.qrId
                    Sample.t0930 Sample.t0930) in
  fst (expire_route Sample.isObjectId Sample.castObjectId db (Some caller) Sample.qrId
         Sample.t0930 Sample.t0930)
  = mkResp 200 true "QR session expired successfully" (Some s') /\
  QR_byId Sample.qrId (qrs db') = Some s' /\
  QR.status s' = expired /\ QR.expiresAt s' = Some Sample.t0930 /\
  users db' = users db /\ courses db' = courses db /\
  attendances db' = attendances db.
Proof.
  apply (expire_route_overwrites Sample.isObjectId Sample.castObjectId
           (Sample.dbWith [] [Sample.session cancelled Sample.t1000])
           (ReqUser.mk (Js.Oid Sample.adminId) "ada@edutend.test" admin "Ada")
           Sample.qrId Sample.t0930 Sample.t0930
           (Sample.session cancelled Sample.t1000)).
  all: reflexivity.
Defined.

(** The session was cancelled, a terminal state: after the call it is
    stored as [expired] with another expiry.  And a session expired at
    09:30 gets the expiry 10:00 when the route is called again then. *)
Lemma expire_route_counterexample :
  (let db := Sample.dbWith [] [Sample.session cancelled Sample.t1000] in
   let out := expire_route Sample.isObjectId Sample.castObjectId db
                (Some (ReqUser.mk (Js.Oid Sample.adminId) "ada@edutend.test" admin "Ada"))
                Sample.qrId Sample.t0930 Sample.t0930 in
   success (fst out) = true /\
   qrs (snd out) = [Sample.session expired Sample.t0930] /\
   qrs (snd out) <> qrs db)
  /\
  (let db := Sample.dbWith [] [Sample.session expired Sample.t0930] in
   let out := expire_route Sample.isObjectId Sample.castObjectId db
                (Some (ReqUser.mk (Js.Oid Sample.adminId) "ada@edutend.test" admin "Ada"))
                Sample.qrId Sample.t1000 Sample.t1000 in
   success (fst out) = true /\
   qrs (snd out) = [Sample.session expired Sample.t1000] /\
   qrs (snd out) <> qrs db).
Proof.
  split; cbv zeta; repeat split; try reflexivity; discriminate.
Qed.

(** *** C8 *)



(** *** C9 *)

(** Sue, a student, who neither teaches CS101 nor administers anything,
    marks Sam absent: the call is answered 201 and the record is
    stored, with Sue as marking actor. *)
Lemma mark_forbidden_counterexample :
  let db := Sample.dbWith [] [] in
  let out := mark Sample.isObjectId Sample.castObjectId Sample.Date_parse Sample.startOfDay db
               (Decoded Sample.studentBId)
               (Sample.markQuery Sample.studentAId "2025-01-20" "absent" None)
               Sample.t1000 Sample.freshId in
  authenticateToken Sample.isObjectId Sample.castObjectId db (Decoded Sample.studentBId)
  = inr (ReqUser.mk (Js.Oid Sample.studentBId) "sue@edutend.test" student "Sue") /\
  code (fst out) = 201%nat /\
  code (fst out) <> 403%nat /\
  attendances (snd out)
  = [Attendance.mk Sample.freshId Sample.studentAId Sample.courseId Sample.day
       absent None Sample.studentBId None Sample.t1000] /\
  attendances (snd out) <> attendances db.
Proof.
  cbv zeta. repeat split; try reflexivity; discriminate.
Qed.

(** ** Worked examples for the middleware, the model and the listings *)

Lemma Sample_insertByExpiry_perm (d : QR.t) (l : list QR.t) :
  Permutation (Sample.insertByExpiry d l) (d :: l).
Proof.
  induction l as [|x rest IH]; cbn [Sample.insertByExpiry]; [reflexivity|].
  destruct (Sample.expiryOf x <=? Sample.expiryOf d); [reflexivity|].
  rewrite IH. apply perm_swap.
Qed.

(** The sample store keeps the documents when it sorts. *)
Lemma Sample_sortDocs_perm (k : SortKey) (l : list QR.t) :
  Permutation (Sample.sortDocs k l) l.
Proof.
  destruct k; cbn [Sample.sortDocs].
  - symmetry. apply Permutation_rev.
  - induction l as [|d l IH]; cbn [fold_right]; [reflexivity|].
    rewrite Sample_insertByExpiry_perm, IH. reflexivity.
Qed.

(** Ada passes all three guards. *)
Lemma require_hierarchy_witness :
  requireLecturer (Some Sample.asAda) = inr Sample.asAda /\
  requireStudent (Some Sample.asAda) = inr Sample.asAda.
Proof.
  destruct (require_hierarchy (Some Sample.asAda) Sample.asAda) as (H1 & H2 & _).
  split; [apply H1 | apply H2, H1]; reflexivity.
Defined.

(** Lee teaches CS101 and is let through on it. *)
Lemma canAccessResource_lecturer_witness :
  canAccessResource Sample.isObjectId Sample.castObjectId ResCourse (Sample.dbWith [] [])
    (Some Sample.asLee) Sample.courseReq = None.
Proof.
  apply (proj1 (canAccessResource_lecturer Sample.isObjectId Sample.castObjectId (Sample.dbWith [] [])
                  Sample.asLee Sample.courseReq Sample.courseId
                  (Course.mk Sample.courseId "Programming" "CS101"
                     (Some Sample.lecturerId) [Sample.studentAId])
                  Sample.lecturerId
                  eq_refl eq_refl ltac:(discriminate) eq_refl eq_refl)).
  reflexivity.
Defined.

(** The same Lee is refused by the ownership test of the QR routes. *)
Lemma owner_accepted_and_refused_witness :
  canAccessResource Sample.isObjectId Sample.castObjectId ResCourse (Sample.dbWith [] [])
    (Some Sample.asLee) Sample.courseReq = None /\
  notOwner Sample.asLee (Some Sample.lecturerId) = true.
Proof.
  apply (owner_accepted_and_refused Sample.isObjectId Sample.castObjectId (Sample.dbWith [] [])
           (Decoded Sample.lecturerId) Sample.asLee Sample.courseReq Sample.courseId
           (Course.mk Sample.courseId "Programming" "CS101"
              (Some Sample.lecturerId) [Sample.studentAId])
           eq_refl eq_refl eq_refl ltac:(discriminate) eq_refl eq_refl).
Defined.

(** Sue asks for Sam's profile and is refused; for her own she is not. *)
Lemma canAccessResource_user_witness :
  canAccessResource Sample.isObjectId Sample.castObjectId ResUser (Sample.dbWith [] [])
    (Some Sample.asSue) (Sample.profileReq Sample.studentAId)
  = Some (fail 403 "Access denied - can only access own profile") /\
  canAccessResource Sample.isObjectId Sample.castObjectId ResUser (Sample.dbWith [] [])
    (Some Sample.asSue) (Sample.profileReq Sample.studentBId) = None.
Proof.
  split.
  - apply (proj1 (canAccessResource_user Sample.isObjectId Sample.castObjectId (Sample.dbWith [] [])
                    Sample.asSue (Sample.profileReq Sample.studentAId)
                    ltac:(discriminate))).
    exists Sample.studentAId. repeat split; discriminate.
  - apply (proj2 (canAccessResource_user Sample.isObjectId Sample.castObjectId (Sample.dbWith [] [])
                    Sample.asSue (Sample.profileReq Sample.studentBId)
                    ltac:(discriminate))).
    intros (id & H & _ & Hne). injection H as <-. apply Hne. reflexivity.
Defined.

(** Five attempts in fifteen minutes: of seven requests in the first
    minute the first five pass. *)
Lemma rateLimit_window_witness :
  fst (rateLimitRun "login" 5 900000 ∅ "10.0.0.7-login"
         [0; 1000; 2000; 3000; 4000; 5000; 6000])
  = [true; true; true; true; true; false; false].
Proof.
  apply (rateLimit_window "login" 5 900000 ∅ "10.0.0.7-login" 0
           [1000; 2000; 3000; 4000; 5000; 6000]).
  - apply lookup_empty.
  - repeat constructor; lia.
Defined.

(** After the fifteen minutes the client passes again. *)
Lemma rateLimit_after_window_witness :
  fst (rateLimitAction "login" 5 900000
         (snd (rateLimitRun "login" 5 900000 ∅ "10.0.0.7-login"
                 [0; 1000; 2000; 3000; 4000; 5000; 6000]))
         "10.0.0.7-login" 900001)
  = None.
Proof.
  rewrite (rateLimit_after_window "login" 5 900000 ∅ "10.0.0.7-login" 0 900001
             [1000; 2000; 3000; 4000; 5000; 6000]).
  - reflexivity.
  - apply lookup_empty.
  - repeat constructor; lia.
  - lia.
  - lia.
Defined.

(** The requests of one address leave another address without entry. *)
Lemma rateLimit_per_key_witness :
  snd (rateLimitRun "login" 5 900000 ∅ "10.0.0.7-login" [0; 1000; 2000])
    !! "10.0.0.8-login"
  = None.
Proof.
  rewrite (rateLimit_per_key "login" 5 900000 "10.0.0.7-login" "10.0.0.8-login"
             [0; 1000; 2000] ∅).
  - apply lookup_empty.
  - discriminate.
Defined.

(** At 09:30 a session that runs until 10:00 has half an hour left. *)
Lemma QR_timeRemaining_spec_witness :
  exists r,
    QR_timeRemaining Sample.t0930 Sample.t0930 (Sample.session active Sample.t1000)
    = Some r /\ 0 <= r /\
    (0 < r <-> Sample.t0930 <= Sample.t1000 /\ Sample.t0930 < Sample.t1000) /\
    (0 < r -> r = Sample.t1000 - Sample.t0930).
Proof.
  apply (QR_timeRemaining_spec Sample.t0930 Sample.t0930 Sample.t1000
           (Sample.session active Sample.t1000)).
  reflexivity.
Defined.

(** Of a running and a run-out session of CS101, one is returned,
    also when the id is written in upper case. *)
Lemma QR_getActive_exact_witness :
  exists l,
    QR_getActiveForCourse Sample.isObjectId Sample.castObjectId Sample.sortDocs
      Sample.t1000 Sample.courseIdUpper
      [Sample.session active Sample.t0930; Sample.session2 active Sample.t1100]
    = Some l /\ length l = 1%nat /\
    In (Sample.session2 active Sample.t1100) l.
Proof.
  destruct (QR_getActive_exact Sample.isObjectId Sample.castObjectId Sample.sortDocs
              Sample_sortDocs_perm Sample.t1000 Sample.courseIdUpper
              [Sample.session active Sample.t0930; Sample.session2 active Sample.t1100]
              eq_refl) as [(l & Hl & Hlen & Hin) _].
  exists l. split; [exact Hl|]. split; [exact Hlen|].
  apply Hin. split; [right; left; reflexivity|].
  split; [reflexivity|]. split; [reflexivity|].
  exists Sample.t1100. split; reflexivity.
Defined.

(** GET /api/qr/active at 10:00.  With a session of CS101 that runs
    until 11:00 the route fails; with the running session of a deleted
    course (and one of CS101 that ran out at 09:30) it answers. *)
Lemma active_route_lists_live_witness :
  active_route Sample.isObjectId Sample.castObjectId Sample.sortDocs
    (Sample.dbWith []
       [Sample.session active Sample.t0930; Sample.session2 active Sample.t1100])
    (Decoded Sample.adminId) Sample.t1000
  = serverError "Server error while fetching active sessions" /\
  exists ad,
    active_route Sample.isObjectId Sample.castObjectId Sample.sortDocs
      (Sample.dbWith []
         [Sample.session active Sample.t0930; Sample.orphan active Sample.t1100])
      (Decoded Sample.adminId) Sample.t1000
    = mkResp 200 true "" (Some ad).
Proof.
  split.
  - apply (proj1 (active_route_lists_live Sample.isObjectId Sample.castObjectId
                    Sample.sortDocs Sample_sortDocs_perm
                    (Sample.dbWith []
                       [Sample.session active Sample.t0930;
                        Sample.session2 active Sample.t1100])
                    (Decoded Sample.adminId) Sample.t1000 Sample.asAda eq_refl)).
    exists (Sample.session2 active Sample.t1100),
      (Course.mk Sample.courseId "Programming" "CS101" (Some Sample.lecturerId)
         [Sample.studentAId]).
    split; [right; left; reflexivity|]. split; [reflexivity|].
    split; [|reflexivity]. exists Sample.t1100. split; reflexivity.
  - apply (proj1 (proj2 (active_route_lists_live Sample.isObjectId Sample.castObjectId
                           Sample.sortDocs Sample_sortDocs_perm
                           (Sample.dbWith []
                              [Sample.session active Sample.t0930;
                               Sample.orphan active Sample.t1100])
                           (Decoded Sample.adminId) Sample.t1000 Sample.asAda eq_refl))).
    intros (d & c & Hin & _ & (e & He & Hlt) & Hc).
    destruct Hin as [<- | [<- | []]].
    + injection He as <-. discriminate Hlt.
    + discriminate Hc.
Defined.

(** GET /api/qr/sessions at 10:00: no course id; the id of CS101 in
    upper case, with a session of CS101 that runs until 11:00; the id
    of the deleted course, with its running session. *)
Lemma sessions_route_lists_live_witness :
  let db := Sample.dbWith []
              [Sample.session2 active Sample.t1100; Sample.orphan active Sample.t1100] in
  let ad := mkActiveData [populateQR db (Sample.orphan active Sample.t1100)] 1 in
  sessions_route Sample.isObjectId Sample.castObjectId Sample.sortDocs db
    (Decoded Sample.adminId) None Sample.t1000
  = fail 400 "Course ID is required" /\
  sessions_route Sample.isObjectId Sample.castObjectId Sample.sortDocs db
    (Decoded Sample.adminId) (Some Sample.courseIdUpper) Sample.t1000
  = serverError "Server error while fetching active sessions" /\
  data (sessions_route Sample.isObjectId Sample.castObjectId Sample.sortDocs db
          (Decoded Sample.adminId) (Some Sample.goneCourseId) Sample.t1000)
  = Some ad /\
  activeCount ad = length (activeSessions ad) /\
  forall p, In p (activeSessions ad) -> pq_course p = None.
Proof.
  intros db ad.
  destruct (sessions_route_lists_live Sample.isObjectId Sample.castObjectId
              Sample.sortDocs Sample_sortDocs_perm db (Decoded Sample.adminId) None
              Sample.t1000 Sample.asAda eq_refl) as [H400 _].
  destruct (sessions_route_lists_live Sample.isObjectId Sample.castObjectId
              Sample.sortDocs Sample_sortDocs_perm db (Decoded Sample.adminId)
              (Some Sample.courseIdUpper) Sample.t1000 Sample.asAda eq_refl)
    as [_ Hupper].
  destruct (sessions_route_lists_live Sample.isObjectId Sample.castObjectId
              Sample.sortDocs Sample_sortDocs_perm db (Decoded Sample.adminId)
              (Some Sample.goneCourseId) Sample.t1000 Sample.asAda eq_refl)
    as [_ Hgone].
  split; [apply H400; reflexivity|]. split.
  - apply (proj1 (Hupper Sample.courseIdUpper eq_refl ltac:(discriminate) eq_refl)).
    exists (Sample.session2 active Sample.t1100),
      (Course.mk Sample.courseId "Programming" "CS101" (Some Sample.lecturerId)
         [Sample.studentAId]).
    split; [|reflexivity].
    split; [left; reflexivity|]. split; [reflexivity|]. split; [reflexivity|].
    exists Sample.t1100. split; reflexivity.
  - split; [reflexivity|].
    destruct (proj2 (Hgone Sample.goneCourseId eq_refl ltac:(discriminate) eq_refl)
                ad eq_refl) as (Hcount & _ & Hnone).
    split; [exact Hcount | exact Hnone].
Defined.

(** At 10:00: the session that ran out at 09:30 is returned by
    [getExpired], the cancelled one that would run until 11:00 is not. *)
Lemma QR_getExpired_exact_witness :
  In (Sample.session active Sample.t0930)
     (QR_getExpired Sample.sortDocs Sample.t1000
        [Sample.session active Sample.t0930; Sample.session2 cancelled Sample.t1100]) /\
  ~ In (Sample.session2 cancelled Sample.t1100)
       (QR_getExpired Sample.sortDocs Sample.t1000
          [Sample.session active Sample.t0930; Sample.session2 cancelled Sample.t1100]).
Proof.
  split.
  - apply (proj1 (QR_getExpired_exact Sample.sortDocs Sample_sortDocs_perm Sample.t1000
                    [Sample.session active Sample.t0930;
                     Sample.session2 cancelled Sample.t1100]
                    (Sample.session active Sample.t0930))).
    split; [left; reflexivity|]. right. exists Sample.t0930. split; [reflexivity | reflexivity].
  - apply (proj2 (proj2 (QR_getExpired_exact Sample.sortDocs Sample_sortDocs_perm
                           Sample.t1000
                           [Sample.session active Sample.t0930;
                            Sample.session2 cancelled Sample.t1100]
                           (Sample.session2 cancelled Sample.t1100)))).
    + reflexivity.
    + intros e He. injection He as <-. unfold Sample.t1000, Sample.t1100. lia.
Defined.


(** Cancelling, at 10:00, a session that ran out at 09:30 stores it as
    expired. *)
Lemma QR_cancel_status_witness :
  exists d' coll',
    QR_cancel Sample.t1000 (Sample.session active Sample.t0930)
      [Sample.session active Sample.t0930] = Some (d', coll') /\
    QR.status d' = expired /\
    QR.expiresAt d' = Some Sample.t0930 /\
    (forall s, QR_byId Sample.qrId [Sample.session active Sample.t0930] = Some s ->
               QR_byId Sample.qrId coll' = Some d').
Proof.
  apply (QR_cancel_status Sample.t1000 (Sample.session active Sample.t0930)
           [Sample.session active Sample.t0930]).
  reflexivity.
Defined.

(** Expired at 09:30, cancelled at 10:00: still expired. *)
Lemma QR_expire_then_cancel_witness :
  exists d1 coll1 d2 coll2,
    QR_expire Sample.t0930 Sample.t0930 (Sample.session active Sample.t1100)
      [Sample.session active Sample.t1100] = Some (d1, coll1) /\
    QR_cancel Sample.t1000 d1 coll1 = Some (d2, coll2) /\
    QR.status d1 = expired /\
    QR.status d2 = expired /\
    QR.expiresAt d2 = Some Sample.t0930.
Proof.
  apply (QR_expire_then_cancel Sample.t0930 Sample.t0930 Sample.t1000
           (Sample.session active Sample.t1100) [Sample.session active Sample.t1100]).
  - reflexivity.
  - reflexivity.
Defined.

(** A scan recorded at 09:30 on a cancelled session with 3 scans, and
    on one whose counter stands at 2^53. *)
Lemma QR_recordScan_any_status_witness :
  (exists d' coll',
     QR_recordScan Sample.t0930 Sample.t0930 (Sample.session2 cancelled Sample.t1000)
       [Sample.session2 cancelled Sample.t1000] = Some (d', coll') /\
     QR.scannedCount d' = 4 /\
     QR.lastScannedAt d' = Some Sample.t0930 /\
     QR.status d' = cancelled) /\
  (exists d' coll',
     QR_recordScan Sample.t0930 Sample.t0930
       (QR.set_scannedCount (2 ^ 53) (Sample.session2 active Sample.t1000))
       [QR.set_scannedCount (2 ^ 53) (Sample.session2 active Sample.t1000)]
     = Some (d', coll') /\
     QR.scannedCount d' = 2 ^ 53).
Proof.
  split.
  - destruct (QR_recordScan_any_status Sample.t0930 Sample.t0930
                (Sample.session2 cancelled Sample.t1000)
                [Sample.session2 cancelled Sample.t1000] eq_refl)
      as (d' & coll' & Hs & _ & Hn & _ & Ht & Hst & _).
    exists d', coll'. split; [exact Hs|]. split; [|split; [exact Ht | exact Hst]].
    apply Hn. split; [discriminate | reflexivity].
  - destruct (QR_recordScan_any_status Sample.t0930 Sample.t0930
                (QR.set_scannedCount (2 ^ 53) (Sample.session2 active Sample.t1000))
                [QR.set_scannedCount (2 ^ 53) (Sample.session2 active Sample.t1000)]
                eq_refl)
      as (d' & coll' & Hs & _ & _ & Hmax & _).
    exists d', coll'. split; [exact Hs|]. apply Hmax. reflexivity.
Defined.

(** A second session is stored beside the first; the first again is
    refused. *)
Lemma QR_saveNew_spec_witness :
  QR_saveNew Sample.t0930 (Sample.session active Sample.t1000)
    [Sample.session active Sample.t1000] = None /\
  QR_saveNew Sample.t0930 (Sample.session2 active Sample.t1000)
    [Sample.session active Sample.t1000] <> None.
Proof.
  split.
  - apply (proj1 (QR_saveNew_spec Sample.t0930 (Sample.session active Sample.t1000)
                    [Sample.session active Sample.t1000] eq_refl)).
    exists (Sample.session active Sample.t1000). split; [left; reflexivity|].
    left; reflexivity.
  - intros H.
    apply (proj1 (QR_saveNew_spec Sample.t0930 (Sample.session2 active Sample.t1000)
                    [Sample.session active Sample.t1000] eq_refl)) in H.
    destruct H as (r & [<- | []] & [H | H]); discriminate H.
Defined.

(** Lee's attempt to expire the session is refused and writes nothing. *)
Lemma failed_requests_write_nothing_witness :
  snd (expire_route Sample.isObjectId Sample.castObjectId
         (Sample.dbWith [] [Sample.session active Sample.t1000])
         (Some Sample.asLee) Sample.qrId Sample.t0930 Sample.t0930)
  = Sample.dbWith [] [Sample.session active Sample.t1000].
Proof.
  apply (proj1 (proj2 (failed_requests_write_nothing Sample.isObjectId Sample.castObjectId
                         Sample.Date_parse Sample.startOfDay
                         (Sample.dbWith [] [Sample.session active Sample.t1000])))).
  reflexivity.
Defined.

(** Ada marks Sam present at 10:00 on 2025-01-20, with Sam's id in
    upper case and the note "x" between two no-break spaces. *)
Lemma mark_creates_witness :
  let rec := Attendance.mk Sample.freshId Sample.studentAId Sample.courseId Sample.day
               present (Some "x") Sample.adminId None Sample.t1000 in
  mark Sample.isObjectId Sample.castObjectId Sample.Date_parse Sample.startOfDay
    (Sample.dbWith [] []) (Decoded Sample.adminId)
    (Sample.markQuery Sample.studentAIdUpper "2025-01-20T10:00:00.000Z" "present"
       (Some Sample.paddedNote))
    Sample.t1000 Sample.freshId
  = (mkResp 201 true "Attendance marked successfully" (Some rec),
     Sample.dbWith [rec] []).
Proof.
  apply (mark_creates Sample.isObjectId Sample.castObjectId Sample.Date_parse
           Sample.startOfDay (Sample.dbWith [] []) (Decoded Sample.adminId) Sample.asAda
           (Sample.markQuery Sample.studentAIdUpper "2025-01-20T10:00:00.000Z" "present"
              (Some Sample.paddedNote))
           Sample.t1000 Sample.freshId present
           (User.mk Sample.studentAId "Sam" "sam@edutend.test" student true)
           (Course.mk Sample.courseId "Programming" "CS101" (Some Sample.lecturerId)
              [Sample.studentAId])
           Sample.t1000).
  all: try reflexivity.
  intros r [].
Defined.

(** Sam is marked for 2025-01-20; a second call names 10:00 of that
    day. *)
Lemma mark_same_day_refused_witness :
  mark_handler Sample.isObjectId Sample.castObjectId Sample.Date_parse Sample.startOfDay
    (Sample.dbWith [Sample.record] []) Sample.asAda
    (Sample.markQuery Sample.studentAId "2025-01-20T10:00:00.000Z" "absent" None)
    Sample.t1000 Sample.freshId
  = (serverError "Server error while marking attendance",
     Sample.dbWith [Sample.record] []).
Proof.
  apply (mark_same_day_refused Sample.isObjectId Sample.castObjectId Sample.Date_parse Sample.startOfDay
           (Sample.dbWith [Sample.record] []) Sample.asAda
           (Sample.markQuery Sample.studentAId "2025-01-20T10:00:00.000Z" "absent" None)
           Sample.t1000 Sample.freshId absent
           (User.mk Sample.studentAId "Sam" "sam@edutend.test" student true)
           (Course.mk Sample.courseId "Programming" "CS101" (Some Sample.lecturerId)
              [Sample.studentAId])
           Sample.t1000 Sample.record).
  all: try reflexivity.
  left; reflexivity.
Defined.

(** Ada deactivates Sam. *)
Lemma deactivation_locks_out_witness :
  let db := Sample.dbWith [] [] in
  let db' := snd (users_activate Sample.isObjectId Sample.castObjectId db (Some Sample.asAda)
                    Sample.studentAId (Some false)) in
  authenticateToken Sample.isObjectId Sample.castObjectId db' (Decoded Sample.studentAId)
  = inl (fail 401 "Account is deactivated") /\
  authenticateToken Sample.isObjectId Sample.castObjectId db' (Decoded Sample.studentBId)
  = authenticateToken Sample.isObjectId Sample.castObjectId db (Decoded Sample.studentBId).
Proof.
  intros db db'.
  destruct (deactivation_locks_out Sample.isObjectId Sample.castObjectId db (Some Sample.asAda)
              Sample.studentAId eq_refl) as (Hout & Hothers & _).
  split; [exact Hout|]. apply Hothers. discriminate.
Defined.

(** Re-marking Sam absent with the note "sick", by the method. *)
Lemma Attendance_updateStatus_vs_route_witness :
  Attendance_updateStatus Sample.startOfDay "absent" (Some "sick") Sample.t1000
    Sample.record [Sample.record]
  = Attendance_saveExisting Sample.startOfDay
      (Attendance_overwrite absent (Some "sick") Sample.t1000 Sample.record)
      [Sample.record].
Proof.
  apply (proj1 (Attendance_updateStatus_vs_route Sample.startOfDay "absent" absent
                  (Some "sick") Sample.t1000 Sample.record [Sample.record] eq_refl)).
  discriminate.
Defined.

(** Sam, enrolled in CS101, scans the code of a running session. *)
Lemma student_never_validates_witness :
  success (fst (validate Sample.isObjectId Sample.castObjectId Sample.Date_parse
                  (Sample.dbWith [] [Sample.session active Sample.t1000])
                  (Decoded Sample.studentAId)
                  (Sample.payload "2025-01-20T10:00:00.000Z") Sample.t0930))
  = false.
Proof.
  apply (student_never_validates Sample.isObjectId Sample.castObjectId Sample.Date_parse
           (Sample.dbWith [] [Sample.session active Sample.t1000])
           (Decoded Sample.studentAId) Sample.asSam
           (Sample.payload "2025-01-20T10:00:00.000Z") Sample.t0930).
  - reflexivity.
  - reflexivity.
Defined.

(** Lee, who created the session, tries to expire it. *)
Lemma lecturer_never_expires_witness :
  fst (expire_route Sample.isObjectId Sample.castObjectId
         (Sample.dbWith [] [Sample.session active Sample.t1000])
         (Some Sample.asLee) Sample.qrId Sample.t0930 Sample.t0930)
  = fail 403 "You can only expire your own QR sessions".
Proof.
  destruct (lecturer_never_expires Sample.isObjectId Sample.castObjectId
              (Sample.dbWith [] [Sample.session active Sample.t1000])
              (Decoded Sample.lecturerId) Sample.asLee Sample.qrId
              Sample.t0930 Sample.t0930 eq_refl eq_refl) as (_ & _ & H).
  apply (H (Sample.session active Sample.t1000)). reflexivity.
Defined.

(** Ada expires the session through the route. *)
Lemma expire_route_is_method_witness :
  snd (expire_route Sample.isObjectId Sample.castObjectId
         (Sample.dbWith [] [Sample.session active Sample.t1000])
         (Some Sample.asAda) Sample.qrId Sample.t0930 Sample.t0930)
  = step Sample.isObjectId Sample.castObjectId Sample.Date_parse Sample.startOfDay Sample.qrImage
      (Sample.dbWith [] [Sample.session active Sample.t1000])
      (OpExpire Sample.qrId Sample.t0930 Sample.t0930).
Proof.
  apply (expire_route_is_method Sample.isObjectId Sample.castObjectId Sample.Date_parse Sample.startOfDay
           Sample.qrImage (Sample.dbWith [] [Sample.session active Sample.t1000])
           Sample.asAda Sample.qrId Sample.t0930 Sample.t0930).
  - reflexivity.
  - reflexivity.
Defined.
